(** * Digital object repository: ingestion, retrieval and notebook Q&A

    A shallow embedding of the backend of the repository: the Fastify
    routes of [routes/documents.js], [routes/texts.js], [routes/urls.js],
    [routes/notebooks.js] and [routes/usage.js], the OpenAI service
    wrapper [services/openai.js], the text [services/scraper.js] builds
    from a PDF and the PostgreSQL schema of [init-db.js]; with them the
    file names of [scripts/export-db.js] and [scripts/import-db.js], and
    the sorting and paging of the item list of the client.

    Conventions of the embedding.
    - JavaScript strings are [string]; a request field that may be missing
      is an [option string].  [!s] on a string is [s = ""].
    - The relational store is a record of tables (lists of rows, in
      insertion order).  [CURRENT_TIMESTAMP] reads the field [clock]; the
      environment advances the clock between requests.
    - Statements of the store fail only through the schema: a column
      the table does not have, and the constraints (primary key, foreign
      key, [VARCHAR] length, the range of [INTEGER], numeric overflow);
      stored vectors and query vectors have the dimension of the
      column.
    - JavaScript numbers and PostgreSQL [double precision] values are
      the rationals a double holds; their arithmetic rounds to the
      nearest double, ties to even ([Double.round]).  pgvector's
      operators deliver finite doubles; a token count is an integer.
    - External services (the OpenAI API, the scraper, pgvector's distance
      operator, the PDF parser) are an oracle record [Services]; every
      request sent to the OpenAI API is appended to a trace. *)

From Stdlib Require Import ZArith QArith Qround Qabs Qpower List String Ascii Bool Lia Lqa.
From Stdlib Require Import Sorting.Sorted Sorting.Permutation.
From Stdlib Require DecimalString.
Import ListNotations.
Open Scope string_scope.
Open Scope Z_scope.

(* ------------------------------------------------------------------ *)
(** ** JavaScript strings *)

Module Js.

(** [!s] for a string [s]. *)
Definition falsy (s : string) : bool :=
  match s with EmptyString => true | String _ _ => false end.

(** [s.length]. *)
Definition length (s : string) : Z := Z.of_nat (String.length s).

(** [s.substring(0, n)]; a negative [n] counts as 0. *)
Definition substring0 (n : Z) (s : string) : string :=
  substring 0 (Z.to_nat n) s.

(** [strings.join(sep)]. *)
Fixpoint join (sep : string) (l : list string) : string :=
  match l with
  | [] => ""
  | [x] => x
  | x :: rest => x ++ sep ++ join sep rest
  end.

(** [s.replace(/\n/g, ' ')]. *)
Fixpoint replace_newlines (s : string) : string :=
  match s with
  | EmptyString => EmptyString
  | String c rest =>
      String (if Ascii.eqb c "010"%char then " "%char else c)
             (replace_newlines rest)
  end.

(** [a || b] on strings. *)
Definition or_else (a : option string) (b : string) : string :=
  match a with
  | Some s => if falsy s then b else s
  | None => b
  end.

(** Template interpolation of a nullable column: [null] prints as
    the four letters. *)
Definition interpolate (x : option string) : string :=
  match x with Some s => s | None => "null" end.

(** A string of [n] copies of [c]. *)
Fixpoint repeat_char (c : ascii) (n : nat) : string :=
  match n with O => EmptyString | S k => String c (repeat_char c k) end.

End Js.

(* ------------------------------------------------------------------ *)
(** ** Numbers *)

Module Num.

(** Rounding to the nearest integer, ties away from zero. *)
Definition round_half_away (x : Q) : Z :=
  if Qle_bool 0 x then Qfloor (x + (1 # 2))
  else - Qfloor (- x + (1 # 2)).

Definition Z_to_string (n : Z) : string :=
  DecimalString.NilZero.string_of_uint (N.to_uint (Z.to_N n)).

(** [x.toFixed(1)]: the sign, then the integer [n] closest to
    [|x| * 10] (the larger one on a tie), printed with one digit after
    the point. *)
Definition toFixed1 (x : Q) : string :=
  let neg := negb (Qle_bool 0 x) in
  let a := if neg then (- x)%Q else x in
  let n := Qfloor (a * 10 + (1 # 2)) in
  (if neg then "-" else "") ++ Z_to_string (n / 10) ++ "." ++ Z_to_string (n mod 10).

(** A value of a [NUMERIC(10, 6)] column (the type of
    [api_usage_logs.cost] in [init-db.js]): an integer count of
    millionths. *)
Record numeric6 := { micros : Z }.

Definition numeric6_value (n : numeric6) : Q := micros n # 1000000.

(** Assignment to a [NUMERIC(10, 6)] column: the value is rounded to
    six decimals (ties away from zero); a rounded value that needs more
    than four digits before the point is an overflow error. *)
Definition to_numeric_10_6 (x : Q) : option numeric6 :=
  let m := round_half_away (x * 1000000) in
  if Z.abs m <? 10 ^ 10 then Some {| micros := m |} else None.

End Num.

(* ------------------------------------------------------------------ *)
(** ** Double precision *)

Module Double.

(** Rounding to the nearest integer, ties to the even one. *)
Definition round_half_even (x : Q) : Z :=
  let f := Qfloor x in
  match (x - inject_Z f ?= 1 # 2)%Q with
  | Lt => f
  | Gt => f + 1
  | Eq => if Z.even f then f else f + 1
  end.

(** [floor (log2 x)] for a positive [x]. *)
Definition ilog2 (x : Q) : Z :=
  let l := Z.log2 (Qnum x) - Z.log2 (Zpos (Qden x)) in
  if Qle_bool (2 ^ l) x then l else l - 1.

(** The exponent of the last bit of the double nearest to [x]: 52 bits
    below the leading bit of [x], and -1074 in the subnormal range. *)
Definition ulp_exponent (x : Q) : Z := Z.max (ilog2 (Qabs x) - 52) (-1074).

(** The double nearest to [x], ties to the even significand; [x] is
    within the range of the finite doubles. *)
Definition round (x : Q) : Q :=
  if Qeq_bool x 0 then 0%Q
  else
    let e := ulp_exponent x in
    (inject_Z (Z.sgn (Qnum x) * round_half_even (Qabs x / 2 ^ e)) * 2 ^ e)%Q.

(** A JavaScript number that is not NaN. *)
Inductive number :=
| Finite (x : Q)
| Infinity (negative : bool).

(** The double an operation delivers for the exact result [x]: past the
    largest finite double it is an infinity. *)
Definition rounded (x : Q) : number :=
  let r := round x in
  if Qle_bool (2 ^ 1024) (Qabs r) then Infinity (negb (Qle_bool 0 x))
  else Finite r.

(** [a * b] on finite doubles. *)
Definition mul (a b : Q) : number := rounded (a * b).

(** The least [n] with [x < 10 ^ n], for a positive [x]. *)
Definition decimal_exponent (x : Q) : Z :=
  let n := ilog2 x * 30103 / 100000 in
  if Qle_bool (10 ^ (n - 1)) x then
    if Qle_bool (10 ^ n) x then
      if Qle_bool (10 ^ (n + 1)) x then n + 2 else n + 1
    else n
  else n - 1.

(** The decimals [s * 10 ^ (n - k)] with [k] digits next to the double
    [x]: the one that reads back as [x], the nearer one if both do, the
    even one if they are as near. *)
Definition candidate (x : Q) (n k : Z) : option (Z * Z) :=
  let scale := (10 ^ (n - k))%Q in
  let lo := Qfloor (x / scale) in
  let hi := lo + 1 in
  let vlo := (inject_Z lo * scale)%Q in
  let vhi := (inject_Z hi * scale)%Q in
  let oklo := Qeq_bool (round vlo) x in
  let okhi := Qeq_bool (round vhi) x in
  if oklo && okhi then
    match (x - vlo ?= vhi - x)%Q with
    | Lt => Some (lo, n - k)
    | Gt => Some (hi, n - k)
    | Eq => Some (if Z.even lo then lo else hi, n - k)
    end
  else if oklo then Some (lo, n - k)
  else if okhi then Some (hi, n - k)
  else None.

(** The search for the least number of digits, from [k] up to
    seventeen. *)
Fixpoint shortest_from (x : Q) (n k : Z) (fuel : nat) : option (Z * Z) :=
  match fuel with
  | O => None
  | S fuel' =>
      match candidate x n k with
      | Some r => Some r
      | None => shortest_from x n (k + 1) fuel'
      end
  end.

(** The digits [Number::toString] writes for a positive double [x]: the
    pair [(s, e)] with the fewest digits in [s] such that [s * 10 ^ e]
    reads back as [x].  Seventeen digits always do for a double. *)
Definition digits (x : Q) : option (Z * Z) :=
  match shortest_from x (decimal_exponent x) 1 17 with
  | Some (s, e) => Some (if s mod 10 =? 0 then (s / 10, e + 1) else (s, e))
  | None => None
  end.

(** The number the text of a double denotes: [String(x)] read as a
    decimal. *)
Definition shortest (x : Q) : Q :=
  if Qeq_bool x 0 then 0%Q
  else
    match shortest_from (Qabs x) (decimal_exponent (Qabs x)) 1 17 with
    | Some (s, e) => (inject_Z (Z.sgn (Qnum x) * s) * 10 ^ e)%Q
    | None => x
    end.

(** [Number::toString] of a positive double of at least [10 ^ 21]: the
    exponential notation. *)
Definition to_exponential (x : Q) : string :=
  match digits x with
  | Some (s, e) =>
      let ds := Num.Z_to_string s in
      let exponent := e + Z.of_nat (String.length ds) - 1 in
      match ds with
      | EmptyString => EmptyString
      | String c EmptyString =>
          String c ("e+" ++ Num.Z_to_string exponent)
      | String c rest =>
          String c ("." ++ rest ++ "e+" ++ Num.Z_to_string exponent)
      end
  | None => EmptyString
  end.

(** [x.toFixed(1)]. *)
Definition toFixed1 (x : number) : string :=
  match x with
  | Infinity negative => if negative then "-Infinity" else "Infinity"
  | Finite q =>
      if Qle_bool (10 ^ 21) (Qabs q) then
        (if Qle_bool 0 q then "" else "-") ++ to_exponential (Qabs q)
      else Num.toFixed1 q
  end.

End Double.

(* ------------------------------------------------------------------ *)
(** ** The store: schema of [init-db.js] *)

(** An embedding vector ([vector(1536)] in the schema). *)
Definition vector := list Q.

(** Table [documents], with the columns [init-db.js] creates. *)
Record Document := {
  doc_id : Z;
  doc_title : string;
  doc_content : option string;
  doc_embedding : option vector;
  doc_created_at : Z;
  doc_file_path : option string
}.

(** Table [notebooks]. *)
Record Notebook := {
  nb_id : Z;
  nb_title : string;
  nb_content : option string;
  nb_created_at : Z;
  nb_updated_at : Z
}.

(** Table [api_usage_logs]. *)
Record UsageLog := {
  log_model : string;
  log_prompt_tokens : Z;
  log_completion_tokens : Z;
  log_total_tokens : Z;
  log_cost : Num.numeric6;
  log_created_at : Z
}.

(** The database.  [notebook_documents] holds the pairs
    [(notebook_id, document_id)]; [next_document_id] is the [SERIAL]
    sequence of [documents]. *)
Record Db := {
  documents : list Document;
  notebooks : list Notebook;
  notebook_documents : list (Z * Z);
  api_usage_logs : list UsageLog;
  next_document_id : Z;
  clock : Z
}.

(** Errors a statement can raise, by SQLSTATE. *)
Inductive PgError :=
| unique_violation               (* 23505 *)
| foreign_key_violation          (* 23503 *)
| string_data_right_truncation   (* 22001 *)
| undefined_column.              (* 42703 *)

Definition pg_code (e : PgError) : string :=
  match e with
  | unique_violation => "23505"
  | foreign_key_violation => "23503"
  | string_data_right_truncation => "22001"
  | undefined_column => "42703"
  end.

(* ------------------------------------------------------------------ *)
(** ** External services *)

(** [response.usage] of the OpenAI API; a missing counter is [None]. *)
Record Usage := {
  prompt_tokens : option Z;
  completion_tokens : option Z;
  total_tokens : option Z
}.

(** Response of [openai.embeddings.create]: [data[i].embedding]. *)
Record EmbeddingResponse := {
  emb_usage : option Usage;
  emb_data : list (option vector)
}.

(** Request of [openai.chat.completions.create]. *)
Record ChatRequest := {
  chat_model : string;
  chat_system : string;
  chat_user : string;
  chat_temperature : Q
}.

(** Response of the chat API: [choices[i].message.content]. *)
Record ChatResponse := {
  chat_usage : option Usage;
  chat_choices : list (option string)
}.

(** Result of [scrapeUrl]. *)
Record Scraped := {
  scraped_title : string;
  scraped_content : string
}.

(** The oracle.  [None] is a thrown exception (transport or API
    failure) for the two OpenAI calls and a [null] result for the
    scraper.  [cosine_distance] is pgvector's operator [<=>]. *)
Record Services := {
  embeddings_create : string -> string -> option EmbeddingResponse;
  chat_completions_create : ChatRequest -> option ChatResponse;
  scrapeUrl : string -> option Scraped;
  cosine_distance : vector -> vector -> Q
}.

(** Requests that reached the OpenAI API. *)
Inductive ApiCall :=
| EmbeddingsCreate (model input : string)
| ChatCompletionsCreate (req : ChatRequest).

(** The state a request runs in: the database, the files written under
    [./uploads], and the trace of API requests (oldest first). *)
Record World := {
  db : Db;
  uploads : list string;
  api_calls : list ApiCall
}.

(* ------------------------------------------------------------------ *)
(** ** A state monad for request handlers *)

Definition M (A : Type) : Type := World -> A * World.

Definition ret {A} (a : A) : M A := fun w => (a, w).

Definition bind {A B} (m : M A) (k : A -> M B) : M B :=
  fun w => let (a, w') := m w in k a w'.

Declare Scope handler_scope.
Delimit Scope handler_scope with handler.
Notation "x <- m ;; k" := (bind m (fun x => k))
  (at level 100, m at next level, right associativity) : handler_scope.
Notation "m ;;; k" := (bind m (fun _ => k))
  (at level 100, right associativity) : handler_scope.
Open Scope handler_scope.

Definition get_db : M Db := fun w => (db w, w).

Definition put_db (d : Db) : M unit :=
  fun w => (tt, {| db := d; uploads := uploads w; api_calls := api_calls w |}).

Definition record_call (c : ApiCall) : M unit :=
  fun w => (tt, {| db := db w; uploads := uploads w;
                   api_calls := api_calls w ++ [c] |}).

Definition write_file (path : string) : M unit :=
  fun w => (tt, {| db := db w; uploads := uploads w ++ [path];
                   api_calls := api_calls w |}).

(* ------------------------------------------------------------------ *)
(** ** SQL building blocks *)

Module Sql.

(** [ORDER BY]: a stable insertion sort for the order [le]. *)
Fixpoint insert_by {A} (le : A -> A -> bool) (x : A) (l : list A) : list A :=
  match l with
  | [] => [x]
  | y :: rest => if le x y then x :: l else y :: insert_by le x rest
  end.

Fixpoint order_by {A} (le : A -> A -> bool) (l : list A) : list A :=
  match l with
  | [] => []
  | x :: rest => insert_by le x (order_by le rest)
  end.

(** [LIMIT n]. *)
Definition limit {A} (n : nat) (l : list A) : list A := firstn n l.

(** Ascending order on a nullable number; [NULL] sorts last. *)
Definition asc_nulls_last (a b : option Q) : bool :=
  match a, b with
  | Some x, Some y => Qle_bool x y
  | Some _, None => true
  | None, Some _ => false
  | None, None => true
  end.

(** [VARCHAR(n)]: a longer value is refused. *)
Definition fits_varchar (n : nat) (s : string) : bool :=
  Nat.leb (String.length s) n.

(** [INTEGER]: a value out of its 32 bits is refused. *)
Definition fits_integer (n : Z) : bool :=
  (-2147483648 <=? n) && (n <=? 2147483647).

End Sql.

(** [documents d JOIN notebook_documents nd ON d.id = nd.document_id
    WHERE nd.notebook_id = nb]: one row per matching pair. *)
Definition notebook_members (d : Db) (nb : Z) : list Document :=
  flat_map
    (fun doc =>
       map (fun _ => doc)
           (filter (fun nd => (fst nd =? nb) && (snd nd =? doc_id doc))
                   (notebook_documents d)))
    (documents d).

(** [SELECT * FROM notebooks WHERE id = $1]. *)
Definition select_notebook (d : Db) (id : Z) : option Notebook :=
  find (fun n => nb_id n =? id) (notebooks d).

(** [UPDATE notebooks SET updated_at = CURRENT_TIMESTAMP WHERE id = $1]. *)
Definition touch_notebook (d : Db) (id : Z) : Db :=
  {| documents := documents d;
     notebooks :=
       map (fun n =>
              if nb_id n =? id
              then {| nb_id := nb_id n; nb_title := nb_title n;
                      nb_content := nb_content n;
                      nb_created_at := nb_created_at n;
                      nb_updated_at := clock d |}
              else n)
           (notebooks d);
     notebook_documents := notebook_documents d;
     api_usage_logs := api_usage_logs d;
     next_document_id := next_document_id d;
     clock := clock d |}.

Definition same_pair (nb doc : Z) (nd : Z * Z) : bool :=
  (fst nd =? nb) && (snd nd =? doc).

(** [INSERT INTO notebook_documents (notebook_id, document_id)]: the
    primary key is checked first, then the two foreign keys. *)
Definition insert_membership (d : Db) (nb doc : Z) : PgError + Db :=
  if existsb (same_pair nb doc) (notebook_documents d) then inl unique_violation
  else if negb (existsb (fun n => nb_id n =? nb) (notebooks d)
                && existsb (fun x => doc_id x =? doc) (documents d))
  then inl foreign_key_violation
  else inr {| documents := documents d;
              notebooks := notebooks d;
              notebook_documents := notebook_documents d ++ [(nb, doc)];
              api_usage_logs := api_usage_logs d;
              next_document_id := next_document_id d;
              clock := clock d |}.

(** [DELETE FROM notebook_documents WHERE notebook_id = $1 AND
    document_id = $2]: the row count and the new database. *)
Definition delete_membership (d : Db) (nb doc : Z) : nat * Db :=
  (List.length (filter (same_pair nb doc) (notebook_documents d)),
   {| documents := documents d;
      notebooks := notebooks d;
      notebook_documents :=
        filter (fun nd => negb (same_pair nb doc nd)) (notebook_documents d);
      api_usage_logs := api_usage_logs d;
      next_document_id := next_document_id d;
      clock := clock d |}).

(** [INSERT INTO documents (...) VALUES (...) RETURNING ...]: the id
    comes from the sequence, [created_at] from the clock.  [source_url]
    and [mime_type] are the values of a statement that names a column
    [source_url] or [mime_type]: the table has no such column, and the
    statement is refused before anything is evaluated. *)
Definition insert_document (d : Db) (title : string) (content : string)
    (embedding : vector) (file_path source_url mime_type : option string)
  : PgError + (Document * Db) :=
  if match source_url, mime_type with
     | None, None => false
     | _, _ => true
     end
  then inl undefined_column
  else if negb (Sql.fits_varchar 255 title) then inl string_data_right_truncation
  else if negb (match file_path with
                | Some p => Sql.fits_varchar 1024 p
                | None => true
                end)
  then inl string_data_right_truncation
  else
    let row := {| doc_id := next_document_id d;
                  doc_title := title;
                  doc_content := Some content;
                  doc_embedding := Some embedding;
                  doc_created_at := clock d;
                  doc_file_path := file_path |} in
    inr (row,
         {| documents := documents d ++ [row];
            notebooks := notebooks d;
            notebook_documents := notebook_documents d;
            api_usage_logs := api_usage_logs d;
            next_document_id := next_document_id d + 1;
            clock := clock d |}).

(** [INSERT INTO api_usage_logs (...)]. *)
Definition insert_usage_log (d : Db) (row : UsageLog) : Db :=
  {| documents := documents d;
     notebooks := notebooks d;
     notebook_documents := notebook_documents d;
     api_usage_logs := api_usage_logs d ++ [row];
     next_document_id := next_document_id d;
     clock := clock d |}.

(* ------------------------------------------------------------------ *)
(** ** [services/openai.js] *)

Definition nl : string := String "010"%char EmptyString.

Definition EMBEDDING_MODEL : string := "text-embedding-ada-002".
Definition COMPLETION_MODEL : string := "gpt-4o-mini".

(** An entry of the price table; a rate the entry does not list is
    [None]. *)
Record ModelPricing := {
  input : option Q;
  output : option Q
}.

(** Pricing per 1,000 tokens in USD: the doubles the literals [0.0001],
    [0.00015] and [0.0006] denote. *)
Definition PRICING : list (string * ModelPricing) :=
  [ (EMBEDDING_MODEL,
     {| input := Some (Double.round (1 # 10000)); output := None |});
    (COMPLETION_MODEL,
     {| input := Some (Double.round (15 # 100000));
        output := Some (Double.round (6 # 10000)) |}) ].

(** [PRICING[model]]. *)
Definition pricing_of (model : string) : option ModelPricing :=
  match find (fun e => String.eqb (fst e) model) PRICING with
  | Some e => Some (snd e)
  | None => None
  end.

(** [rate || 0]. *)
Definition rate_or_zero (r : option Q) : Q :=
  match r with Some q => q | None => 0%Q end.

(** [x = 0] default of a destructured counter. *)
Definition tokens_or_zero (x : option Z) : Z :=
  match x with Some n => n | None => 0 end.

(** The [cost] variable of [logApiUsage]: every operation rounds to a
    double. *)
Definition usage_cost (model : string) (prompt completion : Z) : Q :=
  match pricing_of model with
  | Some modelPricing =>
      let inputCost :=
        Double.round (Double.round (Double.round (inject_Z prompt) / 1000)
                      * rate_or_zero (input modelPricing)) in
      let outputCost :=
        Double.round (Double.round (Double.round (inject_Z completion) / 1000)
                      * rate_or_zero (output modelPricing)) in
      Double.round (inputCost + outputCost)
  | None => 0%Q
  end.

(** The row [INSERT INTO api_usage_logs (model, prompt_tokens,
    completion_tokens, total_tokens, cost) VALUES ($1, ..., $5)] writes
    at [now]: the model is a [VARCHAR(255)], the counters are
    [INTEGER]s; the cost arrives as the text of the number and is rounded
    to the scale of its column.  [None] is an error of the statement. *)
Definition usage_log_row (model : string)
    (prompt completion total : Z) (cost : Q) (now : Z) : option UsageLog :=
  if Sql.fits_varchar 255 model && Sql.fits_integer prompt
     && Sql.fits_integer completion && Sql.fits_integer total
  then
    match Num.to_numeric_10_6 (Double.shortest cost) with
    | Some stored =>
        Some {| log_model := model;
                log_prompt_tokens := prompt;
                log_completion_tokens := completion;
                log_total_tokens := total;
                log_cost := stored;
                log_created_at := now |}
    | None => None
    end
  else None.

(** [logApiUsage(model, usage)]: one row appended to the ledger; an
    error of the insert is logged and swallowed. *)
Definition logApiUsage (model : string) (usage : option Usage) : M unit :=
  let p := match usage with Some u => tokens_or_zero (prompt_tokens u) | None => 0 end in
  let c := match usage with Some u => tokens_or_zero (completion_tokens u) | None => 0 end in
  let t := match usage with Some u => tokens_or_zero (total_tokens u) | None => 0 end in
  let cost := usage_cost model p c in
  d <- get_db ;;
  match usage_log_row model p c t cost (clock d) with
  | Some row => put_db (insert_usage_log d row)
  | None => ret tt
  end.

Definition ANSWER_SYSTEM_PROMPT : string :=
  "You are a helpful assistant that answers questions based on the provided context. Synthesize information from all parts of the context to provide a comprehensive answer. If the answer is not found in the context, say so.".

(** The user message of [getAnswerFromContext]. *)
Definition answer_user_message (question context : string) : string :=
  "Based on the following context, please answer the question." ++ nl ++ nl
  ++ "---" ++ nl ++ nl ++ "CONTEXT:" ++ nl ++ context ++ nl ++ nl
  ++ "---" ++ nl ++ nl ++ "QUESTION: " ++ question.

Section Service.

Context (env : Services).

(** [getEmbedding(text)]. *)
Definition getEmbedding (text : string) : M (option vector) :=
  if Js.falsy text then ret None
  else
    let request_input := Js.replace_newlines text in
    record_call (EmbeddingsCreate EMBEDDING_MODEL request_input) ;;;
    match embeddings_create env EMBEDDING_MODEL request_input with
    | None => ret None
    | Some response =>
        (match emb_usage response with
         | Some u => logApiUsage EMBEDDING_MODEL (Some u)
         | None => ret tt
         end) ;;;
        ret (match emb_data response with
             | [] => None
             | first :: _ => first
             end)
    end.

(** [getAnswerFromContext(question, context)]. *)
Definition getAnswerFromContext (question context : string) : M (option string) :=
  if Js.falsy question || Js.falsy context then ret None
  else
    let req := {| chat_model := COMPLETION_MODEL;
                  chat_system := ANSWER_SYSTEM_PROMPT;
                  chat_user := answer_user_message question context;
                  chat_temperature := 2 # 10 |} in
    record_call (ChatCompletionsCreate req) ;;;
    match chat_completions_create env req with
    | None => ret None
    | Some response =>
        (match chat_usage response with
         | Some u => logApiUsage COMPLETION_MODEL (Some u)
         | None => ret tt
         end) ;;;
        ret (match chat_choices response with
             | [] => None
             | first :: _ => first
             end)
    end.

End Service.

(* ------------------------------------------------------------------ *)
(** ** Replies *)

(** A row of the search result: [id, title, created_at, distance]. *)
Record SearchRow := {
  sr_id : Z;
  sr_title : string;
  sr_created_at : Z;
  sr_distance : option Q
}.

(** A row of the Q&A retrieval: [title, content, similarity]. *)
Record RelevantDoc := {
  rd_title : string;
  rd_content : option string;
  rd_similarity : Q
}.

Inductive Body :=
| ErrorBody (error : string)
| MessageBody (message : string)
| CreatedBody (id : Z) (title : string) (created_at : Z)
| DocumentBody (row : Document)
| SearchBody (rows : list SearchRow)
| NotebookBody (notebook : Notebook) (docs : list Document)
| AnswerBody (answer : string)
| EmptyBody.

Record Reply := {
  status : Z;
  body : Body
}.

Definition send (code : Z) (b : Body) : M Reply :=
  ret {| status := code; body := b |}.

Definition internal_server_error : M Reply :=
  send 500 (ErrorBody "Internal Server Error").

(* ------------------------------------------------------------------ *)
(** ** [routes/documents.js] *)

Definition MAX_DB_STORAGE_LENGTH : Z := 25000.
Definition MAX_EMBEDDING_LENGTH : Z := 15000.
Definition UPLOADS_DIR : string := "uploads".

(** The multipart part of an upload, with what the file system and the
    PDF parser make of its bytes: [unique_filename] is the random name
    the part is saved under, [pdf_pages] the text items of each page
    ([None] when the parser throws), [utf8_text] the bytes read as
    UTF-8.  Saving the part always succeeds here. *)
Record FileData := {
  filename : string;
  mimetype : string;
  unique_filename : string;
  pdf_pages : option (list (list string));
  utf8_text : string
}.

(** The page loop: text of each page joined by spaces, one line per
    page, left as soon as the text is longer than the storage limit. *)
Fixpoint pdf_text_loop (pages : list (list string)) (text : string) : string :=
  match pages with
  | [] => text
  | strings :: rest =>
      let text' := text ++ Js.join " " strings ++ nl in
      if Js.length text' >? MAX_DB_STORAGE_LENGTH then text'
      else pdf_text_loop rest text'
  end.

(** [fullContent] of the upload route; [None] when extraction throws. *)
Definition extract_full_content (f : FileData) : option string :=
  if String.eqb (mimetype f) "application/pdf" then
    match pdf_pages f with
    | Some pages =>
        Some (Js.substring0 MAX_DB_STORAGE_LENGTH (pdf_text_loop pages ""))
    | None => None
    end
  else Some (Js.substring0 MAX_DB_STORAGE_LENGTH (utf8_text f)).

(** Body of a search request. *)
Record SearchRequest := {
  search_query : option string;
  search_limit : option Z
}.

Section Documents.

Context (env : Services).

(** [POST /documents]. *)
Definition post_documents (data : option FileData) : M Reply :=
  match data with
  | None => send 400 (ErrorBody "File is required")
  | Some f =>
      let title := filename f in
      let filePath := UPLOADS_DIR ++ "/" ++ unique_filename f in
      write_file filePath ;;;
      match extract_full_content f with
      | None => internal_server_error
      | Some fullContent =>
          if Js.falsy fullContent then
            send 400 (ErrorBody "Could not extract text from the document.")
          else
            let truncatedForEmbedding :=
              Js.substring0 MAX_EMBEDDING_LENGTH fullContent in
            embedding <- getEmbedding env truncatedForEmbedding ;;
            match embedding with
            | None => send 500 (ErrorBody "Failed to generate embedding")
            | Some e =>
                d <- get_db ;;
                match insert_document d title fullContent e
                                      (Some filePath) None None with
                | inl _ => internal_server_error
                | inr (row, d') =>
                    put_db d' ;;;
                    send 201 (CreatedBody (doc_id row) (doc_title row)
                                          (doc_created_at row))
                end
            end
      end
  end.

(** [SELECT id, title, created_at, (embedding <=> $1) AS distance
    FROM documents ORDER BY distance ASC LIMIT 5]. *)
Definition select_nearest (d : Db) (q : vector) : list SearchRow :=
  Sql.limit 5
    (Sql.order_by
       (fun a b => Sql.asc_nulls_last (sr_distance a) (sr_distance b))
       (map (fun doc =>
               {| sr_id := doc_id doc;
                  sr_title := doc_title doc;
                  sr_created_at := doc_created_at doc;
                  sr_distance :=
                    match doc_embedding doc with
                    | Some e => Some (cosine_distance env e q)
                    | None => None
                    end |})
            (documents d))).

(** [POST /documents/search]: only [query] is read from the body. *)
Definition post_documents_search (req : SearchRequest) : M Reply :=
  match search_query req with
  | None => send 400 (ErrorBody "Query is required")
  | Some query =>
      if Js.falsy query then send 400 (ErrorBody "Query is required")
      else
        embedding <- getEmbedding env query ;;
        match embedding with
        | None =>
            send 500 (ErrorBody "Failed to generate embedding for query")
        | Some e =>
            d <- get_db ;;
            send 200 (SearchBody (select_nearest d e))
        end
  end.

End Documents.

(* ------------------------------------------------------------------ *)
(** ** [routes/texts.js] *)

Section Texts.

Context (env : Services).

(** [POST /texts]. *)
Definition post_texts (title content : option string) : M Reply :=
  match title, content with
  | Some title, Some content =>
      if Js.falsy title || Js.falsy content then
        send 400 (ErrorBody "Title and content are required")
      else
        let truncatedForEmbedding :=
          Js.substring0 MAX_EMBEDDING_LENGTH content in
        embedding <- getEmbedding env truncatedForEmbedding ;;
        match embedding with
        | None => send 500 (ErrorBody "Failed to generate embedding")
        | Some e =>
            d <- get_db ;;
            match insert_document d title content e
                                  None None (Some "text/plain") with
            | inl _ => internal_server_error
            | inr (row, d') => put_db d' ;;; send 201 (DocumentBody row)
            end
        end
  | _, _ => send 400 (ErrorBody "Title and content are required")
  end.

End Texts.

(* ------------------------------------------------------------------ *)
(** ** [routes/urls.js] *)

Section Urls.

Context (env : Services).

(** [POST /urls]. *)
Definition post_urls (url : option string) : M Reply :=
  match url with
  | None => send 400 (ErrorBody "URL is required")
  | Some url =>
      if Js.falsy url then send 400 (ErrorBody "URL is required")
      else
        match scrapeUrl env url with
        | None => send 500 (ErrorBody "Failed to scrape URL")
        | Some scrapedData =>
            let title := scraped_title scrapedData in
            let content := scraped_content scrapedData in
            let truncatedContent := Js.substring0 15000 content in
            embedding <- getEmbedding env truncatedContent ;;
            match embedding with
            | None => send 500 (ErrorBody "Failed to generate embedding")
            | Some e =>
                d <- get_db ;;
                match insert_document d (Js.or_else (Some title) url)
                                      truncatedContent e
                                      None (Some url) (Some "text/html") with
                | inl _ => internal_server_error
                | inr (row, d') => put_db d' ;;; send 201 (DocumentBody row)
                end
            end
        end
  end.

End Urls.

(* ------------------------------------------------------------------ *)
(** ** [routes/notebooks.js] *)

(** The delimiter written after the notes and after every document. *)
Definition delimiter : string := nl ++ nl ++ "---" ++ nl ++ nl.

(** One step of the [forEach] that compiles the context. *)
Definition append_document (context : string) (doc : RelevantDoc) : string :=
  context ++ "Document: " ++ rd_title doc ++ " (Similarity: "
  ++ Double.toFixed1 (Double.mul (rd_similarity doc) 100) ++ "%)" ++ nl
  ++ "Content:" ++ nl ++ Js.interpolate (rd_content doc) ++ delimiter.

(** Step 4 of the Q&A route. *)
Definition compile_context (notebookNotes : string) (rows : list RelevantDoc)
  : string :=
  fold_left append_document rows
            ("Notebook Notes:" ++ nl ++ notebookNotes ++ delimiter).

(** [documentId] of a request body is falsy when missing or [0]. *)
Definition falsy_id (x : option Z) : bool :=
  match x with None => true | Some n => n =? 0 end.

(** [ORDER BY d.created_at DESC]. *)
Definition created_desc (a b : Document) : bool :=
  doc_created_at b <=? doc_created_at a.

Section Notebooks.

Context (env : Services).

(** [GET /notebooks/:id]. *)
Definition get_notebook (id : Z) : M Reply :=
  d <- get_db ;;
  match select_notebook d id with
  | None => send 404 (ErrorBody "Notebook not found")
  | Some notebook =>
      send 200 (NotebookBody notebook
                  (Sql.order_by created_desc (notebook_members d id)))
  end.

(** [POST /notebooks/:notebookId/documents]. *)
Definition post_notebook_documents (notebookId : Z) (documentId : option Z)
  : M Reply :=
  match documentId with
  | None => send 400 (ErrorBody "Document ID is required")
  | Some doc =>
      if falsy_id documentId then
        send 400 (ErrorBody "Document ID is required")
      else
        d <- get_db ;;
        match insert_membership d notebookId doc with
        | inr d' =>
            put_db (touch_notebook d' notebookId) ;;;
            send 201 (MessageBody "Document added to notebook successfully")
        | inl error =>
            if String.eqb (pg_code error) "23505" then
              send 409 (ErrorBody "Document is already in this notebook")
            else internal_server_error
        end
  end.

(** [DELETE /notebooks/:notebookId/documents/:documentId]. *)
Definition delete_notebook_documents (notebookId documentId : Z) : M Reply :=
  d <- get_db ;;
  let (rowCount, d') := delete_membership d notebookId documentId in
  put_db d' ;;;
  if Nat.eqb rowCount 0 then
    send 404 (ErrorBody "Document not found in this notebook")
  else
    put_db (touch_notebook d' notebookId) ;;;
    send 204 EmptyBody.

(** [SELECT d.title, d.content, 1 - (d.embedding <=> $1) AS similarity
    FROM documents d JOIN notebook_documents nd ON d.id = nd.document_id
    WHERE nd.notebook_id = $2 AND d.embedding IS NOT NULL
    ORDER BY d.embedding <=> $1 LIMIT 5].  The rows are kept with their
    distance until the projection. *)
Definition with_distance (q : vector) (docs : list Document)
  : list (Q * Document) :=
  flat_map (fun doc =>
              match doc_embedding doc with
              | Some e => [(cosine_distance env e q, doc)]
              | None => []
              end)
           docs.

Definition nearer (a b : Q * Document) : bool := Qle_bool (fst a) (fst b).

Definition project_relevant (r : Q * Document) : RelevantDoc :=
  {| rd_title := doc_title (snd r);
     rd_content := doc_content (snd r);
     rd_similarity := Double.round (1 - fst r) |}.

Definition ranked_members (d : Db) (q : vector) (id : Z)
  : list (Q * Document) :=
  Sql.limit 5 (Sql.order_by nearer (with_distance q (notebook_members d id))).

Definition select_relevant (d : Db) (q : vector) (id : Z) : list RelevantDoc :=
  map project_relevant (ranked_members d q id).

(** [POST /notebooks/:id/query]. *)
Definition post_notebook_query (id : Z) (question : option string) : M Reply :=
  match question with
  | None => send 400 (ErrorBody "Question is required")
  | Some question =>
      if Js.falsy question then send 400 (ErrorBody "Question is required")
      else
        questionEmbedding <- getEmbedding env question ;;
        match questionEmbedding with
        | None =>
            send 500
              (ErrorBody "Failed to generate embedding for the question.")
        | Some e =>
            d <- get_db ;;
            match select_notebook d id with
            | None => send 404 (ErrorBody "Notebook not found")
            | Some notebook =>
                let notebookNotes := Js.or_else (nb_content notebook) "" in
                let rows := select_relevant d e id in
                let context := compile_context notebookNotes rows in
                answer <- getAnswerFromContext env question context ;;
                match answer with
                | None =>
                    send 500
                      (ErrorBody "Failed to get an answer from the AI service.")
                | Some a =>
                    if Js.falsy a then
                      send 500
                        (ErrorBody "Failed to get an answer from the AI service.")
                    else send 200 (AnswerBody a)
                end
            end
        end
  end.

End Notebooks.

(* ------------------------------------------------------------------ *)
(** ** The three ingestion handlers *)

(** [server.js] registers the routes of [documents.js] and [urls.js];
    the handler of [texts.js] is taken as its file defines it. *)

Inductive Ingestion :=
| UploadFile (data : option FileData)
| ScrapeUrl (url : option string)
| TextBlock (title content : option string).

Definition ingest (env : Services) (req : Ingestion) : M Reply :=
  match req with
  | UploadFile data => post_documents env data
  | ScrapeUrl url => post_urls env url
  | TextBlock title content => post_texts env title content
  end.

(* ------------------------------------------------------------------ *)
(** ** Notions used to state the properties *)

(** The text a page-by-page extraction yields when no page is skipped. *)
Fixpoint pdf_all_pages (pages : list (list string)) : string :=
  match pages with
  | [] => ""
  | strings :: rest => Js.join " " strings ++ nl ++ pdf_all_pages rest
  end.

(** The extracted text of an upload before any length budget. *)
Definition extracted_text (f : FileData) : option string :=
  if String.eqb (mimetype f) "application/pdf" then
    match pdf_pages f with
    | Some pages => Some (pdf_all_pages pages)
    | None => None
    end
  else Some (utf8_text f).

(** The text an ingestion request yields before any length budget:
    the text of the uploaded file, the content the scraper returns, the
    content of the text block. *)
Definition extraction (env : Services) (req : Ingestion) : option string :=
  match req with
  | UploadFile (Some f) => extracted_text f
  | ScrapeUrl (Some url) =>
      if Js.falsy url then None
      else option_map scraped_content (scrapeUrl env url)
  | TextBlock _ (Some content) => Some content
  | _ => None
  end.

(** The content an ingestion request hands to the insert, when it gets
    that far. *)
Definition content_to_store (env : Services) (req : Ingestion) : option string :=
  match req with
  | UploadFile (Some f) =>
      match extract_full_content f with
      | Some full => if Js.falsy full then None else Some full
      | None => None
      end
  | ScrapeUrl (Some url) =>
      if Js.falsy url then None
      else option_map (fun s => Js.substring0 15000 (scraped_content s))
                      (scrapeUrl env url)
  | TextBlock (Some title) (Some content) =>
      if Js.falsy title || Js.falsy content then None else Some content
  | _ => None
  end.

(** The text an ingestion request hands to the embedding client, when
    it gets that far. *)
Definition embedding_text (env : Services) (req : Ingestion) : option string :=
  match req with
  | ScrapeUrl _ => content_to_store env req
  | _ => option_map (Js.substring0 MAX_EMBEDDING_LENGTH) (content_to_store env req)
  end.

(** What each route makes of the extracted text before storing it. *)
Definition stored_form (req : Ingestion) (text : string) : string :=
  match req with
  | UploadFile _ => Js.substring0 MAX_DB_STORAGE_LENGTH text
  | ScrapeUrl _ => Js.substring0 15000 text
  | TextBlock _ _ => text
  end.

Definition is_upload (req : Ingestion) : bool :=
  match req with UploadFile _ => true | _ => false end.

(** The rows of [documents] written between two worlds. *)
Definition added_documents (w w' : World) (rows : list Document) : Prop :=
  documents (db w') = (documents (db w) ++ rows)%list.


(** The input of a request to the embeddings endpoint. *)
Definition embedding_inputs (calls : list ApiCall) : list string :=
  flat_map (fun c => match c with
                     | EmbeddingsCreate _ text => [text]
                     | ChatCompletionsCreate _ => []
                     end) calls.


(** The tables other than the usage ledger agree. *)
Definition same_content (d d' : Db) : Prop :=
  documents d' = documents d /\ notebooks d' = notebooks d
  /\ notebook_documents d' = notebook_documents d
  /\ next_document_id d' = next_document_id d /\ clock d' = clock d.

(** The store without the documents whose embedding is [NULL]. *)
Definition drop_null_embeddings (d : Db) : Db :=
  {| documents :=
       filter (fun doc => match doc_embedding doc with
                          | Some _ => true
                          | None => false
                          end) (documents d);
     notebooks := notebooks d;
     notebook_documents := notebook_documents d;
     api_usage_logs := api_usage_logs d;
     next_document_id := next_document_id d;
     clock := clock d |}.

(** The world with its database rewritten by [f]. *)
Definition map_db (f : Db -> Db) (w : World) : World :=
  {| db := f (db w); uploads := uploads w; api_calls := api_calls w |}.

(** The API requests [getEmbedding] sends: none for an empty text, one
    otherwise, carrying the text with its line breaks replaced. *)
Definition embedding_requests (text : string) : list ApiCall :=
  if Js.falsy text then []
  else [EmbeddingsCreate EMBEDDING_MODEL (Js.replace_newlines text)].

(** The answer generator writes to the ledger only, and sends exactly
    one chat request when both its arguments are non-empty. *)
Definition answer_requests (question context : string) : list ApiCall :=
  if Js.falsy question || Js.falsy context then []
  else [ChatCompletionsCreate
          {| chat_model := COMPLETION_MODEL;
             chat_system := ANSWER_SYSTEM_PROMPT;
             chat_user := answer_user_message question context;
             chat_temperature := 2 # 10 |}].

(** What a route does once it holds a non-rejected request: [text] is
    handed to the embedding client, [content] to the insert. *)
Definition ingestion_outcome (env : Services) (w : World)
    (text content : string) (res : Reply * World) : Prop :=
  let (r, w') := res in
  api_calls w' = (api_calls w ++ embedding_requests text)%list
  /\ match fst (getEmbedding env text w) with
     | None =>
         r = {| status := 500; body := ErrorBody "Failed to generate embedding" |}
         /\ same_content (db w) (db w')
         /\ (Js.falsy text = true
             \/ embeddings_create env EMBEDDING_MODEL (Js.replace_newlines text)
                = None -> db w' = db w)
     | Some e =>
         (r = {| status := 500; body := ErrorBody "Internal Server Error" |}
          /\ same_content (db w) (db w'))
         \/ (status r = 201
             /\ exists row,
                 documents (db w') = (documents (db w) ++ [row])%list
                 /\ doc_content row = Some content
                 /\ doc_embedding row = Some e)
     end.

(** A request turned down before the embedding client is reached. *)
Definition rejected (code : Z) (message : string) (w : World)
    (res : Reply * World) : Prop :=
  fst res = {| status := code; body := ErrorBody message |}
  /\ db (snd res) = db w /\ api_calls (snd res) = api_calls w.

(** The wording of the specification, to compare the code with. *)
Module Spec.

(** A line feed. *)
Definition LF : string := String (ascii_of_nat 10) EmptyString.




(** The static price table, per 1,000 tokens, and the cost formula:
    [promptTokens / 1000 * inputRate + completionTokens / 1000 *
    outputRate]; unknown models cost 0. *)
Definition input_rate (model : string) : Q :=
  if String.eqb model "text-embedding-ada-002" then 1 # 10000
  else if String.eqb model "gpt-4o-mini" then 15 # 100000
  else 0.

Definition output_rate (model : string) : Q :=
  if String.eqb model "gpt-4o-mini" then 6 # 10000 else 0.

Definition cost (model : string) (promptTokens completionTokens : Z) : Q :=
  inject_Z promptTokens / 1000 * input_rate model
  + inject_Z completionTokens / 1000 * output_rate model.

(** The same formula as JavaScript evaluates it: the rates are the
    doubles nearest to the decimal rates, and the two divisions, the two
    products and the sum each round to the nearest double. *)
Definition cost_in_doubles (model : string)
    (promptTokens completionTokens : Z) : Q :=
  Double.round
    (Double.round (Double.round (Double.round (inject_Z promptTokens) / 1000)
                   * Double.round (input_rate model))
     + Double.round (Double.round (Double.round (inject_Z completionTokens) / 1000)
                     * Double.round (output_rate model))).

(** Reciprocal rank fusion, section 4.4. *)
Definition K : Q := 60.

Fixpoint rank_from (r : Z) (id : Z) (ranking : list Z) : option Z :=
  match ranking with
  | [] => None
  | x :: rest => if x =? id then Some r else rank_from (r + 1) id rest
  end.

(** The 1-based rank of [id] in a ranking, if present. *)
Definition rank_of (id : Z) (ranking : list Z) : option Z := rank_from 1 id ranking.

Definition rank_term (r : option Z) : Q :=
  match r with
  | Some r => (1 / (K + inject_Z r))%Q
  | None => 0%Q
  end.

Definition fused_score (vec lex : list Z) (id : Z) : Q :=
  (rank_term (rank_of id vec) + rank_term (rank_of id lex))%Q.

Definition union_ids (vec lex : list Z) : list Z :=
  (vec ++ filter (fun id => negb (existsb (Z.eqb id) vec)) lex)%list.

(** The union of the two top-50 lists, by fused score descending,
    truncated to the limit. *)
Definition fused_results (vec lex : list Z) (limit : nat) : list (Z * Q) :=
  Sql.limit limit
    (Sql.order_by (fun a b => Qle_bool (snd b) (snd a))
       (map (fun id => (id, fused_score (firstn 50 vec) (firstn 50 lex) id))
            (union_ids (firstn 50 vec) (firstn 50 lex)))).

End Spec.

(* ------------------------------------------------------------------ *)
(** ** Concrete services and stores for the examples *)

Module Fixture.

Definition usage_of (p c : Z) : Usage :=
  {| prompt_tokens := Some p;
     completion_tokens := Some c;
     total_tokens := Some (p + c) |}.

(** A one-dimensional stand-in for the distance operator. *)
Definition distance1 (a b : vector) : Q := Qabs (hd 0%Q a - hd 0%Q b).

Definition big_text : string := Js.repeat_char "a"%char (Z.to_nat 25001).

Definition pages_of (url : string) : option Scraped :=
  if String.eqb url "https://example.org/long" then
    Some {| scraped_title := "Long page"; scraped_content := big_text |}
  else if String.eqb url "https://example.org/blank" then
    Some {| scraped_title := "Blank page"; scraped_content := "" |}
  else if String.eqb url "https://example.org/fox" then
    Some {| scraped_title := "Fox"; scraped_content := "The quick brown fox" |}
  else None.

(** Services that answer every request. *)
Definition online : Services :=
  {| embeddings_create := fun _ _ =>
       Some {| emb_usage := Some (usage_of 1 0); emb_data := [Some [0%Q]] |};
     chat_completions_create := fun _ =>
       Some {| chat_usage := Some (usage_of 120 8);
               chat_choices := [Some "Paris."] |};
     scrapeUrl := pages_of;
     cosine_distance := distance1 |}.

(** Services whose OpenAI endpoints throw. *)
Definition offline : Services :=
  {| embeddings_create := fun _ _ => None;
     chat_completions_create := fun _ => None;
     scrapeUrl := pages_of;
     cosine_distance := distance1 |}.

Definition empty_db : Db :=
  {| documents := []; notebooks := []; notebook_documents := [];
     api_usage_logs := []; next_document_id := 1; clock := 1000 |}.

Definition world_of (d : Db) : World :=
  {| db := d; uploads := []; api_calls := [] |}.

Definition doc (id : Z) (title content : string) (e : option vector) : Document :=
  {| doc_id := id; doc_title := title; doc_content := Some content;
     doc_embedding := e; doc_created_at := 100 + id;
     doc_file_path := None |}.

(** Six documents at distances 0.1 .. 0.6 of the query vector [0],
    and a seventh without embedding; notebook 1 holds the documents
    1, 3 and 7. *)
Definition library : Db :=
  {| documents :=
       [ doc 1 "One" "Paris is the capital of France." (Some [1 # 10]);
         doc 2 "Two" "Berlin" (Some [2 # 10]);
         doc 3 "Three" "Rome" (Some [3 # 10]);
         doc 4 "Four" "Madrid" (Some [4 # 10]);
         doc 5 "Five" "Lisbon" (Some [5 # 10]);
         doc 6 "Six" "Vienna" (Some [6 # 10]);
         doc 7 "Seven" "Oslo" None ];
     notebooks :=
       [ {| nb_id := 1; nb_title := "Capitals"; nb_content := Some "My notes";
            nb_created_at := 200; nb_updated_at := 300 |} ];
     notebook_documents := [ (1, 1); (1, 3); (1, 7) ];
     api_usage_logs := [];
     next_document_id := 8;
     clock := 1000 |}.

Definition text_file (content : string) : FileData :=
  {| filename := "notes.txt"; mimetype := "text/plain";
     unique_filename := "0123456789abcdef0123456789abcdef.txt";
     pdf_pages := None; utf8_text := content |}.

(** A store whose distances to the query vector [0] are doubles.
    Notebook 1 holds the documents 1 (at 0.5), 3 (at 0.25), 4 (at 0.75,
    without content) and 7 (without embedding); document 2, the nearest
    of all, is not a member. *)
Definition shelf : Db :=
  {| documents :=
       [ doc 1 "One" "Paris is the capital of France." (Some [1 # 2]);
         doc 2 "Two" "Berlin" (Some [1 # 8]);
         doc 3 "Three" "Rome" (Some [1 # 4]);
         {| doc_id := 4; doc_title := "Four"; doc_content := None;
            doc_embedding := Some [3 # 4]; doc_created_at := 104;
            doc_file_path := None |};
         doc 7 "Seven" "Oslo" None ];
     notebooks :=
       [ {| nb_id := 1; nb_title := "Capitals"; nb_content := Some "My notes";
            nb_created_at := 200; nb_updated_at := 300 |} ];
     notebook_documents := [ (1, 1); (1, 3); (1, 4); (1, 7) ];
     api_usage_logs := [];
     next_document_id := 8;
     clock := 1000 |}.



End Fixture.

(* ------------------------------------------------------------------ *)
(** ** More JavaScript strings *)

Module JsExtra.

(** [s.startsWith(p)]. *)
Definition startsWith (p s : string) : bool := String.prefix p s.

(** White space and line terminators, among the code units below 256:
    tab, line feed, vertical tab, form feed, carriage return, space and
    no-break space. *)
Definition is_space (c : ascii) : bool :=
  let n := nat_of_ascii c in
  (Nat.leb 9 n && Nat.leb n 13) || Nat.eqb n 32 || Nat.eqb n 160.

Fixpoint trimStart (s : string) : string :=
  match s with
  | EmptyString => EmptyString
  | String c rest => if is_space c then trimStart rest else s
  end.

Fixpoint trimEnd (s : string) : string :=
  match s with
  | EmptyString => EmptyString
  | String c rest =>
      match trimEnd rest with
      | EmptyString => if is_space c then EmptyString else String c EmptyString
      | kept => String c kept
      end
  end.

(** [s.trim()]. *)
Definition trim (s : string) : string := trimEnd (trimStart s).

(** The last code unit of a string. *)
Fixpoint last_char (s : string) : option ascii :=
  match s with
  | EmptyString => None
  | String c EmptyString => Some c
  | String _ rest => last_char rest
  end.

(** [s.endsWith(' ')] and [s.startsWith(' ')]. *)
Definition endsWithSpace (s : string) : bool :=
  match last_char s with
  | Some c => Ascii.eqb c " "%char
  | None => false
  end.

Definition startsWithSpace (s : string) : bool :=
  match s with
  | String c _ => Ascii.eqb c " "%char
  | EmptyString => false
  end.

(** A string of white space only. *)
Fixpoint all_space (s : string) : bool :=
  match s with
  | EmptyString => true
  | String c rest => is_space c && all_space rest
  end.

(** A string without line feed. *)
Fixpoint no_line_feed (s : string) : bool :=
  match s with
  | EmptyString => true
  | String c rest => negb (Ascii.eqb c "010"%char) && no_line_feed rest
  end.

(** A string that neither starts nor ends with white space. *)
Definition no_outer_space (s : string) : bool :=
  match s with
  | EmptyString => true
  | String c _ => negb (is_space c)
  end
  && match last_char s with
     | Some c => negb (is_space c)
     | None => true
     end.

(** [Math.ceil(a / b)] for a length [a] and a positive [b]. *)
Definition ceil_div (a b : Z) : Z := (a + b - 1) / b.

End JsExtra.

(* ------------------------------------------------------------------ *)
(** ** Replies of the other routes *)

(** [SELECT id, title, created_at, file_path FROM documents]. *)
Record DocumentListRow := {
  dl_id : Z;
  dl_title : string;
  dl_created_at : Z;
  dl_file_path : option string
}.

(** [SELECT id, title, content, created_at, file_path FROM documents]. *)
Record DocumentDetail := {
  dd_id : Z;
  dd_title : string;
  dd_content : option string;
  dd_created_at : Z;
  dd_file_path : option string
}.

(** [SELECT id, file_path as url, title, created_at FROM documents]. *)
Record UrlRow := {
  ur_id : Z;
  ur_url : option string;
  ur_title : string;
  ur_created_at : Z
}.

(** [SELECT id, title, file_path as url, l2_distance(...) as similarity]. *)
Record UrlSearchRow := {
  us_id : Z;
  us_title : string;
  us_url : option string;
  us_similarity : option Q
}.

(** The aggregate row of the usage report; a sum over no row is [NULL]. *)
Record Totals := {
  total_cost : option Q;
  sum_total_tokens : option Z
}.

Inductive Payload :=
| PError (error : string)
| PEmpty
| PDocumentList (rows : list DocumentListRow)
| PDocumentDetail (row : DocumentDetail)
| PSummary (id : Z) (summary : string)
| PAnalysis (id : Z) (type result : string)
| PNotebook (row : Notebook)
| PNotebookList (rows : list Notebook)
| PUrlList (rows : list UrlRow)
| PUrlSearch (rows : list UrlSearchRow)
| PUsage (logs : list UsageLog) (totals : Totals).

Record Response := {
  code : Z;
  payload : Payload
}.

Definition respond (c : Z) (p : Payload) : M Response :=
  ret {| code := c; payload := p |}.

(* ------------------------------------------------------------------ *)
(** ** [routes/documents.js]: listing, detail and deletion *)

(** [SELECT ... FROM documents WHERE id = $1]: the rows with that id. *)
Definition documents_by_id (d : Db) (id : Z) : list Document :=
  filter (fun doc => doc_id doc =? id) (documents d).

(** [DELETE FROM documents WHERE id = $1]: the row count and the new
    database; the membership rows of the document go with it ([ON DELETE
    CASCADE] on [notebook_documents.document_id]). *)
Definition delete_document_rows (d : Db) (id : Z) : nat * Db :=
  (List.length (documents_by_id d id),
   {| documents := filter (fun doc => negb (doc_id doc =? id)) (documents d);
      notebooks := notebooks d;
      notebook_documents :=
        filter (fun nd => negb (snd nd =? id)) (notebook_documents d);
      api_usage_logs := api_usage_logs d;
      next_document_id := next_document_id d;
      clock := clock d |}).

(** [fs.promises.unlink(path)]: [true] when the file was there and is
    removed, [false] when the call throws. *)
Definition unlink (path : string) : M bool :=
  fun w =>
    if existsb (String.eqb path) (uploads w) then
      (true, {| db := db w;
                uploads := filter (fun p => negb (String.eqb path p)) (uploads w);
                api_calls := api_calls w |})
    else (false, w).

(** [GET /documents]. *)
Definition get_documents : M Response :=
  d <- get_db ;;
  respond 200
    (PDocumentList
       (map (fun doc => {| dl_id := doc_id doc; dl_title := doc_title doc;
                           dl_created_at := doc_created_at doc;
                           dl_file_path := doc_file_path doc |})
            (Sql.order_by created_desc (documents d)))).

(** [GET /documents/:id]. *)
Definition get_document (id : Z) : M Response :=
  d <- get_db ;;
  match documents_by_id d id with
  | [] => respond 404 (PError "Document not found")
  | doc :: _ =>
      respond 200
        (PDocumentDetail
           {| dd_id := doc_id doc; dd_title := doc_title doc;
              dd_content := doc_content doc;
              dd_created_at := doc_created_at doc;
              dd_file_path := doc_file_path doc |})
  end.

(** [DELETE /documents/:id]. *)
Definition delete_document (id : Z) : M Response :=
  d <- get_db ;;
  (match documents_by_id d id with
   | doc :: _ =>
       match doc_file_path doc with
       | Some filePath =>
           if Js.falsy filePath then ret tt
           else if negb (JsExtra.startsWith "http" filePath) then
             (* a failure of the removal is logged and the deletion goes on *)
             _ <- unlink filePath ;; ret tt
           else ret tt
       | None => ret tt
       end
   | [] => ret tt
   end) ;;;
  d <- get_db ;;
  let (rowCount, d') := delete_document_rows d id in
  put_db d' ;;;
  if Nat.eqb rowCount 0 then respond 404 (PError "Document not found")
  else respond 204 PEmpty.

(* ------------------------------------------------------------------ *)
(** ** [services/openai.js]: summaries and insights *)

(** The chat endpoint for the requests that cap the completion:
    [max_tokens] is passed beside the request. *)
Definition LimitedChat : Type := ChatRequest -> Z -> option ChatResponse.

Definition SUMMARY_SYSTEM_PROMPT : string :=
  "You are a helpful assistant that summarizes documents concisely.".

Definition TABLE_OF_CONTENTS_PROMPT : string :=
  "Generate a table of contents for the following document. List the main sections and subsections. If the document is short, create a brief outline.".

Definition KEY_INSIGHTS_PROMPT : string :=
  "Extract the key insights and main takeaways from the following text. Present them as a bulleted list.".

Definition REFLECTION_QUESTIONS_PROMPT : string :=
  "Based on the following text, generate a list of 3-5 thought-provoking reflection questions that challenge the reader to think more deeply about the content.".

(** [response.choices[0]?.message?.content?.trim() || null]. *)
Definition first_choice_trimmed (response : ChatResponse) : option string :=
  match chat_choices response with
  | Some content :: _ =>
      let t := JsExtra.trim content in
      if Js.falsy t then None else Some t
  | _ => None
  end.

(** The shared body of [getSummary] and [generateInsight]: one request,
    the usage logged, the first choice trimmed.  The trace keeps the
    request without its [max_tokens]. *)
Definition complete_trimmed (chat : LimitedChat) (req : ChatRequest)
    (max_tokens : Z) : M (option string) :=
  record_call (ChatCompletionsCreate req) ;;;
  match chat req max_tokens with
  | None => ret None
  | Some response =>
      (match chat_usage response with
       | Some u => logApiUsage COMPLETION_MODEL (Some u)
       | None => ret tt
       end) ;;;
      ret (first_choice_trimmed response)
  end.

(** [getSummary(text)]. *)
Definition getSummary (chat : LimitedChat) (text : string) : M (option string) :=
  if Js.falsy text then ret None
  else
    complete_trimmed chat
      {| chat_model := COMPLETION_MODEL;
         chat_system := SUMMARY_SYSTEM_PROMPT;
         chat_user :=
           "Please provide a concise summary of the following text:"
           ++ nl ++ nl ++ text;
         chat_temperature := 3 # 10 |}
      250.

(** [generateInsight(text, systemPrompt)]. *)
Definition generateInsight (chat : LimitedChat) (text systemPrompt : string)
  : M (option string) :=
  if Js.falsy text then ret None
  else
    complete_trimmed chat
      {| chat_model := COMPLETION_MODEL;
         chat_system := systemPrompt;
         chat_user := text;
         chat_temperature := 5 # 10 |}
      500.

Definition getTableOfContents (chat : LimitedChat) (text : string) :=
  generateInsight chat text TABLE_OF_CONTENTS_PROMPT.

Definition getKeyInsights (chat : LimitedChat) (text : string) :=
  generateInsight chat text KEY_INSIGHTS_PROMPT.

Definition getReflectionQuestions (chat : LimitedChat) (text : string) :=
  generateInsight chat text REFLECTION_QUESTIONS_PROMPT.

(* ------------------------------------------------------------------ *)
(** ** [routes/documents.js]: summary and analysis *)

(** [rows[0].content] of [SELECT content FROM documents WHERE id = $1];
    the outer [None] is an empty result. *)
Definition select_content (d : Db) (id : Z) : option (option string) :=
  match documents_by_id d id with
  | [] => None
  | doc :: _ => Some (doc_content doc)
  end.

(** [GET /documents/:id/summary]. *)
Definition get_document_summary (chat : LimitedChat) (id : Z) : M Response :=
  d <- get_db ;;
  match select_content d id with
  | None => respond 404 (PError "Document not found")
  | Some None => respond 400 (PError "Document has no content to summarize")
  | Some (Some content) =>
      if Js.falsy content then
        respond 400 (PError "Document has no content to summarize")
      else
        summary <- getSummary chat content ;;
        match summary with
        | None => respond 500 (PError "Failed to generate summary")
        | Some s =>
            if Js.falsy s then respond 500 (PError "Failed to generate summary")
            else respond 200 (PSummary id s)
        end
  end.

(** The [switch] of the analysis route: the call of a known type;
    [None] is the [default] branch. *)
Definition analysis_of (chat : LimitedChat) (type content : string)
  : option (M (option string)) :=
  if String.eqb type "table_of_contents"
  then Some (getTableOfContents chat content)
  else if String.eqb type "key_insights"
  then Some (getKeyInsights chat content)
  else if String.eqb type "reflection_questions"
  then Some (getReflectionQuestions chat content)
  else None.

(** [POST /documents/:id/analyze]. *)
Definition post_document_analyze (chat : LimitedChat) (id : Z)
    (type : option string) : M Response :=
  match type with
  | None => respond 400 (PError "Analysis type is required")
  | Some type =>
      if Js.falsy type then respond 400 (PError "Analysis type is required")
      else
        d <- get_db ;;
        match select_content d id with
        | None => respond 404 (PError "Document not found")
        | Some None => respond 400 (PError "Document has no content to analyze")
        | Some (Some content) =>
            if Js.falsy content then
              respond 400 (PError "Document has no content to analyze")
            else
              match analysis_of chat type content with
              | None => respond 400 (PError "Invalid analysis type")
              | Some call =>
                  result <- call ;;
                  match result with
                  | None =>
                      respond 500 (PError ("Failed to generate " ++ type))
                  | Some r =>
                      if Js.falsy r then
                        respond 500 (PError ("Failed to generate " ++ type))
                      else respond 200 (PAnalysis id type r)
                  end
              end
        end
  end.

(* ------------------------------------------------------------------ *)
(** ** [routes/notebooks.js]: notebook CRUD *)

(** The server state: the world of the routes and the [SERIAL] sequence
    of [notebooks]. *)
Record Server := {
  world : World;
  notebooks_id_seq : Z
}.

Definition ServerM (A : Type) : Type := Server -> A * Server.

(** A handler that does not touch the sequence. *)
Definition lift {A} (m : M A) : ServerM A :=
  fun s =>
    let (a, w') := m (world s) in
    (a, {| world := w'; notebooks_id_seq := notebooks_id_seq s |}).

Definition with_notebooks (d : Db) (rows : list Notebook) : Db :=
  {| documents := documents d;
     notebooks := rows;
     notebook_documents := notebook_documents d;
     api_usage_logs := api_usage_logs d;
     next_document_id := next_document_id d;
     clock := clock d |}.

(** [POST /notebooks]: [content] defaults to the empty string; the id
    comes from the sequence, both timestamps from the clock. *)
Definition post_notebooks (title content : option string) : ServerM Response :=
  fun s =>
    match title with
    | None => ({| code := 400; payload := PError "Title is required" |}, s)
    | Some title =>
        if Js.falsy title then
          ({| code := 400; payload := PError "Title is required" |}, s)
        else if negb (Sql.fits_varchar 255 title) then
          (* the sequence value is consumed by the failed insert *)
          ({| code := 500; payload := PError "Internal Server Error" |},
           {| world := world s;
              notebooks_id_seq := notebooks_id_seq s + 1 |})
        else
          let d := db (world s) in
          let row := {| nb_id := notebooks_id_seq s;
                        nb_title := title;
                        nb_content :=
                          Some (match content with Some c => c | None => "" end);
                        nb_created_at := clock d;
                        nb_updated_at := clock d |} in
          ({| code := 201; payload := PNotebook row |},
           {| world := {| db := with_notebooks d (notebooks d ++ [row]);
                          uploads := uploads (world s);
                          api_calls := api_calls (world s) |};
              notebooks_id_seq := notebooks_id_seq s + 1 |})
    end.

(** [ORDER BY updated_at DESC]. *)
Definition updated_desc (a b : Notebook) : bool :=
  nb_updated_at b <=? nb_updated_at a.

(** [GET /notebooks]. *)
Definition get_notebooks : M Response :=
  d <- get_db ;;
  respond 200 (PNotebookList (Sql.order_by updated_desc (notebooks d))).

(** [COALESCE($1, column)]. *)
Definition coalesce {A} (x : option A) (old : A) : A :=
  match x with Some v => v | None => old end.

(** The row written by the [UPDATE] of the route below. *)
Definition updated_notebook (now : Z) (title content : option string)
    (n : Notebook) : Notebook :=
  {| nb_id := nb_id n;
     nb_title := coalesce title (nb_title n);
     nb_content := match content with Some c => Some c | None => nb_content n end;
     nb_created_at := nb_created_at n;
     nb_updated_at := now |}.

(** [PUT /notebooks/:id]. *)
Definition put_notebook (id : Z) (title content : option string) : M Response :=
  if Js.falsy (Js.or_else title "") && Js.falsy (Js.or_else content "") then
    respond 400 (PError "Title or content is required for update")
  else
    d <- get_db ;;
    match select_notebook d id with
    | None => respond 404 (PError "Notebook not found")
    | Some n =>
        if negb (Sql.fits_varchar 255 (coalesce title (nb_title n))) then
          respond 500 (PError "Internal Server Error")
        else
          put_db (with_notebooks d
                    (map (fun x => if nb_id x =? id
                                   then updated_notebook (clock d) title content x
                                   else x)
                         (notebooks d))) ;;;
          respond 200 (PNotebook (updated_notebook (clock d) title content n))
    end.

(** [DELETE FROM notebooks WHERE id = $1], with the cascade on
    [notebook_documents.notebook_id]. *)
Definition delete_notebook_rows (d : Db) (id : Z) : nat * Db :=
  (List.length (filter (fun n => nb_id n =? id) (notebooks d)),
   {| documents := documents d;
      notebooks := filter (fun n => negb (nb_id n =? id)) (notebooks d);
      notebook_documents :=
        filter (fun nd => negb (fst nd =? id)) (notebook_documents d);
      api_usage_logs := api_usage_logs d;
      next_document_id := next_document_id d;
      clock := clock d |}).

(** [DELETE /notebooks/:id]. *)
Definition delete_notebook (id : Z) : M Response :=
  d <- get_db ;;
  let (rowCount, d') := delete_notebook_rows d id in
  put_db d' ;;;
  if Nat.eqb rowCount 0 then respond 404 (PError "Notebook not found")
  else respond 204 PEmpty.

(* ------------------------------------------------------------------ *)
(** ** [routes/urls.js]: search and listing *)

(** [file_path LIKE 'http%']; [NULL] does not match. *)
Definition like_http (p : option string) : bool :=
  match p with
  | Some s => JsExtra.startsWith "http" s
  | None => false
  end.

(** [GET /urls]. *)
Definition get_urls : M Response :=
  d <- get_db ;;
  respond 200
    (PUrlList
       (map (fun doc => {| ur_id := doc_id doc; ur_url := doc_file_path doc;
                           ur_title := doc_title doc;
                           ur_created_at := doc_created_at doc |})
            (Sql.order_by created_desc
               (filter (fun doc => like_http (doc_file_path doc))
                       (documents d))))).

(** The largest [bigint], the type of a [LIMIT] parameter. *)
Definition BIGINT_MAX : Z := 9223372036854775807.

Section UrlSearch.

Context (env : Services).

(** pgvector's [l2_distance]. *)
Context (l2_distance : vector -> vector -> Q).

(** [embedding <=> $1]. *)
Definition cosine_to (q : vector) (doc : Document) : option Q :=
  option_map (fun e => cosine_distance env e q) (doc_embedding doc).

Definition by_cosine (q : vector) (a b : Document) : bool :=
  Sql.asc_nulls_last (cosine_to q a) (cosine_to q b).

(** [SELECT id, title, file_path as url, l2_distance(embedding, $1) as
    similarity FROM documents ORDER BY embedding <=> $1 LIMIT $2]. *)
Definition select_urls_nearest (d : Db) (q : vector) (limit : Z)
  : list UrlSearchRow :=
  map (fun doc => {| us_id := doc_id doc; us_title := doc_title doc;
                     us_url := doc_file_path doc;
                     us_similarity :=
                       option_map (fun e => l2_distance e q)
                                  (doc_embedding doc) |})
      (Sql.limit (Z.to_nat limit) (Sql.order_by (by_cosine q) (documents d))).

(** [POST /urls/search]; [limit] is an integer or missing.  A negative
    limit, or one past [bigint], makes the statement fail. *)
Definition post_urls_search (req : SearchRequest) : M Response :=
  let limit := match search_limit req with Some n => n | None => 5 end in
  match search_query req with
  | None => respond 400 (PError "Query is required")
  | Some query =>
      if Js.falsy query then respond 400 (PError "Query is required")
      else
        queryEmbedding <- getEmbedding env query ;;
        match queryEmbedding with
        | None => respond 500 (PError "Failed to generate query embedding")
        | Some e =>
            if (limit <? 0) || (BIGINT_MAX <? limit) then
              respond 500 (PError "Internal Server Error")
            else
              d <- get_db ;;
              respond 200 (PUrlSearch (select_urls_nearest d e limit))
        end
  end.

End UrlSearch.

(* ------------------------------------------------------------------ *)
(** ** [routes/usage.js] *)

(** [ORDER BY created_at DESC] on the ledger. *)
Definition log_created_desc (a b : UsageLog) : bool :=
  log_created_at b <=? log_created_at a.

(** [SUM(cost)], in millionths, and [SUM(total_tokens)]. *)
Definition sum_micros (logs : list UsageLog) : Z :=
  fold_right (fun l acc => Num.micros (log_cost l) + acc) 0 logs.

Definition sum_tokens (logs : list UsageLog) : Z :=
  fold_right (fun l acc => log_total_tokens l + acc) 0 logs.

(** The aggregate row: both sums are [NULL] over an empty table.  The
    reply carries the double nearest to [total_cost]. *)
Definition totals_of (logs : list UsageLog) : Totals :=
  match logs with
  | [] => {| total_cost := None; sum_total_tokens := None |}
  | _ => {| total_cost :=
              Some (Num.numeric6_value {| Num.micros := sum_micros logs |});
            sum_total_tokens := Some (sum_tokens logs) |}
  end.

(** [GET /usage]. *)
Definition get_usage : M Response :=
  d <- get_db ;;
  respond 200 (PUsage (Sql.order_by log_created_desc (api_usage_logs d))
                      (totals_of (api_usage_logs d))).

(* ------------------------------------------------------------------ *)
(** ** [services/scraper.js]: text of a PDF *)

Section ScrapePdf.

(** The numbers of [item.transform], and [Math.abs(currentY - lastY)] on
    them, as the value the thresholds are compared with. *)
Context {number : Type} (y_diff : number -> number -> Q).

(** An item of [page.getTextContent()]: [str] and [transform[5]]. *)
Record TextItem := {
  str : string;
  transform5 : number
}.

(** What the inner loop appends before the [str] of an item. *)
Definition separator (lastY : option number) (pageText : string)
    (item : TextItem) : string :=
  match lastY with
  | Some lastY =>
      let yDiff := y_diff (transform5 item) lastY in
      if negb (Qle_bool yDiff 5) then
        if negb (Qle_bool yDiff 15) then nl ++ nl else nl
      else if (0 <? Js.length pageText)
              && negb (JsExtra.endsWithSpace pageText)
              && negb (JsExtra.startsWithSpace (str item))
      then " "
      else ""
  | None => ""
  end.

(** The inner loop over the items of a page, from [lastY] and
    [pageText]. *)
Fixpoint page_loop (items : list TextItem) (lastY : option number)
    (pageText : string) : string :=
  match items with
  | [] => pageText
  | item :: rest =>
      page_loop rest (Some (transform5 item))
                (pageText ++ separator lastY pageText item ++ str item)
  end.

Definition page_text (items : list TextItem) : string :=
  page_loop items None "".

(** The page marker appended after the text of page [i]. *)
Definition page_marker (i : Z) : string :=
  nl ++ nl ++ "--- Page " ++ Num.Z_to_string i ++ " ---" ++ nl ++ nl.

(** The outer loop, from page number [i] and [text]. *)
Fixpoint pages_loop (pages : list (list TextItem)) (i : Z) (text : string)
  : string :=
  match pages with
  | [] => text
  | items :: rest =>
      pages_loop rest (i + 1) (text ++ page_text items ++ page_marker i)
  end.

(** The [content] of [scrapePdf]: the trimmed text, or the empty string
    when the download or the parser throws. *)
Definition scrapePdf_content (pages : option (list (list TextItem))) : string :=
  match pages with
  | Some pages => JsExtra.trim (pages_loop pages 1 "")
  | None => ""
  end.

End ScrapePdf.

Arguments TextItem : clear implicits.

(* ------------------------------------------------------------------ *)
(** ** [scripts/export-db.js] and [scripts/import-db.js]: file names *)

Module Backup.

(** The UTC fields of a [Date]. *)
Record Date := {
  year : Z;
  month : Z;
  day : Z;
  hours : Z;
  minutes : Z;
  seconds : Z;
  milliseconds : Z
}.

(** The last decimal digit of a number. *)
Definition digit (n : Z) : ascii := ascii_of_nat (48 + Z.to_nat (n mod 10)).

Definition pad2 (n : Z) : string :=
  String (digit (n / 10)) (String (digit n) "").

Definition pad3 (n : Z) : string := String (digit (n / 100)) (pad2 n).

Definition pad4 (n : Z) : string := String (digit (n / 1000)) (pad3 n).

Definition pad6 (n : Z) : string :=
  String (digit (n / 100000)) (String (digit (n / 10000)) (pad4 n)).

(** [date.toISOString()]: [YYYY-MM-DDTHH:mm:ss.sssZ], the year with a
    sign and six digits outside 0..9999. *)
Definition toISOString (t : Date) : string :=
  (if (0 <=? year t) && (year t <=? 9999) then pad4 (year t)
   else (if year t <? 0 then "-" else "+") ++ pad6 (Z.abs (year t)))
  ++ "-" ++ pad2 (month t) ++ "-" ++ pad2 (day t)
  ++ "T" ++ pad2 (hours t) ++ ":" ++ pad2 (minutes t) ++ ":"
  ++ pad2 (seconds t) ++ "." ++ pad3 (milliseconds t) ++ "Z".

(** [s.replace(/[:.]/g, '-')]. *)
Definition dash (c : ascii) : ascii :=
  if Ascii.eqb c ":"%char || Ascii.eqb c "."%char then "-"%char else c.

Fixpoint dashes (s : string) : string :=
  match s with
  | EmptyString => EmptyString
  | String c rest => String (dash c) (dashes rest)
  end.

(** The [timestamp] of the export script. *)
Definition timestamp (now : Date) : string := dashes (toISOString now).

(** The name of the file a table is exported to, in [EXPORT_DIR]. *)
Definition export_file (table : string) (now : Date) : string :=
  table ++ "_" ++ timestamp now ++ ".json".

(** [\d]. *)
Definition is_digit (c : ascii) : bool :=
  let n := nat_of_ascii c in Nat.leb 48 n && Nat.leb n 57.

(** [.] matches every code unit but a line terminator. *)
Definition is_line_terminator (c : ascii) : bool :=
  Ascii.eqb c "010"%char || Ascii.eqb c "013"%char.

Fixpoint dots_to_end (s : string) : bool :=
  match s with
  | EmptyString => true
  | String c rest => negb (is_line_terminator c) && dots_to_end rest
  end.

(** [/_\d{4}-\d{2}-\d{2}.*$/] matches at the start of [s]. *)
Definition timestamp_at (s : string) : bool :=
  match s with
  | String u (String y1 (String y2 (String y3 (String y4
      (String h1 (String m1 (String m2
        (String h2 (String d1 (String d2 rest)))))))))) =>
      Ascii.eqb u "_"%char
      && is_digit y1 && is_digit y2 && is_digit y3 && is_digit y4
      && Ascii.eqb h1 "-"%char && is_digit m1 && is_digit m2
      && Ascii.eqb h2 "-"%char && is_digit d1 && is_digit d2
      && dots_to_end rest
  | _ => false
  end.

(** [tableName.replace(/_\d{4}-\d{2}-\d{2}.*$/, '')]: the leftmost match
    is removed. *)
Fixpoint strip_timestamp (s : string) : string :=
  match s with
  | EmptyString => EmptyString
  | String c rest =>
      if timestamp_at s then EmptyString else String c (strip_timestamp rest)
  end.

(** The table the import script writes to, for a file that holds at
    least one row: [tableName] is the second argument, or else the file
    name without its directory and [.json]; [None] is the exit with
    [does not exist]. *)
Definition resolve_table (checkTableExists : string -> bool)
    (tableName : string) : option string :=
  if checkTableExists tableName then Some tableName
  else
    let potentialName := strip_timestamp tableName in
    if negb (String.eqb potentialName tableName)
       && checkTableExists potentialName
    then Some potentialName
    else None.

End Backup.

(* ------------------------------------------------------------------ *)
(** ** [client/src/components/AllItemsList.jsx]: pages of the item list *)

Module Client.

(** [array.slice(start, end)]. *)
Definition slice {A} (start end_ : Z) (l : list A) : list A :=
  let len := Z.of_nat (List.length l) in
  let k := if start <? 0 then Z.max (len + start) 0 else Z.min start len in
  let final := if end_ <? 0 then Z.max (len + end_) 0 else Z.min end_ len in
  firstn (Z.to_nat (final - k)) (skipn (Z.to_nat k) l).

(** [Math.max(1, Math.ceil(allItems.length / itemsPerPage))]. *)
Definition totalPages {A} (allItems : list A) (itemsPerPage : Z) : Z :=
  Z.max 1 (JsExtra.ceil_div (Z.of_nat (List.length allItems)) itemsPerPage).

(** The items shown on the current page. *)
Definition page_items {A} (allItems : list A) (itemsPerPage currentPage : Z)
  : list A :=
  let start := (currentPage - 1) * itemsPerPage in
  let end_ := start + itemsPerPage in
  slice start end_ allItems.

(** [items.sort((a, b) => new Date(b.created_at) - new Date(a.created_at))]:
    a stable sort; [to_ms] is the time a [created_at] of the reply
    parses to. *)
Definition sort_newest_first (to_ms : Z -> Z) (items : list DocumentListRow)
  : list DocumentListRow :=
  Sql.order_by (fun a b => to_ms (dl_created_at b) <=? to_ms (dl_created_at a))
               items.

End Client.

(* ------------------------------------------------------------------ *)
(** ** Notions used to state the properties of these routes *)

(** The text of the first choice of the model's reply to a capped chat
    request, when the request succeeds and has one. *)
Definition first_choice (chat : LimitedChat) (req : ChatRequest)
    (max_tokens : Z) : option string :=
  match chat req max_tokens with
  | Some response => hd None (chat_choices response)
  | None => None
  end.

(** The system prompt of an analysis type. *)
Definition analysis_prompt (type : string) : option string :=
  if String.eqb type "table_of_contents" then Some TABLE_OF_CONTENTS_PROMPT
  else if String.eqb type "key_insights" then Some KEY_INSIGHTS_PROMPT
  else if String.eqb type "reflection_questions"
  then Some REFLECTION_QUESTIONS_PROMPT
  else None.

(** Every id of [documents] was drawn from the sequence. *)
Definition ids_below_sequence (d : Db) : bool :=
  forallb (fun doc => doc_id doc <? next_document_id d) (documents d).

(** Every id of [notebooks] was drawn from its sequence. *)
Definition notebook_ids_below_sequence (s : Server) : bool :=
  forallb (fun n => nb_id n <? notebooks_id_seq s) (notebooks (db (world s))).

(** The two foreign keys of [notebook_documents] hold. *)
Definition members_exist (d : Db) : bool :=
  forallb (fun nd =>
             existsb (fun n => nb_id n =? fst nd) (notebooks d)
             && existsb (fun doc => doc_id doc =? snd nd) (documents d))
          (notebook_documents d).

(** The file the deletion of document [id] removes from [./uploads]. *)
Definition file_to_unlink (d : Db) (id : Z) : option string :=
  match documents_by_id d id with
  | doc :: _ =>
      match doc_file_path doc with
      | Some filePath =>
          if Js.falsy filePath || JsExtra.startsWith "http" filePath
          then None else Some filePath
      | None => None
      end
  | [] => None
  end.

(** The path an upload is saved under. *)
Definition upload_path (f : FileData) : string :=
  UPLOADS_DIR ++ "/" ++ unique_filename f.

(** What a request does to the tables other than the ledger when it
    stores one document. *)
Definition stores (w w' : World) (row : Document) : Prop :=
  documents (db w') = (documents (db w) ++ [row])%list
  /\ notebooks (db w') = notebooks (db w)
  /\ notebook_documents (db w') = notebook_documents (db w)
  /\ next_document_id (db w') = next_document_id (db w) + 1
  /\ clock (db w') = clock (db w)
  /\ doc_id row = next_document_id (db w)
  /\ doc_created_at row = clock (db w).

(** Every notebook other than [nb] was last touched before the clock
    reading. *)
Definition others_are_older (d : Db) (nb : Z) : bool :=
  forallb (fun n => (nb_id n =? nb) || (nb_updated_at n <? clock d))
          (notebooks d).

(** Separators and strings written in turn. *)
Fixpoint weave (seps strs : list string) : string :=
  match seps, strs with
  | sep :: seps', s :: strs' => sep ++ s ++ weave seps' strs'
  | _, _ => ""
  end.

(** A string without decimal digit. *)
Fixpoint no_digit (s : string) : bool :=
  match s with
  | EmptyString => true
  | String c rest => negb (Backup.is_digit c) && no_digit rest
  end.

(* ------------------------------------------------------------------ *)
(** ** The requests the route files handle *)

Inductive Request :=
| PostDocuments (data : option FileData)
| PostDocumentsSearch (req : SearchRequest)
| GetDocuments
| GetDocumentSummary (id : Z)
| PostDocumentAnalyze (id : Z) (type : option string)
| GetDocument (id : Z)
| DeleteDocument (id : Z)
| PostTexts (title content : option string)
| PostUrls (url : option string)
| PostUrlsSearch (req : SearchRequest)
| GetUrls
| GetUsage
| PostNotebooks (title content : option string)
| GetNotebooks
| GetNotebook (id : Z)
| PutNotebook (id : Z) (title content : option string)
| DeleteNotebook (id : Z)
| PostNotebookDocuments (notebookId : Z) (documentId : option Z)
| DeleteNotebookDocuments (notebookId documentId : Z)
| PostNotebookQuery (id : Z) (question : option string).

Section Router.

Context (env : Services) (chat : LimitedChat)
        (l2_distance : vector -> vector -> Q).

(** The state a request leaves behind. *)
Definition handle (req : Request) (s : Server) : Server :=
  match req with
  | PostDocuments data => snd (lift (post_documents env data) s)
  | PostDocumentsSearch r => snd (lift (post_documents_search env r) s)
  | GetDocuments => snd (lift get_documents s)
  | GetDocumentSummary id => snd (lift (get_document_summary chat id) s)
  | PostDocumentAnalyze id type =>
      snd (lift (post_document_analyze chat id type) s)
  | GetDocument id => snd (lift (get_document id) s)
  | DeleteDocument id => snd (lift (delete_document id) s)
  | PostTexts title content => snd (lift (post_texts env title content) s)
  | PostUrls url => snd (lift (post_urls env url) s)
  | PostUrlsSearch r => snd (lift (post_urls_search env l2_distance r) s)
  | GetUrls => snd (lift get_urls s)
  | GetUsage => snd (lift get_usage s)
  | PostNotebooks title content => snd (post_notebooks title content s)
  | GetNotebooks => snd (lift get_notebooks s)
  | GetNotebook id => snd (lift (get_notebook id) s)
  | PutNotebook id title content =>
      snd (lift (put_notebook id title content) s)
  | DeleteNotebook id => snd (lift (delete_notebook id) s)
  | PostNotebookDocuments notebookId documentId =>
      snd (lift (post_notebook_documents notebookId documentId) s)
  | DeleteNotebookDocuments notebookId documentId =>
      snd (lift (delete_notebook_documents notebookId documentId) s)
  | PostNotebookQuery id question =>
      snd (lift (post_notebook_query env id question) s)
  end.

(** The clock reading of the state set to [now]. *)
Definition at_time (now : Z) (s : Server) : Server :=
  {| world := {| db := {| documents := documents (db (world s));
                          notebooks := notebooks (db (world s));
                          notebook_documents :=
                            notebook_documents (db (world s));
                          api_usage_logs := api_usage_logs (db (world s));
                          next_document_id := next_document_id (db (world s));
                          clock := now |};
                 uploads := uploads (world s);
                 api_calls := api_calls (world s) |};
     notebooks_id_seq := notebooks_id_seq s |}.

(** A run of the server: each request is handled at its time. *)
Definition serve (requests : list (Z * Request)) (s : Server) : Server :=
  fold_left (fun st r => handle (snd r) (at_time (fst r) st)) requests s.

End Router.

(** The server after [init-db.js]: empty tables, sequences at 1. *)
Definition initial (now : Z) : Server :=
  {| world := {| db := {| documents := []; notebooks := [];
                          notebook_documents := []; api_usage_logs := [];
                          next_document_id := 1; clock := now |};
                 uploads := []; api_calls := [] |};
     notebooks_id_seq := 1 |}.

(** No value twice in a list. *)
Fixpoint distinct {A} (eqb : A -> A -> bool) (l : list A) : bool :=
  match l with
  | [] => true
  | x :: rest => negb (existsb (eqb x) rest) && distinct eqb rest
  end.

Definition pair_eqb (a b : Z * Z) : bool :=
  (fst a =? fst b) && (snd a =? snd b).

(** The three primary keys hold. *)
Definition keys_are_unique (d : Db) : bool :=
  distinct Z.eqb (map doc_id (documents d))
  && distinct Z.eqb (map nb_id (notebooks d))
  && distinct pair_eqb (notebook_documents d).

(** The constraints of the schema: primary keys, foreign keys, and ids
    drawn from the sequences. *)
Definition integrity (s : Server) : bool :=
  keys_are_unique (db (world s))
  && members_exist (db (world s))
  && ids_below_sequence (db (world s))
  && notebook_ids_below_sequence s.

(** The columns the constraints read: the ids of [documents] and of
    [notebooks], the membership pairs and the two sequences. *)
Definition columns (s : Server)
  : list Z * list Z * list (Z * Z) * Z * Z :=
  (map doc_id (documents (db (world s))),
   map nb_id (notebooks (db (world s))),
   notebook_documents (db (world s)),
   next_document_id (db (world s)),
   notebooks_id_seq s).

(** The constraints, on these columns. *)
Definition Integrity (c : list Z * list Z * list (Z * Z) * Z * Z) : Prop :=
  let '(docIds, notebookIds, pairs, next, seq) := c in
  NoDup docIds /\ NoDup notebookIds /\ NoDup pairs
  /\ (forall nd, In nd pairs -> In (fst nd) notebookIds /\ In (snd nd) docIds)
  /\ (forall i, In i docIds -> i < next)
  /\ (forall i, In i notebookIds -> i < seq).

(* ================================================================== *)
(** * Properties *)

(* ------------------------------------------------------------------ *)
(** ** Strings and length budgets *)

Lemma append_assoc (a b c : string) : (a ++ b) ++ c = a ++ (b ++ c).
Proof.
  induction a as [|ch a IH]; simpl; [reflexivity|now rewrite IH].
Qed.

Lemma append_empty_r (a : string) : a ++ "" = a.
Proof.
  induction a as [|ch a IH]; simpl; [reflexivity|now rewrite IH].
Qed.


Lemma substring_0_append (n : nat) (s t : string) :
  (n <= String.length s)%nat -> substring 0 n (s ++ t) = substring 0 n s.
Proof.
  revert s; induction n as [|n IH]; intros [|ch s] H; simpl in *;
    try reflexivity; try lia.
  - now destruct t.
  - rewrite IH by lia. reflexivity.
Qed.




Example toFixed1_rounds_to_one_decimal :
  Num.toFixed1 (8734 # 100) = "87.3" /\ Num.toFixed1 (5 # 100) = "0.1"
  /\ Num.toFixed1 (- (125 # 10)) = "-12.5" /\ Num.toFixed1 100 = "100.0".
Proof. repeat split. Qed.

Example replace_newlines_example :
  Js.replace_newlines ("a" ++ nl ++ "b") = "a b".
Proof. reflexivity. Qed.

Example pdf_text_loop_example :
  pdf_text_loop [["Hello"; "world"]; ["Page"; "two"]] ""
  = "Hello world" ++ nl ++ "Page two" ++ nl.
Proof. reflexivity. Qed.

(** Leaving the page loop early does not change the stored prefix: the
    loop and the concatenation of all pages agree on their first
    [MAX_DB_STORAGE_LENGTH] characters. *)
Lemma pdf_text_loop_prefix (pages : list (list string)) (text : string) :
  Js.substring0 MAX_DB_STORAGE_LENGTH (pdf_text_loop pages text)
  = Js.substring0 MAX_DB_STORAGE_LENGTH (text ++ pdf_all_pages pages).
Proof.
  revert text; induction pages as [|strings rest IH]; intros text;
    cbn [pdf_text_loop pdf_all_pages].
  - now rewrite append_empty_r.
  - assert (Hassoc : text ++ Js.join " " strings ++ nl ++ pdf_all_pages rest
                     = (text ++ Js.join " " strings ++ nl) ++ pdf_all_pages rest)
      by now rewrite !append_assoc.
    rewrite Hassoc.
    destruct (Js.length (text ++ Js.join " " strings ++ nl)
              >? MAX_DB_STORAGE_LENGTH) eqn:E.
    + apply Z.gtb_lt in E.
      unfold Js.substring0. symmetry. apply substring_0_append.
      unfold Js.length in E. lia.
    + apply IH.
Qed.

(** The stored content of an upload is the extracted text cut at the
    storage limit. *)
Lemma extract_full_content_spec (f : FileData) :
  extract_full_content f
  = option_map (Js.substring0 MAX_DB_STORAGE_LENGTH) (extracted_text f).
Proof.
  unfold extract_full_content, extracted_text.
  destruct (mimetype f =? "application/pdf")%string; [|reflexivity].
  destruct (pdf_pages f) as [pages|]; [|reflexivity].
  simpl. f_equal. apply (pdf_text_loop_prefix pages "").
Qed.

(* ------------------------------------------------------------------ *)
(** ** What the service wrapper touches *)

Arguments extract_full_content : simpl never.
Arguments insert_document : simpl never.
Arguments getEmbedding : simpl never.
Arguments getAnswerFromContext : simpl never.
Arguments Js.substring0 : simpl never.
Arguments post_documents : simpl never.
Arguments post_urls : simpl never.
Arguments post_texts : simpl never.
Arguments usage_log_row : simpl never.
Arguments usage_cost : simpl never.
Arguments Double.round : simpl never.
Arguments Double.shortest : simpl never.
Arguments Double.mul : simpl never.
Arguments Double.toFixed1 : simpl never.

Ltac run :=
  unfold bind, ret, send, internal_server_error, get_db, put_db,
         record_call, write_file in *; simpl in *.

Lemma same_content_trans (a b c : Db) :
  same_content a b -> same_content b c -> same_content a c.
Proof.
  unfold same_content.
  intros (H1 & H2 & H3 & H4 & H5) (K1 & K2 & K3 & K4 & K5).
  repeat split; congruence.
Qed.

(** The usage meter writes to the ledger only. *)
Lemma logApiUsage_frame (model : string) (usage : option Usage) (w : World) :
  let w' := snd (logApiUsage model usage w) in
  uploads w' = uploads w /\ api_calls w' = api_calls w
  /\ same_content (db w) (db w').
Proof.
  unfold logApiUsage. run.
  destruct (usage_log_row _ _ _ _ _ _); simpl; repeat split.
Qed.

(** The embedding delivered does not depend on the state of the store. *)
Lemma getEmbedding_value_independent (env : Services) (text : string)
      (w1 w2 : World) :
  fst (getEmbedding env text w1) = fst (getEmbedding env text w2).
Proof.
  unfold getEmbedding.
  destruct (Js.falsy text); [reflexivity|]. run.
  destruct (embeddings_create env EMBEDDING_MODEL (Js.replace_newlines text))
    as [response|]; [|reflexivity].
  destruct (emb_usage response); simpl.
  - destruct (logApiUsage _ _ _); destruct (logApiUsage _ _ _); reflexivity.
  - reflexivity.
Qed.

Lemma getEmbedding_frame (env : Services) (text : string) (w : World) :
  let w' := snd (getEmbedding env text w) in
  uploads w' = uploads w
  /\ api_calls w' = (api_calls w ++ embedding_requests text)%list
  /\ same_content (db w) (db w').
Proof.
  unfold getEmbedding, embedding_requests.
  destruct (Js.falsy text); simpl.
  - rewrite app_nil_r. repeat split.
  - run.
    destruct (embeddings_create env EMBEDDING_MODEL (Js.replace_newlines text))
      as [response|]; simpl; [|repeat split].
    destruct (emb_usage response) as [u|]; simpl; [|repeat split].
    pose proof (logApiUsage_frame EMBEDDING_MODEL (Some u)
                  {| db := db w; uploads := uploads w;
                     api_calls := api_calls w
                                  ++ [EmbeddingsCreate EMBEDDING_MODEL
                                        (Js.replace_newlines text)] |}) as H.
    destruct (logApiUsage _ _ _) as [[] w1]; simpl in *. exact H.
Qed.

(** Without a response of the API the whole database is left alone. *)
Lemma getEmbedding_no_response (env : Services) (text : string) (w : World) :
  Js.falsy text = true
  \/ embeddings_create env EMBEDDING_MODEL (Js.replace_newlines text) = None ->
  fst (getEmbedding env text w) = None /\ db (snd (getEmbedding env text w)) = db w.
Proof.
  unfold getEmbedding. intros [H|H].
  - rewrite H. split; reflexivity.
  - destruct (Js.falsy text); [split; reflexivity|]. run.
    rewrite H. split; reflexivity.
Qed.

Lemma getEmbedding_empty (env : Services) (w : World) :
  getEmbedding env "" w = (None, w).
Proof. reflexivity. Qed.

Lemma getAnswerFromContext_frame (env : Services) (question context : string)
      (w : World) :
  let w' := snd (getAnswerFromContext env question context w) in
  uploads w' = uploads w
  /\ api_calls w' = (api_calls w ++ answer_requests question context)%list
  /\ same_content (db w) (db w').
Proof.
  unfold getAnswerFromContext, answer_requests.
  destruct (Js.falsy question || Js.falsy context); simpl.
  - rewrite app_nil_r. repeat split.
  - run.
    match goal with |- context [chat_completions_create env ?r] =>
      destruct (chat_completions_create env r) as [response|] end;
      simpl; [|repeat split].
    destruct (chat_usage response) as [u|]; simpl; [|repeat split].
    match goal with |- context [logApiUsage ?m ?u ?w0] =>
      pose proof (logApiUsage_frame m u w0) as H;
      destruct (logApiUsage m u w0) as [[] w1] end.
    simpl in *. exact H.
Qed.

(* ------------------------------------------------------------------ *)
(** ** Outcome of the three ingestion routes *)

Lemma insert_document_inv (d : Db) title content e fp su mt row d' :
  insert_document d title content e fp su mt = inr (row, d') ->
  documents d' = (documents d ++ [row])%list
  /\ doc_content row = Some content /\ doc_embedding row = Some e
  /\ doc_title row = title /\ doc_id row = next_document_id d.
Proof.
  unfold insert_document.
  destruct su; [discriminate|]. destruct mt; [discriminate|].
  destruct (negb (Sql.fits_varchar 255 title)); [discriminate|].
  destruct (negb _); [discriminate|].
  intros H; inversion H; subst; simpl. repeat split.
Qed.

(** The shared tail of the three routes: embed, then insert. *)
Ltac insert_cases Hcalls Hsame :=
  match goal with
  | |- context [insert_document ?d ?t ?c ?e ?a ?b ?m] =>
      let Hins := fresh "Hins" in
      let row := fresh "row" in
      let d' := fresh "d'" in
      destruct (insert_document d t c e a b m) as [?|[row d']] eqn:Hins;
      simpl; (split; [exact Hcalls|]);
      [ left; split; [reflexivity|exact Hsame]
      | right; split; [reflexivity|];
        apply insert_document_inv in Hins;
        destruct Hins as (Hdocs & Hcontent & Hemb & _);
        exists row; rewrite Hdocs;
        destruct Hsame as (Hd & _); rewrite Hd; repeat split; assumption ]
  | |- _ =>
      (* the statement names a column the table lacks *)
      split; [exact Hcalls|left; split; [reflexivity|exact Hsame]]
  end.

Ltac embed_then_insert env text w1 :=
  let Hframe := fresh "Hframe" in
  let Hnone := fresh "Hnone" in
  let Hup := fresh "Hup" in
  let Hcalls := fresh "Hcalls" in
  let Hsame := fresh "Hsame" in
  let Hno := fresh "Hno" in
  let v := fresh "v" in
  pose proof (getEmbedding_frame env text w1) as Hframe;
  pose proof (getEmbedding_no_response env text w1) as Hnone;
  destruct (getEmbedding env text w1) as [v ?] eqn:?; simpl in *;
  destruct Hframe as (Hup & Hcalls & Hsame);
  destruct v as [?|]; simpl;
  [ insert_cases Hcalls Hsame
  | split; [exact Hcalls|];
    split; [reflexivity|]; split; [exact Hsame|];
    intros Hno; apply Hnone in Hno; apply Hno ].

Lemma post_documents_embeds (env : Services) (f : FileData) (full : string)
      (w : World) :
  extract_full_content f = Some full -> Js.falsy full = false ->
  ingestion_outcome env w (Js.substring0 MAX_EMBEDDING_LENGTH full) full
                    (post_documents env (Some f) w).
Proof.
  intros Hx Hf. unfold ingestion_outcome, post_documents. run.
  rewrite Hx, Hf.
  match goal with
  | |- context [getEmbedding env _ {| db := ?a; uploads := ?b; api_calls := ?c |}] =>
      set (w1 := {| db := a; uploads := b; api_calls := c |})
  end.
  rewrite (getEmbedding_value_independent env _ w w1).
  embed_then_insert env (Js.substring0 MAX_EMBEDDING_LENGTH full) w1.
Qed.

Lemma post_urls_embeds (env : Services) (url : string) (s : Scraped)
      (w : World) :
  Js.falsy url = false -> scrapeUrl env url = Some s ->
  ingestion_outcome env w (Js.substring0 15000 (scraped_content s))
                    (Js.substring0 15000 (scraped_content s))
                    (post_urls env (Some url) w).
Proof.
  intros Hu Hs. unfold ingestion_outcome, post_urls. run.
  rewrite Hu, Hs.
  embed_then_insert env (Js.substring0 15000 (scraped_content s)) w.
Qed.

Lemma post_texts_embeds (env : Services) (title content : string) (w : World) :
  Js.falsy title = false -> Js.falsy content = false ->
  ingestion_outcome env w (Js.substring0 MAX_EMBEDDING_LENGTH content) content
                    (post_texts env (Some title) (Some content) w).
Proof.
  intros Ht Hc. unfold ingestion_outcome, post_texts. run.
  rewrite Ht, Hc. simpl.
  embed_then_insert env (Js.substring0 MAX_EMBEDDING_LENGTH content) w.
Qed.

(** Every ingestion request is either turned down before the embedding
    client is reached, or runs the embed-then-insert tail on the texts
    [embedding_text] and [content_to_store] name. *)
Lemma ingest_cases (env : Services) (req : Ingestion) (w : World) :
  (embedding_text env req = None
   /\ exists code message,
       400 <= code /\ rejected code message w (ingest env req w))
  \/ (exists text content,
         embedding_text env req = Some text
         /\ content_to_store env req = Some content
         /\ ingestion_outcome env w text content (ingest env req w)).
Proof.
  destruct req as [[f|]|[url|]|title content]; unfold ingest.
  - (* upload *)
    unfold embedding_text, content_to_store.
    destruct (extract_full_content f) as [full|] eqn:Hx.
    + destruct (Js.falsy full) eqn:Hf.
      * left. split; [reflexivity|].
        exists 400, "Could not extract text from the document.".
        split; [lia|]. unfold rejected, post_documents. run.
        rewrite ?Hx, ?Hf. simpl. repeat split.
      * right. exists (Js.substring0 MAX_EMBEDDING_LENGTH full), full.
        repeat split. now apply post_documents_embeds.
    + left. split; [reflexivity|].
      exists 500, "Internal Server Error".
      split; [lia|]. unfold rejected, post_documents. run.
      rewrite ?Hx. simpl. repeat split.
  - left. split; [reflexivity|].
    exists 400, "File is required". split; [lia|]. repeat split.
  - (* url *)
    unfold embedding_text, content_to_store.
    destruct (Js.falsy url) eqn:Hu.
    + left. split; [reflexivity|].
      exists 400, "URL is required". split; [lia|].
      unfold rejected, post_urls. run. rewrite ?Hu. repeat split.
    + destruct (scrapeUrl env url) as [s|] eqn:Hs; simpl.
      * right. exists (Js.substring0 15000 (scraped_content s)),
                      (Js.substring0 15000 (scraped_content s)).
        repeat split. now apply post_urls_embeds.
      * left. split; [reflexivity|].
        exists 500, "Failed to scrape URL". split; [lia|].
        unfold rejected, post_urls. run. rewrite ?Hu, ?Hs. repeat split.
  - left. split; [reflexivity|].
    exists 400, "URL is required". split; [lia|]. repeat split.
  - (* text block *)
    unfold embedding_text, content_to_store.
    destruct title as [title|]; [destruct content as [content|]|].
    + destruct (Js.falsy title) eqn:Ht; [|destruct (Js.falsy content) eqn:Hc];
        simpl.
      * left. split; [reflexivity|].
        exists 400, "Title and content are required". split; [lia|].
        unfold rejected, post_texts. run. rewrite ?Ht. repeat split.
      * left. split; [reflexivity|].
        exists 400, "Title and content are required". split; [lia|].
        unfold rejected, post_texts. run. rewrite ?Ht, ?Hc. repeat split.
      * right. exists (Js.substring0 MAX_EMBEDDING_LENGTH content), content.
        repeat split. now apply post_texts_embeds.
    + left. split; [reflexivity|].
      exists 400, "Title and content are required". split; [lia|].
      repeat split.
    + left. split; [reflexivity|].
      exists 400, "Title and content are required". split; [lia|].
      destruct content; repeat split.
Qed.

Lemma content_to_store_spec (env : Services) (req : Ingestion)
      (content text : string) :
  content_to_store env req = Some content ->
  extraction env req = Some text ->
  content = stored_form req text.
Proof.
  destruct req as [[f|]|[url|]|[title|] [content0|]]; simpl; try discriminate.
  - rewrite extract_full_content_spec. intros H1 H2. rewrite H2 in H1. simpl in H1.
    destruct (Js.falsy _); congruence.
  - destruct (Js.falsy url); [discriminate|].
    destruct (scrapeUrl env url); simpl; congruence.
  - destruct (Js.falsy title || Js.falsy content0); congruence.
Qed.



(* ------------------------------------------------------------------ *)
(** ** Ingestion: length budgets and failure discipline *)

(** C4.  For every ingestion request (file upload, URL scrape, text
    block) whose text reaches the embedding client and for which the
    client returns [null], the request is answered with the error
    [500 Failed to generate embedding] and no row is inserted: the tables
    [documents], [notebooks] and [notebook_documents] are as before (only
    the usage ledger may have grown), and when the API gave no response
    at all the whole database is unchanged.  The requests sent are those
    of [getEmbedding] on that text, and nothing else. *)
Theorem embedding_failure_writes_no_item
    (env : Services) (req : Ingestion) (text : string) (w : World) :
  embedding_text env req = Some text ->
  fst (getEmbedding env text w) = None ->
  let (r, w') := ingest env req w in
  r = {| status := 500; body := ErrorBody "Failed to generate embedding" |}
  /\ api_calls w' = (api_calls w ++ embedding_requests text)%list
  /\ documents (db w') = documents (db w)
  /\ same_content (db w) (db w')
  /\ (Js.falsy text = true
      \/ embeddings_create env EMBEDDING_MODEL (Js.replace_newlines text) = None ->
      db w' = db w).
Proof.
  intros Htext Hnull.
  destruct (ingest_cases env req w)
    as [[Hnone _]|(text' & content & Htext' & _ & Hout)];
    [congruence|].
  assert (text' = text) by congruence; subst text'.
  unfold ingestion_outcome in Hout.
  destruct (ingest env req w) as [r w'].
  destruct Hout as (Hcalls & Hout). rewrite Hnull in Hout.
  destruct Hout as (Hr & Hsame & Hdb).
  repeat split; try apply Hsame; assumption.
Qed.

Lemma embedding_failure_writes_no_item_witness :
  let (r, w') :=
    ingest Fixture.offline
           (TextBlock (Some "A") (Some "The quick brown fox"))
           (Fixture.world_of Fixture.library) in
  r = {| status := 500; body := ErrorBody "Failed to generate embedding" |}
  /\ api_calls w' = [EmbeddingsCreate EMBEDDING_MODEL "The quick brown fox"]
  /\ documents (db w') = documents Fixture.library
  /\ same_content Fixture.library (db w')
  /\ (Js.falsy "The quick brown fox" = true
      \/ embeddings_create Fixture.offline EMBEDDING_MODEL
           (Js.replace_newlines "The quick brown fox") = None ->
      db w' = Fixture.library).
Proof.
  exact (embedding_failure_writes_no_item
           Fixture.offline
           (TextBlock (Some "A") (Some "The quick brown fox"))
           "The quick brown fox"
           (Fixture.world_of Fixture.library)
           eq_refl eq_refl).
Defined.

(** C6.  For every ingestion request whose extraction yields the empty
    text (an empty file, a PDF without pages, a scrape with empty content,
    an empty text block), the request is answered with an error, no
    request is sent to the embeddings endpoint, and the database is
    unchanged: no content item is created.  On the URL route the empty
    text reaches [getEmbedding], whose guard returns [null] before the API
    is called. *)
Theorem empty_extraction_stops_ingestion
    (env : Services) (req : Ingestion) (w : World) :
  extraction env req = Some "" ->
  let (r, w') := ingest env req w in
  400 <= status r
  /\ (exists message, body r = ErrorBody message)
  /\ api_calls w' = api_calls w
  /\ db w' = db w.
Proof.
  intros Hempty.
  destruct (ingest_cases env req w)
    as [(_ & code & message & Hcode & Hrej)
       |(text & content & Htext & Hcontent & Hout)].
  - destruct Hrej as (Hr & Hdb & Hcalls).
    destruct (ingest env req w) as [r w']; simpl in *. subst r; simpl.
    repeat split; try assumption. now exists message.
  - pose proof (content_to_store_spec env req content "" Hcontent Hempty) as Hc.
    assert (Hnil : content = "") by (rewrite Hc; destruct req; reflexivity).
    clear Hc. subst content.
    destruct req as [[f|]|[url|]|[title|] [content0|]]; simpl in *;
      try discriminate.
    + (* an upload stores nothing empty *)
      destruct (extract_full_content f) as [full|]; [|discriminate].
      destruct (Js.falsy full) eqn:Hf; [discriminate|].
      inversion Hcontent; subst full. discriminate.
    + (* the scraper returned an empty content *)
      unfold embedding_text in Htext. rewrite Hcontent in Htext.
      inversion Htext; subst text.
      unfold ingestion_outcome in Hout.
      destruct (post_urls env (Some url) w) as [r w'].
      rewrite getEmbedding_empty in Hout. simpl in Hout.
      destruct Hout as (Hcalls & Hr & _ & Hdb).
      rewrite app_nil_r in Hcalls. subst r; simpl.
      repeat split; try assumption; [lia|eexists; reflexivity|].
      apply Hdb. now left.
    + (* a text block with empty content is refused *)
      destruct (Js.falsy title || Js.falsy content0) eqn:Hf; [discriminate|].
      inversion Hcontent; subst content0.
      rewrite orb_true_r in Hf. discriminate.
Qed.

Lemma empty_extraction_stops_ingestion_witness :
  let (r, w') :=
    ingest Fixture.online (ScrapeUrl (Some "https://example.org/blank"))
           (Fixture.world_of Fixture.library) in
  400 <= status r
  /\ (exists message, body r = ErrorBody message)
  /\ api_calls w' = []
  /\ db w' = Fixture.library.
Proof.
  exact (empty_extraction_stops_ingestion
           Fixture.online (ScrapeUrl (Some "https://example.org/blank"))
           (Fixture.world_of Fixture.library) eq_refl).
Defined.

(** A PDF page without text items still yields its line break: the
    extracted text is not empty, and it is embedded. *)
Example textless_pdf_page_is_embedded :
  let f := {| filename := "scan.pdf"; mimetype := "application/pdf";
              unique_filename := "00112233445566778899aabbccddeeff.pdf";
              pdf_pages := Some [[]]; utf8_text := "" |} in
  extracted_text f = Some nl
  /\ api_calls (snd (ingest Fixture.online (UploadFile (Some f))
                      (Fixture.world_of Fixture.empty_db)))
     = [EmbeddingsCreate EMBEDDING_MODEL " "].
Proof. split; reflexivity. Qed.

(** The other two routes at an empty extraction. *)
Example empty_file_is_refused :
  ingest Fixture.online (UploadFile (Some (Fixture.text_file "")))
         (Fixture.world_of Fixture.empty_db)
  = ({| status := 400;
        body := ErrorBody "Could not extract text from the document." |},
     {| db := Fixture.empty_db;
        uploads := ["uploads/0123456789abcdef0123456789abcdef.txt"];
        api_calls := [] |}).
Proof. reflexivity. Qed.

Example empty_text_block_is_refused :
  ingest Fixture.online (TextBlock (Some "A") (Some ""))
         (Fixture.world_of Fixture.empty_db)
  = ({| status := 400; body := ErrorBody "Title and content are required" |},
     Fixture.world_of Fixture.empty_db).
Proof. reflexivity. Qed.

(** The INSERT of the URL route and of the text route names the columns
    [source_url] and [mime_type], which the table of [init-db.js] lacks:
    these routes answer with an error whatever the request, and leave
    every table but the usage ledger as it was. *)
Lemma ingest_off_the_upload_route (env : Services) (req : Ingestion) (w : World) :
  is_upload req = false ->
  400 <= status (fst (ingest env req w))
  /\ (exists message, body (fst (ingest env req w)) = ErrorBody message)
  /\ same_content (db w) (db (snd (ingest env req w)))
  /\ uploads (snd (ingest env req w)) = uploads w.
Proof.
  assert (Hrefl : forall d, same_content d d) by (intros d; repeat split).
  destruct req as [data|[url|]|title content]; simpl; [discriminate| | |];
    intros _.
  - unfold post_urls. run.
    destruct (Js.falsy url); simpl;
      [repeat split; [lia|eexists; reflexivity]|].
    destruct (scrapeUrl env url) as [s|]; simpl;
      [|repeat split; [lia|eexists; reflexivity]].
    pose proof (getEmbedding_frame env (Js.substring0 15000 (scraped_content s)) w)
      as (Hup & _ & Hsame).
    destruct (getEmbedding env _ w) as [[e|] w1]; simpl in *;
      (split; [lia|]); (split; [eexists; reflexivity|]); split; assumption.
  - unfold post_urls. simpl.
    repeat split; [lia|eexists; reflexivity].
  - unfold post_texts.
    destruct title as [title|];
      [|run; repeat split; [lia|eexists; reflexivity]].
    destruct content as [content|];
      [|run; repeat split; [lia|eexists; reflexivity]].
    run.
    destruct (Js.falsy title || Js.falsy content); simpl;
      [repeat split; [lia|eexists; reflexivity]|].
    pose proof (getEmbedding_frame env
                  (Js.substring0 MAX_EMBEDDING_LENGTH content) w)
      as (Hup & _ & Hsame).
    destruct (getEmbedding env _ w) as [[e|] w1]; simpl in *;
      (split; [lia|]); (split; [eexists; reflexivity|]); split; assumption.
Qed.



(** The other two routes at 25,001 characters: the embedding request is
    sent, the INSERT fails on the missing column, the reply is
    [500 Internal Server Error] and no row is stored. *)
Example long_text_off_the_upload_route :
  (let res := ingest Fixture.online
                     (TextBlock (Some "A") (Some Fixture.big_text))
                     (Fixture.world_of Fixture.empty_db) in
   fst res = {| status := 500; body := ErrorBody "Internal Server Error" |}
   /\ documents (db (snd res)) = []
   /\ map Js.length (embedding_inputs (api_calls (snd res)))
      = [MAX_EMBEDDING_LENGTH])
  /\ (let res := ingest Fixture.online
                        (ScrapeUrl (Some "https://example.org/long"))
                        (Fixture.world_of Fixture.empty_db) in
      fst res = {| status := 500; body := ErrorBody "Internal Server Error" |}
      /\ documents (db (snd res)) = []
      /\ map Js.length (embedding_inputs (api_calls (snd res)))
         = [MAX_EMBEDDING_LENGTH]).
Proof.
  split; cbv zeta; (split; [vm_compute; reflexivity|]);
    (split; [vm_compute; reflexivity|]); vm_compute; reflexivity.
Qed.

(* ------------------------------------------------------------------ *)
(** ** [ORDER BY] and [LIMIT] *)

Lemma insert_by_perm {A} (le : A -> A -> bool) (x : A) (l : list A) :
  Permutation (Sql.insert_by le x l) (x :: l).
Proof.
  induction l as [|y l IH]; simpl; [reflexivity|].
  destruct (le x y); [reflexivity|].
  rewrite IH. apply perm_swap.
Qed.

Lemma order_by_perm {A} (le : A -> A -> bool) (l : list A) :
  Permutation (Sql.order_by le l) l.
Proof.
  induction l as [|x l IH]; simpl; [reflexivity|].
  rewrite insert_by_perm. now constructor.
Qed.

Lemma order_by_In {A} (le : A -> A -> bool) (l : list A) (x : A) :
  In x (Sql.order_by le l) <-> In x l.
Proof.
  split; apply Permutation_in;
    [apply order_by_perm|symmetry; apply order_by_perm].
Qed.

Lemma order_by_length {A} (le : A -> A -> bool) (l : list A) :
  List.length (Sql.order_by le l) = List.length l.
Proof. apply Permutation_length, order_by_perm. Qed.

Lemma In_firstn {A} (n : nat) (l : list A) (x : A) :
  In x (firstn n l) -> In x l.
Proof.
  intros H. rewrite <- (firstn_skipn n l). apply in_or_app. now left.
Qed.

Lemma In_skipn {A} (n : nat) (l : list A) (x : A) :
  In x (skipn n l) -> In x l.
Proof.
  intros H. rewrite <- (firstn_skipn n l). apply in_or_app. now right.
Qed.

Section Sorted.

Context {A : Type} (le : A -> A -> bool).
Hypothesis le_total : forall a b, le a b = true \/ le b a = true.
Hypothesis le_trans : forall a b c, le a b = true -> le b c = true -> le a c = true.

Let R (a b : A) : Prop := le a b = true.

Lemma insert_by_sorted (x : A) (l : list A) :
  StronglySorted R l -> StronglySorted R (Sql.insert_by le x l).
Proof.
  induction 1 as [|y l Hs IH Hall]; simpl.
  - repeat constructor.
  - destruct (le x y) eqn:E.
    + constructor; [constructor; assumption|].
      constructor; [exact E|].
      eapply Forall_impl; [|exact Hall].
      intros z Hz. unfold R in *. eapply le_trans; eassumption.
    + constructor; [exact IH|].
      assert (Hyx : R y x).
      { destruct (le_total x y) as [H|H]; [congruence|exact H]. }
      apply Forall_forall. intros z Hz.
      apply (Permutation_in _ (insert_by_perm le x l)) in Hz.
      destruct Hz as [<-|Hz]; [exact Hyx|].
      rewrite Forall_forall in Hall. now apply Hall.
Qed.

Lemma order_by_sorted (l : list A) : StronglySorted R (Sql.order_by le l).
Proof.
  induction l as [|x l IH]; simpl; [constructor|].
  now apply insert_by_sorted.
Qed.

(** The first [n] rows of a sorted list come before all the others. *)
Lemma sorted_firstn_skipn (n : nat) (l : list A) :
  StronglySorted R l ->
  StronglySorted R (firstn n l)
  /\ forall a b, In a (firstn n l) -> In b (skipn n l) -> R a b.
Proof.
  revert l; induction n as [|n IH]; intros l Hs; simpl.
  - split; [constructor|]. intros a b [].
  - destruct l as [|x l]; [split; [constructor|intros a b []]|].
    inversion Hs as [|? ? Hs' Hall]; subst.
    destruct (IH l Hs') as (Hf & Hcross).
    split.
    + constructor; [exact Hf|].
      rewrite Forall_forall in *. intros z Hz.
      apply Hall. eapply In_firstn; exact Hz.
    + intros a b [<-|Ha] Hb.
      * rewrite Forall_forall in Hall. apply Hall.
        eapply In_skipn; exact Hb.
      * now apply Hcross.
Qed.

End Sorted.

(* ------------------------------------------------------------------ *)
(** ** Notebook membership *)

Arguments touch_notebook : simpl never.

Lemma existsb_same_pair (nb doc : Z) (l : list (Z * Z)) :
  existsb (same_pair nb doc) l = true <-> In (nb, doc) l.
Proof.
  rewrite existsb_exists. unfold same_pair. split.
  - intros ([a b] & Hin & H). simpl in H.
    apply andb_true_iff in H. destruct H as (Ha & Hb).
    apply Z.eqb_eq in Ha, Hb. now subst.
  - intros Hin. exists (nb, doc). split; [exact Hin|]. simpl.
    now rewrite !Z.eqb_refl.
Qed.

(** Every member row of a notebook is a stored document paired with the
    notebook in the membership table. *)
Lemma notebook_members_In (d : Db) (nb : Z) (doc : Document) :
  In doc (notebook_members d nb)
  <-> In doc (documents d) /\ In (nb, doc_id doc) (notebook_documents d).
Proof.
  unfold notebook_members. rewrite in_flat_map. split.
  - intros (x & Hx & Hin). apply in_map_iff in Hin.
    destruct Hin as ([a b] & <- & Hf). apply filter_In in Hf.
    destruct Hf as (Hnd & Heq). simpl in Heq.
    apply andb_true_iff in Heq. destruct Heq as (Ha & Hb).
    apply Z.eqb_eq in Ha, Hb. subst. now split.
  - intros (Hdoc & Hnd). exists doc. split; [exact Hdoc|].
    apply in_map_iff. exists (nb, doc_id doc). split; [reflexivity|].
    apply filter_In. split; [exact Hnd|]. simpl. now rewrite !Z.eqb_refl.
Qed.

Lemma select_notebook_touch (d : Db) (id : Z) (nb : Notebook) :
  select_notebook d id = Some nb ->
  exists nb',
    select_notebook (touch_notebook d id) id = Some nb'
    /\ nb_id nb' = nb_id nb /\ nb_title nb' = nb_title nb
    /\ nb_content nb' = nb_content nb
    /\ nb_updated_at nb' = clock d.
Proof.
  unfold select_notebook, touch_notebook. simpl.
  induction (notebooks d) as [|n l IH]; simpl; [discriminate|].
  destruct (nb_id n =? id) eqn:E; simpl.
  - rewrite E. intros H; inversion H; subst.
    eexists; split; [reflexivity|]. repeat split.
  - rewrite E. exact IH.
Qed.

(** The route answers 201 only when it inserted the pair; in every other
    case it leaves the world as it found it. *)
Lemma post_notebook_documents_cases (w : World) (nb : Z) (docId : option Z) :
  let (r, w') := post_notebook_documents nb docId w in
  (status r = 201
   /\ exists doc d',
       docId = Some doc
       /\ insert_membership (db w) nb doc = inr d'
       /\ db w' = touch_notebook d' nb)
  \/ (status r <> 201 /\ w' = w).
Proof.
  unfold post_notebook_documents.
  destruct docId as [doc|]; simpl; [|right; split; [discriminate|reflexivity]].
  destruct (doc =? 0); simpl; [right; split; [discriminate|reflexivity]|].
  run.
  destruct (insert_membership (db w) nb doc) as [[| | |]|d'] eqn:E; simpl;
    try (right; split; [discriminate|reflexivity]).
  left. split; [reflexivity|]. now exists doc, d'.
Qed.

(** C9.  A request to add a document to a notebook that already holds
    it (the pair is a row of [notebook_documents]; document ids come from
    a [SERIAL] sequence and are not 0) is answered [409 Document is
    already in this notebook] and leaves the world, and so the notebook's
    [updated_at], exactly as it was; and whatever the request, a reply
    other than 201 means that nothing was written: the touch of
    [updated_at] only follows a successful insert. *)
Theorem duplicate_membership_is_a_conflict
    (w : World) (notebookId documentId : Z) :
  In (notebookId, documentId) (notebook_documents (db w)) ->
  documentId <> 0 ->
  post_notebook_documents notebookId (Some documentId) w
  = ({| status := 409;
        body := ErrorBody "Document is already in this notebook" |}, w)
  /\ select_notebook
       (db (snd (post_notebook_documents notebookId (Some documentId) w)))
       notebookId
     = select_notebook (db w) notebookId
  /\ forall nb docId,
       status (fst (post_notebook_documents nb docId w)) <> 201 ->
       snd (post_notebook_documents nb docId w) = w.
Proof.
  intros Hin Hnz.
  assert (Hrun : post_notebook_documents notebookId (Some documentId) w
                 = ({| status := 409;
                       body := ErrorBody "Document is already in this notebook" |},
                    w)).
  { unfold post_notebook_documents. simpl.
    destruct (documentId =? 0) eqn:E; [apply Z.eqb_eq in E; contradiction|].
    run. unfold insert_membership.
    apply existsb_same_pair in Hin. rewrite Hin. destruct w; reflexivity. }
  split; [exact Hrun|]. split; [now rewrite Hrun|].
  intros nb docId Hstatus.
  pose proof (post_notebook_documents_cases w nb docId) as H.
  destruct (post_notebook_documents nb docId w) as [r w']; simpl in *.
  destruct H as [(H201 & _)|(_ & Hw)]; [contradiction|exact Hw].
Qed.

Lemma duplicate_membership_is_a_conflict_witness :
  post_notebook_documents 1 (Some 3) (Fixture.world_of Fixture.library)
  = ({| status := 409;
        body := ErrorBody "Document is already in this notebook" |},
     Fixture.world_of Fixture.library)
  /\ select_notebook
       (db (snd (post_notebook_documents 1 (Some 3)
                   (Fixture.world_of Fixture.library)))) 1
     = select_notebook (db (Fixture.world_of Fixture.library)) 1
  /\ forall nb docId,
       status (fst (post_notebook_documents nb docId
                      (Fixture.world_of Fixture.library))) <> 201 ->
       snd (post_notebook_documents nb docId (Fixture.world_of Fixture.library))
       = Fixture.world_of Fixture.library.
Proof.
  apply (duplicate_membership_is_a_conflict
           (Fixture.world_of Fixture.library) 1 3).
  - simpl. right. left. reflexivity.
  - discriminate.
Defined.

Lemma length_filter_pos {A} (f : A -> bool) (l : list A) (x : A) :
  In x l -> f x = true -> (0 < List.length (filter f l))%nat.
Proof.
  intros Hin Hf.
  assert (H : In x (filter f l)) by (apply filter_In; now split).
  destruct (filter f l); [contradiction|simpl; lia].
Qed.

(** C7.  For a notebook and a document that is a member of it, removing
    the membership and then fetching the notebook answers 204 and then 200
    with a document list that holds exactly the other members: the removed
    document is absent.  The fetched [updated_at] is the clock reading of
    the removal, so it is strictly newer than the previous value whenever
    the clock has advanced since that value was written. *)
Theorem removed_member_is_absent_and_notebook_touched
    (w : World) (notebookId documentId : Z) (nb : Notebook) :
  select_notebook (db w) notebookId = Some nb ->
  In (notebookId, documentId) (notebook_documents (db w)) ->
  nb_updated_at nb < clock (db w) ->
  let (r1, w1) := delete_notebook_documents notebookId documentId w in
  let (r2, w2) := get_notebook notebookId w1 in
  r1 = {| status := 204; body := EmptyBody |}
  /\ exists nb' docs,
       r2 = {| status := 200; body := NotebookBody nb' docs |}
       /\ nb_id nb' = nb_id nb
       /\ (forall d, In d docs -> doc_id d <> documentId)
       /\ (forall d, In d docs <->
                     In d (notebook_members (db w) notebookId)
                     /\ doc_id d <> documentId)
       /\ nb_updated_at nb' = clock (db w)
       /\ nb_updated_at nb < nb_updated_at nb'.
Proof.
  intros Hnb Hin Hclock.
  unfold delete_notebook_documents, get_notebook, delete_membership.
  run.
  assert (Hcount : Nat.eqb (List.length (filter (same_pair notebookId documentId)
                                           (notebook_documents (db w)))) 0
                   = false).
  { apply Nat.eqb_neq.
    pose proof (length_filter_pos (same_pair notebookId documentId)
                  (notebook_documents (db w)) (notebookId, documentId) Hin) as H.
    unfold same_pair in H at 1. simpl in H. rewrite !Z.eqb_refl in H.
    specialize (H eq_refl). lia. }
  rewrite Hcount. simpl.
  set (d' := {| documents := documents (db w);
                notebooks := notebooks (db w);
                notebook_documents :=
                  filter (fun nd => negb (same_pair notebookId documentId nd))
                         (notebook_documents (db w));
                api_usage_logs := api_usage_logs (db w);
                next_document_id := next_document_id (db w);
                clock := clock (db w) |}).
  assert (Hnb' : select_notebook d' notebookId = Some nb) by exact Hnb.
  destruct (select_notebook_touch d' notebookId nb Hnb')
    as (nb' & Hsel & Hid & _ & _ & Hupd).
  rewrite Hsel. simpl.
  split; [reflexivity|].
  exists nb', (Sql.order_by created_desc
                 (notebook_members (touch_notebook d' notebookId) notebookId)).
  assert (Hmem : forall d,
             In d (Sql.order_by created_desc
                     (notebook_members (touch_notebook d' notebookId) notebookId))
             <-> In d (notebook_members (db w) notebookId)
                 /\ doc_id d <> documentId).
  { intros d. rewrite order_by_In, !notebook_members_In.
    unfold touch_notebook, d'; simpl. rewrite filter_In.
    unfold same_pair; simpl. rewrite Z.eqb_refl. simpl.
    rewrite negb_true_iff, Z.eqb_neq. tauto. }
  repeat split; try assumption.
  - intros d Hd. now apply Hmem in Hd.
  - now apply Hmem.
  - now apply Hmem.
  - intros (H1 & H2). apply Hmem. now split.
  - rewrite Hupd. exact Hclock.
Qed.

Lemma removed_member_witness :
  let (r1, w1) := delete_notebook_documents 1 3 (Fixture.world_of Fixture.library) in
  let (r2, w2) := get_notebook 1 w1 in
  r1 = {| status := 204; body := EmptyBody |}
  /\ exists nb' docs,
       r2 = {| status := 200; body := NotebookBody nb' docs |}
       /\ nb_id nb' = 1
       /\ (forall d, In d docs -> doc_id d <> 3)
       /\ (forall d, In d docs <->
                     In d (notebook_members Fixture.library 1) /\ doc_id d <> 3)
       /\ nb_updated_at nb' = 1000
       /\ 300 < nb_updated_at nb'.
Proof.
  apply (removed_member_is_absent_and_notebook_touched
           (Fixture.world_of Fixture.library) 1 3
           {| nb_id := 1; nb_title := "Capitals"; nb_content := Some "My notes";
              nb_created_at := 200; nb_updated_at := 300 |}).
  - reflexivity.
  - simpl. right. left. reflexivity.
  - simpl. lia.
Defined.

(* ------------------------------------------------------------------ *)
(** ** Notebook Q&A: retrieval and context assembly *)

Arguments select_notebook : simpl never.
Arguments select_relevant : simpl never.
Arguments compile_context : simpl never.

Lemma select_notebook_same_content (d d' : Db) (id : Z) :
  same_content d d' -> select_notebook d' id = select_notebook d id.
Proof.
  intros (_ & Hn & _). unfold select_notebook. now rewrite Hn.
Qed.

Lemma notebook_members_same_content (d d' : Db) (id : Z) :
  same_content d d' -> notebook_members d' id = notebook_members d id.
Proof.
  intros (Hd & _ & Hm & _). unfold notebook_members. now rewrite Hd, Hm.
Qed.

Lemma select_relevant_same_content (env : Services) (d d' : Db) (q : vector)
      (id : Z) :
  same_content d d' -> select_relevant env d' q id = select_relevant env d q id.
Proof.
  intros H. unfold select_relevant, ranked_members.
  now rewrite (notebook_members_same_content d d' id H).
Qed.





(** What the Q&A route does once the question is embedded and the
    notebook found. *)
Lemma post_notebook_query_run (env : Services) (id : Z) (question : string)
      (w : World) (e : vector) :
  Js.falsy question = false ->
  fst (getEmbedding env question w) = Some e ->
  let (r, w') := post_notebook_query env id (Some question) w in
  same_content (db w) (db w')
  /\ match select_notebook (db w) id with
     | None =>
         r = {| status := 404; body := ErrorBody "Notebook not found" |}
         /\ api_calls w' = (api_calls w ++ embedding_requests question)%list
     | Some nb =>
         let context :=
           compile_context (Js.or_else (nb_content nb) "")
                           (select_relevant env (db w) e id) in
         api_calls w'
         = (api_calls w ++ embedding_requests question
              ++ answer_requests question context)%list
         /\ (status r = 200 \/ status r = 500)
     end.
Proof.
  intros Hq He. unfold post_notebook_query. rewrite Hq. run.
  pose proof (getEmbedding_frame env question w) as Hframe.
  destruct (getEmbedding env question w) as [v w1]. simpl in *. subst v.
  destruct Hframe as (_ & Hcalls & Hsame).
  rewrite (select_notebook_same_content _ _ id Hsame).
  destruct (select_notebook (db w) id) as [nb|]; simpl.
  - rewrite (select_relevant_same_content env _ _ e id Hsame).
    set (context := compile_context (Js.or_else (nb_content nb) "")
                                    (select_relevant env (db w) e id)).
    pose proof (getAnswerFromContext_frame env question context w1) as Hans.
    destruct (getAnswerFromContext env question context w1) as [answer w2].
    simpl in Hans. destruct Hans as (_ & Hcalls2 & Hsame2).
    assert (Hw2 : same_content (db w) (db w2))
      by (eapply same_content_trans; eassumption).
    assert (Hall : api_calls w2
                   = (api_calls w ++ embedding_requests question
                        ++ answer_requests question context)%list)
      by (rewrite Hcalls2, Hcalls, app_assoc; reflexivity).
    destruct answer as [a|]; simpl; [destruct (Js.falsy a); simpl|];
      (split; [exact Hw2|split; [exact Hall|auto]]).
  - split; [exact Hsame|]. split; [reflexivity|exact Hcalls].
Qed.

(** C3, as the code has it.  Whatever the notebook, a missing or empty
    question is rejected with [400 Question is required] before anything
    else: the world is untouched and no request is sent.  The notebook,
    however, is looked up only after the question has been embedded: for
    a non-empty question on a notebook that does not exist, one request is
    sent to the embeddings endpoint, no chat request is sent, and the
    reply is [404 Notebook not found] when the embedding succeeded and
    [500 Failed to generate embedding for the question.] when it did
    not. *)
Theorem query_rejections (env : Services) (id : Z) (w : World) :
  post_notebook_query env id None w
  = ({| status := 400; body := ErrorBody "Question is required" |}, w)
  /\ post_notebook_query env id (Some "") w
     = ({| status := 400; body := ErrorBody "Question is required" |}, w)
  /\ (forall question,
        question <> "" ->
        select_notebook (db w) id = None ->
        let (r, w') := post_notebook_query env id (Some question) w in
        api_calls w'
        = (api_calls w
             ++ [EmbeddingsCreate "text-embedding-ada-002"
                   (Js.replace_newlines question)])%list
        /\ same_content (db w) (db w')
        /\ r = match fst (getEmbedding env question w) with
               | Some _ =>
                   {| status := 404; body := ErrorBody "Notebook not found" |}
               | None =>
                   {| status := 500;
                      body := ErrorBody
                                "Failed to generate embedding for the question." |}
               end).
Proof.
  split; [reflexivity|]. split; [reflexivity|].
  intros question Hne Hnb.
  assert (Hq : Js.falsy question = false)
    by (destruct question; [contradiction|reflexivity]).
  destruct (fst (getEmbedding env question w)) as [e|] eqn:He.
  - pose proof (post_notebook_query_run env id question w e Hq He) as H.
    destruct (post_notebook_query env id (Some question) w) as [r w'].
    rewrite Hnb in H. destruct H as (Hsame & Hr & Hcalls).
    unfold embedding_requests in Hcalls. rewrite Hq in Hcalls.
    split; [exact Hcalls|split; [exact Hsame|exact Hr]].
  - unfold post_notebook_query. rewrite Hq. run.
    pose proof (getEmbedding_frame env question w) as Hframe.
    destruct (getEmbedding env question w) as [v w1]. simpl in *. subst v.
    destruct Hframe as (_ & Hcalls & Hsame).
    unfold embedding_requests in Hcalls. rewrite Hq in Hcalls.
    split; [exact Hcalls|split; [exact Hsame|reflexivity]].
Qed.

(** The rejections on the library: an empty question about notebook 1,
    which exists, and a question about notebook 99, which does not. *)
Lemma query_rejections_witness :
  (select_notebook Fixture.library 1
   = Some {| nb_id := 1; nb_title := "Capitals"; nb_content := Some "My notes";
             nb_created_at := 200; nb_updated_at := 300 |}
   /\ post_notebook_query Fixture.online 1 None (Fixture.world_of Fixture.library)
      = ({| status := 400; body := ErrorBody "Question is required" |},
         Fixture.world_of Fixture.library)
   /\ post_notebook_query Fixture.online 1 (Some "")
                          (Fixture.world_of Fixture.library)
      = ({| status := 400; body := ErrorBody "Question is required" |},
         Fixture.world_of Fixture.library))
  /\ let (r, w') :=
       post_notebook_query Fixture.online 99 (Some "What?")
                           (Fixture.world_of Fixture.library) in
     api_calls w' = [EmbeddingsCreate "text-embedding-ada-002" "What?"]
     /\ same_content Fixture.library (db w')
     /\ r = {| status := 404; body := ErrorBody "Notebook not found" |}.
Proof.
  split.
  - split; [reflexivity|].
    pose proof (query_rejections Fixture.online 1
                  (Fixture.world_of Fixture.library)) as (H1 & H2 & _).
    split; [exact H1|exact H2].
  - refine (proj2 (proj2 (query_rejections Fixture.online 99
                            (Fixture.world_of Fixture.library)))
                  "What?" _ eq_refl).
    discriminate.
Defined.

(** C3 as stated fails for the notebook that does not exist.  Notebook
    99 is not in the store; a question about it is embedded first (one
    request to the embeddings endpoint, one row in the usage ledger) and
    only then answered with 404; and when the embedding fails the reply is
    the embedding failure, not notebook-not-found. *)
Lemma missing_notebook_is_embedded_first :
  select_notebook Fixture.library 99 = None
  /\ (let res := post_notebook_query Fixture.online 99 (Some "What?")
                   (Fixture.world_of Fixture.library) in
      fst res = {| status := 404; body := ErrorBody "Notebook not found" |}
      /\ api_calls (snd res) = [EmbeddingsCreate EMBEDDING_MODEL "What?"]
      /\ List.length (api_usage_logs (db (snd res))) = 1%nat)
  /\ (let res := post_notebook_query Fixture.offline 99 (Some "What?")
                   (Fixture.world_of Fixture.library) in
      fst res = {| status := 500;
                   body := ErrorBody
                             "Failed to generate embedding for the question." |}
      /\ api_calls (snd res) = [EmbeddingsCreate EMBEDDING_MODEL "What?"]).
Proof. repeat split. Qed.

Lemma with_distance_In (env : Services) (q : vector) (docs : list Document)
      (dist : Q) (doc : Document) :
  In (dist, doc) (with_distance env q docs)
  <-> In doc docs
      /\ exists emb, doc_embedding doc = Some emb
                     /\ dist = cosine_distance env emb q.
Proof.
  unfold with_distance. rewrite in_flat_map. split.
  - intros (x & Hx & Hin).
    destruct (doc_embedding x) as [emb|] eqn:E; simpl in Hin; [|contradiction].
    destruct Hin as [Heq|[]]. inversion Heq; subst.
    split; [exact Hx|]. now exists emb.
  - intros (Hdoc & emb & Hemb & ->). exists doc. split; [exact Hdoc|].
    rewrite Hemb. now left.
Qed.

Lemma nearer_total (a b : Q * Document) :
  nearer a b = true \/ nearer b a = true.
Proof.
  unfold nearer. rewrite !Qle_bool_iff.
  destruct (Qlt_le_dec (fst b) (fst a)) as [H|H]; [right|left]; auto.
  now apply Qlt_le_weak.
Qed.

Lemma nearer_trans (a b c : Q * Document) :
  nearer a b = true -> nearer b c = true -> nearer a c = true.
Proof.
  unfold nearer. rewrite !Qle_bool_iff. apply Qle_trans.
Qed.

Lemma StronglySorted_weaken {A} (R R' : A -> A -> Prop) (l : list A) :
  (forall a b, R a b -> R' a b) -> StronglySorted R l -> StronglySorted R' l.
Proof.
  intros Himp. induction 1 as [|x l Hs IH Hall]; constructor; auto.
  eapply Forall_impl; [|exact Hall]. auto.
Qed.

(** The retrieval of the Q&A route: at most five rows, each a member of
    the notebook with an embedding, in ascending distance, and no member
    left out is nearer than a retrieved one. *)
Lemma ranked_members_spec (env : Services) (d : Db) (q : vector) (id : Z) :
  let ranked := ranked_members env d q id in
  let rest := skipn 5 (Sql.order_by nearer
                         (with_distance env q (notebook_members d id))) in
  (List.length ranked <= 5)%nat
  /\ (forall dist doc,
        In (dist, doc) ranked ->
        In doc (documents d) /\ In (id, doc_id doc) (notebook_documents d)
        /\ exists emb, doc_embedding doc = Some emb
                       /\ dist = cosine_distance env emb q)
  /\ StronglySorted (fun a b => (fst a <= fst b)%Q) ranked
  /\ Permutation (ranked ++ rest) (with_distance env q (notebook_members d id))
  /\ (forall a b, In a ranked -> In b rest -> (fst a <= fst b)%Q)
  /\ (rest <> [] -> List.length ranked = 5%nat).
Proof.
  unfold ranked_members, Sql.limit.
  set (eligible := with_distance env q (notebook_members d id)).
  set (sorted := Sql.order_by nearer eligible).
  pose proof (order_by_sorted nearer nearer_total nearer_trans eligible) as Hs.
  fold sorted in Hs.
  destruct (sorted_firstn_skipn nearer 5 sorted Hs) as (Hfirst & Hcross).
  cbv zeta. repeat split.
  - apply firstn_le_length.
  - apply In_firstn in H. apply order_by_In in H.
    apply with_distance_In in H. destruct H as (Hm & _).
    now apply notebook_members_In in Hm.
  - apply In_firstn in H. apply order_by_In in H.
    apply with_distance_In in H. destruct H as (Hm & _).
    now apply notebook_members_In in Hm.
  - apply In_firstn in H. apply order_by_In in H.
    apply with_distance_In in H. now destruct H as (_ & H).
  - eapply StronglySorted_weaken; [|exact Hfirst].
    intros a b. unfold nearer. now rewrite Qle_bool_iff.
  - rewrite firstn_skipn. apply order_by_perm.
  - intros a b Ha Hb. specialize (Hcross a b Ha Hb).
    unfold nearer in Hcross. now apply Qle_bool_iff.
  - intros Hrest. rewrite length_firstn.
    destruct (Nat.le_gt_cases (List.length sorted) 5) as [Hle|Hgt]; [|lia].
    apply skipn_all_iff in Hle. contradiction.
Qed.

(** Every member of the notebook that has an embedding is retrieved,
    unless five rows at least as near were. *)
Lemma ranked_members_complete (env : Services) (d : Db) (q : vector) (id : Z)
      (doc : Document) (emb : vector) :
  In doc (documents d) ->
  In (id, doc_id doc) (notebook_documents d) ->
  doc_embedding doc = Some emb ->
  In (cosine_distance env emb q, doc) (ranked_members env d q id)
  \/ (List.length (ranked_members env d q id) = 5%nat
      /\ forall a, In a (ranked_members env d q id) ->
                   (fst a <= cosine_distance env emb q)%Q).
Proof.
  intros Hdoc Hpair Hemb.
  destruct (ranked_members_spec env d q id)
    as (_ & _ & _ & Hperm & Hcross & Hfull).
  assert (Hin : In (cosine_distance env emb q, doc)
                   (with_distance env q (notebook_members d id))).
  { apply with_distance_In. split.
    - apply notebook_members_In. now split.
    - now exists emb. }
  apply (Permutation_in _ (Permutation_sym Hperm)) in Hin.
  apply in_app_or in Hin. destruct Hin as [Hin|Hin]; [now left|].
  right. split.
  - apply Hfull. intros Hnil. rewrite Hnil in Hin. contradiction.
  - intros a Ha. exact (Hcross a _ Ha Hin).
Qed.





(** The context of a request on the library, character for character:
    document 7 is a member of the notebook but has no embedding, and is
    not in it. *)
Example answer_context_example :
  api_calls
    (snd (post_notebook_query Fixture.online 1
            (Some "What is the capital of France?")
            (Fixture.world_of Fixture.library)))
  = [ EmbeddingsCreate EMBEDDING_MODEL "What is the capital of France?";
      ChatCompletionsCreate
        {| chat_model := COMPLETION_MODEL;
           chat_system := ANSWER_SYSTEM_PROMPT;
           chat_user :=
             answer_user_message "What is the capital of France?"
               ("Notebook Notes:" ++ nl ++ "My notes" ++ delimiter
                ++ "Document: One (Similarity: 90.0%)" ++ nl
                ++ "Content:" ++ nl ++ "Paris is the capital of France."
                ++ delimiter
                ++ "Document: Three (Similarity: 70.0%)" ++ nl
                ++ "Content:" ++ nl ++ "Rome" ++ delimiter);
           chat_temperature := 2 # 10 |} ].
Proof. vm_compute. reflexivity. Qed.

(* ------------------------------------------------------------------ *)
(** ** Documents without embedding *)

Lemma with_distance_copies_of_null (env : Services) (q : vector)
      (doc : Document) {B} (l : list B) :
  doc_embedding doc = None ->
  with_distance env q (map (fun _ => doc) l) = [].
Proof.
  intros Hnull. unfold with_distance.
  induction l as [|x l IH]; simpl; [reflexivity|].
  now rewrite Hnull.
Qed.

Lemma with_distance_app (env : Services) (q : vector) (a b : list Document) :
  with_distance env q (a ++ b)
  = (with_distance env q a ++ with_distance env q b)%list.
Proof. unfold with_distance. apply flat_map_app. Qed.

(** Dropping the documents without embedding from the store does not
    change the rows the retrieval ranks. *)
Lemma with_distance_drop_null (env : Services) (d : Db) (q : vector) (id : Z) :
  with_distance env q (notebook_members (drop_null_embeddings d) id)
  = with_distance env q (notebook_members d id).
Proof.
  unfold notebook_members, drop_null_embeddings; simpl.
  induction (documents d) as [|doc docs IH]; simpl; [reflexivity|].
  destruct (doc_embedding doc) as [emb|] eqn:E; simpl.
  - rewrite !with_distance_app. now rewrite IH.
  - rewrite with_distance_app, with_distance_copies_of_null by exact E.
    exact IH.
Qed.

Lemma select_relevant_drop_null (env : Services) (d : Db) (q : vector) (id : Z) :
  select_relevant env (drop_null_embeddings d) q id = select_relevant env d q id.
Proof.
  unfold select_relevant, ranked_members.
  now rewrite with_distance_drop_null.
Qed.

Lemma logApiUsage_drop_null (model : string) (usage : option Usage) (w : World) :
  logApiUsage model usage (map_db drop_null_embeddings w)
  = (tt, map_db drop_null_embeddings (snd (logApiUsage model usage w))).
Proof.
  unfold logApiUsage. run.
  destruct (usage_log_row _ _ _ _ _ _); reflexivity.
Qed.

Lemma getEmbedding_drop_null (env : Services) (text : string) (w : World) :
  getEmbedding env text (map_db drop_null_embeddings w)
  = (fst (getEmbedding env text w),
     map_db drop_null_embeddings (snd (getEmbedding env text w))).
Proof.
  unfold getEmbedding.
  destruct (Js.falsy text); [reflexivity|]. run.
  destruct (embeddings_create env EMBEDDING_MODEL (Js.replace_newlines text))
    as [response|]; [|reflexivity].
  destruct (emb_usage response) as [u|]; simpl; [|reflexivity].
  match goal with
  | |- context [logApiUsage ?m ?u0 {| db := drop_null_embeddings (db w);
                                      uploads := ?up; api_calls := ?c |}] =>
      change {| db := drop_null_embeddings (db w); uploads := up; api_calls := c |}
        with (map_db drop_null_embeddings
                {| db := db w; uploads := up; api_calls := c |});
      rewrite (logApiUsage_drop_null m u0)
  end.
  destruct (logApiUsage _ _ _) as [[] w1]. reflexivity.
Qed.

Lemma getAnswerFromContext_drop_null (env : Services) (question context : string)
      (w : World) :
  getAnswerFromContext env question context (map_db drop_null_embeddings w)
  = (fst (getAnswerFromContext env question context w),
     map_db drop_null_embeddings
            (snd (getAnswerFromContext env question context w))).
Proof.
  unfold getAnswerFromContext.
  destruct (Js.falsy question || Js.falsy context); [reflexivity|]. run.
  match goal with |- context [chat_completions_create env ?r] =>
    destruct (chat_completions_create env r) as [response|] end;
    [|reflexivity].
  destruct (chat_usage response) as [u|]; simpl; [|reflexivity].
  match goal with
  | |- context [logApiUsage ?m ?u0 {| db := drop_null_embeddings (db w);
                                      uploads := ?up; api_calls := ?c |}] =>
      change {| db := drop_null_embeddings (db w); uploads := up; api_calls := c |}
        with (map_db drop_null_embeddings
                {| db := db w; uploads := up; api_calls := c |});
      rewrite (logApiUsage_drop_null m u0)
  end.
  destruct (logApiUsage _ _ _) as [[] w1]. reflexivity.
Qed.

(** The Q&A route cannot tell a store from the same store without its
    documents that have no embedding. *)
Lemma post_notebook_query_drop_null (env : Services) (id : Z)
      (question : option string) (w : World) :
  post_notebook_query env id question (map_db drop_null_embeddings w)
  = (fst (post_notebook_query env id question w),
     map_db drop_null_embeddings (snd (post_notebook_query env id question w))).
Proof.
  unfold post_notebook_query.
  destruct question as [question|]; [|reflexivity].
  destruct (Js.falsy question); [reflexivity|]. run.
  rewrite getEmbedding_drop_null.
  destruct (getEmbedding env question w) as [[e|] w1]; simpl; [|reflexivity].
  change (select_notebook (drop_null_embeddings (db w1)) id)
    with (select_notebook (db w1) id).
  destruct (select_notebook (db w1) id) as [nb|]; [|reflexivity].
  rewrite select_relevant_drop_null.
  rewrite getAnswerFromContext_drop_null.
  destruct (getAnswerFromContext env question _ w1) as [[a|] w2]; simpl;
    [destruct (Js.falsy a)|]; reflexivity.
Qed.

(** C10.  In the Q&A retrieval every ranked row comes from a member
    document whose embedding is not [NULL]; the retrieved rows are the
    same as on the store without the documents that have no embedding;
    and the whole route (its reply, the requests it sends, the context
    among them, and what it writes) is the same on that store: a member
    without embedding never contributes to the assembled context. *)
Theorem null_embedding_members_are_not_retrieved
    (env : Services) (id : Z) (question : option string) (q : vector)
    (w : World) :
  (forall r, In r (ranked_members env (db w) q id) ->
             doc_embedding (snd r) <> None)
  /\ (forall doc, In doc (notebook_members (db w) id) ->
                  doc_embedding doc = None ->
                  forall dist, ~ In (dist, doc) (ranked_members env (db w) q id))
  /\ select_relevant env (db w) q id
     = select_relevant env (drop_null_embeddings (db w)) q id
  /\ post_notebook_query env id question (map_db drop_null_embeddings w)
     = (fst (post_notebook_query env id question w),
        map_db drop_null_embeddings
               (snd (post_notebook_query env id question w))).
Proof.
  assert (Hemb : forall r, In r (ranked_members env (db w) q id) ->
                           doc_embedding (snd r) <> None).
  { intros [dist doc] Hin.
    destruct (ranked_members_spec env (db w) q id) as (_ & Hrows & _).
    destruct (Hrows dist doc Hin) as (_ & _ & emb & Hsome & _).
    simpl. congruence. }
  split; [exact Hemb|]. split.
  - intros doc _ Hnull dist Hin. now apply (Hemb (dist, doc) Hin).
  - split; [symmetry; apply select_relevant_drop_null|].
    apply post_notebook_query_drop_null.
Qed.

(** Member 7 of notebook 1 has no embedding: the retrieval returns the
    members 1 and 3 only. *)
Example null_embedding_member_example :
  map (fun r => doc_id (snd r))
      (ranked_members Fixture.online Fixture.library [0%Q] 1) = [1; 3]
  /\ In (1, 7) (notebook_documents Fixture.library).
Proof. split; [reflexivity|simpl; auto]. Qed.

(* ------------------------------------------------------------------ *)
(** ** Double precision: the rounding error *)

Lemma round_half_even_close (y : Q) :
  (Qabs (inject_Z (Double.round_half_even y) - y) <= 1 # 2)%Q.
Proof.
  unfold Double.round_half_even.
  pose proof (Qfloor_le y) as Hlo. pose proof (Qlt_floor y) as Hhi.
  rewrite inject_Z_plus in Hhi. change (inject_Z 1) with 1%Q in Hhi.
  set (f := Qfloor y) in *.
  apply Qabs_Qle_condition.
  destruct (Qcompare_spec (y - inject_Z f) (1 # 2)) as [H|H|H].
  - destruct (Z.even f); rewrite ?inject_Z_plus;
      change (inject_Z 1) with 1%Q; split; lra.
  - split; lra.
  - rewrite inject_Z_plus. change (inject_Z 1) with 1%Q. split; lra.
Qed.

Lemma Qabs_mult_le (a b A B : Q) :
  (Qabs a <= A)%Q -> (Qabs b <= B)%Q -> (Qabs (a * b) <= A * B)%Q.
Proof.
  intros Ha Hb. rewrite Qabs_Qmult.
  pose proof (Qabs_nonneg a). pose proof (Qabs_nonneg b).
  apply Qle_trans with (Qabs a * B)%Q.
  - rewrite (Qmult_comm (Qabs a) (Qabs b)), (Qmult_comm (Qabs a) B).
    apply Qmult_le_compat_r; assumption.
  - apply Qmult_le_compat_r; [assumption|].
    apply Qle_trans with (Qabs b); assumption.
Qed.

Lemma pow2_pos (z : Z) : (0 < 2 ^ z)%Q.
Proof. apply Qpower_0_lt. reflexivity. Qed.

Lemma ilog2_le (a : Q) : (0 < a)%Q -> (2 ^ Double.ilog2 a <= a)%Q.
Proof.
  intros Ha. unfold Double.ilog2.
  set (l := Z.log2 (Qnum a) - Z.log2 (Z.pos (Qden a))).
  destruct (Qle_bool (2 ^ l) a) eqn:E; [now apply Qle_bool_iff|].
  destruct a as [n d]. cbn [Qnum Qden] in l.
  assert (Hn : 0 < n) by (unfold Qlt in Ha; simpl in Ha; lia).
  pose proof (Z.log2_spec n Hn) as (Hn1 & _).
  pose proof (Z.log2_spec (Z.pos d) (Pos2Z.is_pos d)) as (_ & Hd2).
  pose proof (Z.log2_nonneg n) as Hln.
  pose proof (Z.log2_nonneg (Z.pos d)) as Hld.
  replace (l - 1) with (Z.log2 n - Z.succ (Z.log2 (Z.pos d)))
    by (unfold l; lia).
  rewrite Qpower_minus by discriminate.
  rewrite <- !(Zpower_Qpower 2) by lia.
  set (N := 2 ^ Z.log2 n) in *. set (D := 2 ^ Z.succ (Z.log2 (Z.pos d))) in *.
  assert (HD : 0 < D) by lia.
  apply Qle_shift_div_r;
    [change (inject_Z 0 < inject_Z D)%Q; rewrite <- Zlt_Qlt; exact HD|].
  unfold Qle, Qmult, inject_Z; simpl. nia.
Qed.

Lemma sign_abs (x : Q) : x == inject_Z (Z.sgn (Qnum x)) * Qabs x.
Proof.
  destruct x as [[|n|n] d]; unfold Qeq, Qabs, Qmult, inject_Z; simpl; lia.
Qed.

Lemma ulp_le (x : Q) :
  ~ x == 0 -> (2 ^ Double.ulp_exponent x <= Qabs x * 2 ^ (-52) + 2 ^ (-1074))%Q.
Proof.
  intros Hx. unfold Double.ulp_exponent.
  assert (Hpos : (0 < Qabs x)%Q).
  { pose proof (Qabs_nonneg x) as H0.
    destruct (Qlt_le_dec 0 (Qabs x)) as [H|H]; [exact H|].
    exfalso. apply Hx.
    assert (Hz : Qabs x == 0) by lra.
    pose proof (sign_abs x) as Hs. rewrite Hz in Hs. lra. }
  pose proof (ilog2_le (Qabs x) Hpos) as Hl.
  pose proof (pow2_pos (-52)) as H52. pose proof (pow2_pos (-1074)) as H1074.
  destruct (Z.max_spec (Double.ilog2 (Qabs x) - 52) (-1074)) as [(_ & ->)|(_ & ->)].
  - assert (0 <= Qabs x * 2 ^ (-52))%Q by (apply Qmult_le_0_compat; lra).
    lra.
  - replace (Double.ilog2 (Qabs x) - 52) with (Double.ilog2 (Qabs x) + - 52) by lia.
    rewrite Qpower_plus by discriminate.
    assert (2 ^ Double.ilog2 (Qabs x) * 2 ^ (-52) <= Qabs x * 2 ^ (-52))%Q
      by (apply Qmult_le_compat_r; lra).
    lra.
Qed.

(** The double nearest to [x] is within half a unit of its last place. *)
Lemma round_error (x : Q) :
  (Qabs (Double.round x - x) <= Qabs x * 2 ^ (-53) + 2 ^ (-1075))%Q.
Proof.
  unfold Double.round.
  destruct (Qeq_bool x 0) eqn:E.
  - apply Qeq_bool_eq in E.
    pose proof (pow2_pos (-1075)). pose proof (pow2_pos (-53)).
    pose proof (Qabs_nonneg x).
    assert (Hz : Qabs (0 - x) == 0) by (rewrite E; reflexivity).
    rewrite Hz.
    assert (0 <= Qabs x * 2 ^ (-53))%Q by (apply Qmult_le_0_compat; lra).
    lra.
  - assert (Hx : ~ x == 0).
    { intros H. apply Qeq_eq_bool in H. congruence. }
    pose proof (ulp_le x Hx) as Hulp.
    set (e := Double.ulp_exponent x) in *.
    pose proof (pow2_pos e) as He.
    set (y := (Qabs x / 2 ^ e)%Q).
    pose proof (round_half_even_close y) as Hr.
    set (r := Double.round_half_even y) in *.
    set (s := Z.sgn (Qnum x)).
    assert (Hy : Qabs x == y * 2 ^ e)
      by (unfold y; field; lra).
    assert (Hdiff : inject_Z (s * r) * 2 ^ e - x
                    == inject_Z s * ((inject_Z r - y) * 2 ^ e)).
    { rewrite (sign_abs x) at 1. fold s. rewrite Hy, inject_Z_mult. ring. }
    rewrite Hdiff.
    assert (Hs : (Qabs (inject_Z s) <= 1)%Q).
    { unfold s. destruct (Qnum x); simpl; unfold Qle; simpl; lia. }
    assert (Hm : (Qabs ((inject_Z r - y) * 2 ^ e) <= (1 # 2) * 2 ^ e)%Q).
    { apply Qabs_mult_le; [exact Hr|]. rewrite Qabs_pos; lra. }
    pose proof (Qabs_mult_le _ _ _ _ Hs Hm) as Hall.
    assert (H53 : 2 ^ (-53) == (1 # 2) * 2 ^ (-52)) by reflexivity.
    assert (H1075 : 2 ^ (-1075) == (1 # 2) * 2 ^ (-1074)) by reflexivity.
    rewrite H53, H1075. lra.
Qed.

Lemma candidate_reads_back (x : Q) (n k s e : Z) :
  Double.candidate x n k = Some (s, e) ->
  Double.round (inject_Z s * 10 ^ e) == x.
Proof.
  unfold Double.candidate.
  set (scale := (10 ^ (n - k))%Q).
  set (lo := Qfloor (x / scale)).
  destruct (Qeq_bool (Double.round (inject_Z lo * scale)) x) eqn:Hlo;
    destruct (Qeq_bool (Double.round (inject_Z (lo + 1) * scale)) x) eqn:Hhi;
    simpl.
  - destruct (x - inject_Z lo * scale ?= inject_Z (lo + 1) * scale - x)%Q;
      [destruct (Z.even lo)| |];
      intros H; inversion H; subst; now apply Qeq_bool_eq.
  - intros H; inversion H; subst; now apply Qeq_bool_eq.
  - intros H; inversion H; subst; now apply Qeq_bool_eq.
  - discriminate.
Qed.

Lemma shortest_from_reads_back (x : Q) (n : Z) (fuel : nat) (k s e : Z) :
  Double.shortest_from x n k fuel = Some (s, e) ->
  Double.round (inject_Z s * 10 ^ e) == x.
Proof.
  revert k. induction fuel as [|fuel IH]; intros k; simpl; [discriminate|].
  destruct (Double.candidate x n k) as [[s' e']|] eqn:E.
  - intros H; inversion H; subst. exact (candidate_reads_back _ _ _ _ _ E).
  - apply IH.
Qed.

(** A decimal that reads back as [x] is close to [x]. *)
Lemma reads_back_close (v x : Q) :
  Double.round v == x ->
  (Qabs (v - x) <= Qabs x * 2 ^ (-52) + 2 ^ (-1074))%Q.
Proof.
  intros Hv. pose proof (round_error v) as H. rewrite Hv in H.
  rewrite Qabs_Qminus in H.
  pose proof (Qabs_triangle_reverse v x) as Ht.
  assert (H53 : 2 ^ (-53) == 1 # 9007199254740992) by reflexivity.
  assert (H52 : 2 ^ (-52) == 2 * (1 # 9007199254740992)) by reflexivity.
  assert (H1075 : 2 ^ (-1074) == 2 * 2 ^ (-1075)) by reflexivity.
  pose proof (pow2_pos (-1075)) as Hpos.
  pose proof (Qabs_nonneg x) as Hx.
  rewrite H53 in H. rewrite H52, H1075.
  set (a := Qabs v) in *. set (b := Qabs x) in *.
  set (d := Qabs (v - x)) in *. set (eta := (2 ^ (-1075))%Q) in *.
  lra.
Qed.

(** The number a double is written as is close to the double. *)
Lemma shortest_error (x : Q) :
  (Qabs (Double.shortest x - x) <= Qabs x * 2 ^ (-52) + 2 ^ (-1074))%Q.
Proof.
  assert (Hnonneg : (0 <= Qabs x * 2 ^ (-52) + 2 ^ (-1074))%Q).
  { pose proof (Qabs_nonneg x). pose proof (pow2_pos (-52)).
    pose proof (pow2_pos (-1074)).
    assert (0 <= Qabs x * 2 ^ (-52))%Q by (apply Qmult_le_0_compat; lra).
    lra. }
  unfold Double.shortest.
  destruct (Qeq_bool x 0) eqn:E.
  - apply Qeq_bool_eq in E.
    assert (Hz : Qabs (0 - x) == 0) by (rewrite E; reflexivity).
    rewrite Hz. exact Hnonneg.
  - destruct (Double.shortest_from (Qabs x) (Double.decimal_exponent (Qabs x)) 1 17)
      as [[s e]|] eqn:Hs.
    + apply shortest_from_reads_back in Hs.
      pose proof (reads_back_close _ _ Hs) as Hclose.
      rewrite (Qabs_pos (Qabs x) (Qabs_nonneg x)) in Hclose.
      set (sg := Z.sgn (Qnum x)).
      assert (Hdiff : inject_Z (sg * s) * 10 ^ e - x
                      == inject_Z sg * (inject_Z s * 10 ^ e - Qabs x)).
      { rewrite (sign_abs x) at 1. fold sg. rewrite inject_Z_mult. ring. }
      rewrite Hdiff.
      assert (Hsg : (Qabs (inject_Z sg) <= 1)%Q).
      { unfold sg. destruct (Qnum x); simpl; unfold Qle; simpl; lia. }
      pose proof (Qabs_mult_le _ _ _ _ Hsg Hclose) as Hall.
      lra.
    + assert (Hz : Qabs (x - x) == 0).
      { assert (Hxx : x - x == 0) by ring. rewrite Hxx. reflexivity. }
      rewrite Hz. exact Hnonneg.
Qed.

(** The same bounds with decimal constants. *)
Lemma round_within (x B : Q) :
  (Qabs x <= B)%Q ->
  (Qabs (Double.round x - x) <= B * (1 # 1000000000000000) + (1 # 1000000000000000000000000000000))%Q.
Proof.
  intros HB. pose proof (round_error x) as H.
  pose proof (Qabs_nonneg x) as Hx.
  assert (H53 : (2 ^ (-53) == 1 # 9007199254740992)%Q) by reflexivity.
  assert (H1075 : (2 ^ (-1075) <= 1 # 1000000000000000000000000000000)%Q)
    by (vm_compute; discriminate).
  rewrite H53 in H.
  set (a := Qabs x) in *. set (d := Qabs (Double.round x - x)) in *.
  set (eta := (2 ^ (-1075))%Q) in *.
  lra.
Qed.

Lemma shortest_within (x B : Q) :
  (Qabs x <= B)%Q ->
  (Qabs (Double.shortest x - x) <= B * (1 # 1000000000000000) + (1 # 1000000000000000000000000000000))%Q.
Proof.
  intros HB. pose proof (shortest_error x) as H.
  pose proof (Qabs_nonneg x) as Hx.
  assert (H52 : (2 ^ (-52) == 1 # 4503599627370496)%Q) by reflexivity.
  assert (H1074 : (2 ^ (-1074) <= 1 # 1000000000000000000000000000000)%Q)
    by (vm_compute; discriminate).
  rewrite H52 in H.
  set (a := Qabs x) in *. set (d := Qabs (Double.shortest x - x)) in *.
  set (eta := (2 ^ (-1074))%Q) in *.
  lra.
Qed.

(* ------------------------------------------------------------------ *)
(** ** The usage meter *)

Lemma round_half_away_close (y : Q) :
  (Qabs (inject_Z (Num.round_half_away y) - y) <= 1 # 2)%Q.
Proof.
  unfold Num.round_half_away.
  destruct (Qle_bool 0 y) eqn:E.
  - pose proof (Qfloor_le (y + (1 # 2))) as Hlo.
    pose proof (Qlt_floor (y + (1 # 2))) as Hhi.
    rewrite inject_Z_plus in Hhi. change (inject_Z 1) with 1%Q in Hhi.
    apply Qabs_case; intros _; lra.
  - pose proof (Qfloor_le (- y + (1 # 2))) as Hlo.
    pose proof (Qlt_floor (- y + (1 # 2))) as Hhi.
    rewrite inject_Z_plus in Hhi. change (inject_Z 1) with 1%Q in Hhi.
    rewrite inject_Z_opp.
    apply Qabs_case; intros _; lra.
Qed.

Lemma numeric6_value_scaled (n : Num.numeric6) :
  (Num.numeric6_value n * 1000000 == inject_Z (Num.micros n))%Q.
Proof.
  unfold Num.numeric6_value, Qeq, Qmult, inject_Z; simpl. lia.
Qed.

(** A stored cost is within half a millionth of the value it rounds. *)
Lemma to_numeric_10_6_close (x : Q) (n : Num.numeric6) :
  Num.to_numeric_10_6 x = Some n ->
  Num.micros n = Num.round_half_away (x * 1000000)
  /\ (Qabs (Num.numeric6_value n - x) <= 1 # 2000000)%Q.
Proof.
  unfold Num.to_numeric_10_6.
  destruct (Z.abs _ <? 10 ^ 10); [|discriminate].
  intros H; inversion H; subst n; clear H.
  split; [reflexivity|].
  pose proof (round_half_away_close (x * 1000000)) as Hclose.
  set (m := Num.round_half_away (x * 1000000)) in *.
  assert (Hval : (Num.numeric6_value {| Num.micros := m |} * 1000000
                  == inject_Z m)%Q) by apply numeric6_value_scaled.
  set (v := Num.numeric6_value {| Num.micros := m |}) in *.
  apply (proj1 (Qabs_Qle_condition _ _)) in Hclose.
  destruct Hclose as (Hlo & Hhi).
  apply (proj2 (Qabs_Qle_condition _ _)). split; lra.
Qed.

Lemma mul_error (a a0 b b0 ea eb A0 B : Q) :
  (Qabs (a - a0) <= ea)%Q -> (Qabs (b - b0) <= eb)%Q ->
  (Qabs a0 <= A0)%Q -> (Qabs b <= B)%Q ->
  (Qabs (a * b - a0 * b0) <= ea * B + A0 * eb)%Q.
Proof.
  intros Ha Hb Ha0 HB.
  assert (Heq : a * b - a0 * b0 == (a - a0) * b + a0 * (b - b0)) by ring.
  rewrite Heq.
  eapply Qle_trans; [apply Qabs_triangle|].
  pose proof (Qabs_mult_le _ _ _ _ Ha HB).
  pose proof (Qabs_mult_le _ _ _ _ Ha0 Hb).
  lra.
Qed.

Lemma Qabs_near (a a0 e A0 : Q) :
  (Qabs (a - a0) <= e)%Q -> (Qabs a0 <= A0)%Q -> (Qabs a <= A0 + e)%Q.
Proof.
  intros Ha Ha0.
  apply Qabs_Qle_condition in Ha. apply Qabs_Qle_condition in Ha0.
  apply Qabs_Qle_condition. split; lra.
Qed.

Lemma fits_integer_abs (n : Z) :
  Sql.fits_integer n = true -> (Qabs (inject_Z n) <= 2147483648)%Q.
Proof.
  unfold Sql.fits_integer. rewrite andb_true_iff, !Z.leb_le. intros (Hlo & Hhi).
  apply Qabs_Qle_condition.
  change (Qopp 2147483648) with (inject_Z (-2147483648)).
  change 2147483648%Q with (inject_Z 2147483648).
  rewrite <- !Zle_Qle. lia.
Qed.

(** One term of the cost, [(tokens / 1000) * rate] in double precision,
    against the same product of the token count and the decimal rate. *)
Lemma term_cost_close (n : Z) (R R0 : Q) :
  Sql.fits_integer n = true ->
  (Qabs R <= 1 # 1000)%Q ->
  (Qabs (R - R0) <= 1 # 1000000000000000000)%Q ->
  (Qabs (Double.round (Double.round (Double.round (inject_Z n) / 1000) * R)
         - inject_Z n / 1000 * R0) <= 2 # 100000000000)%Q
  /\ (Qabs (inject_Z n / 1000 * R0) <= 2148)%Q.
Proof.
  intros Hfit HR HR0.
  pose proof (fits_integer_abs n Hfit) as Hn.
  set (z := inject_Z n) in *.
  (* the count as a double *)
  pose proof (round_within z _ Hn) as H1.
  set (x1 := Double.round z) in *.
  pose proof (Qabs_near _ _ _ _ H1 Hn) as B1.
  (* divided by 1000 *)
  assert (Hd : x1 / 1000 == x1 * (1 # 1000)) by (field; lra).
  assert (Hz : z / 1000 == z * (1 # 1000)) by (field; lra).
  assert (B2 : (Qabs (x1 / 1000) <= 2147484 # 1)%Q).
  { rewrite Hd. apply Qabs_Qle_condition in B1. apply Qabs_Qle_condition.
    split; lra. }
  pose proof (round_within (x1 / 1000) _ B2) as H2.
  set (x2 := Double.round (x1 / 1000)) in *.
  assert (E2 : (Qabs (x2 - z / 1000) <= 5 # 1000000000)%Q).
  { apply Qabs_Qle_condition in H1. apply Qabs_Qle_condition in H2.
    apply Qabs_Qle_condition. rewrite Hd in H2. rewrite Hz. split; lra. }
  assert (A2 : (Qabs (z / 1000) <= 2147484 # 1)%Q).
  { rewrite Hz. apply Qabs_Qle_condition in Hn. apply Qabs_Qle_condition.
    split; lra. }
  (* times the rate *)
  pose proof (mul_error _ _ _ _ _ _ _ _ E2 HR0 A2 HR) as H3.
  assert (A3 : (Qabs (z / 1000 * R0) <= 2148)%Q).
  { rewrite Qabs_Qminus in HR0.
    pose proof (Qabs_near _ _ _ _ HR0 HR) as HR0'.
    pose proof (Qabs_mult_le _ _ _ _ A2 HR0') as H.
    eapply Qle_trans; [exact H|]. vm_compute. discriminate. }
  split; [|exact A3].
  pose proof (Qabs_near _ _ _ _ H3 A3) as B3.
  pose proof (round_within (x2 * R) _ B3) as H4.
  set (x3 := Double.round (x2 * R)) in *.
  set (t0 := (z / 1000 * R0)%Q) in *.
  set (y := (x2 * R)%Q) in *.
  apply Qabs_Qle_condition in H3. apply Qabs_Qle_condition in H4.
  apply Qabs_Qle_condition. split; lra.
Qed.

(** The cost [logApiUsage] computes and sends, against the formula on
    decimal rates. *)
Lemma sent_cost_close (p c : Z) (Rin Rin0 Rout Rout0 : Q) :
  Sql.fits_integer p = true -> Sql.fits_integer c = true ->
  (Qabs Rin <= 1 # 1000)%Q ->
  (Qabs (Rin - Rin0) <= 1 # 1000000000000000000)%Q ->
  (Qabs Rout <= 1 # 1000)%Q ->
  (Qabs (Rout - Rout0) <= 1 # 1000000000000000000)%Q ->
  let cost :=
    Double.round
      (Double.round (Double.round (Double.round (inject_Z p) / 1000) * Rin)
       + Double.round (Double.round (Double.round (inject_Z c) / 1000) * Rout)) in
  (Qabs (Double.shortest cost
         - (inject_Z p / 1000 * Rin0 + inject_Z c / 1000 * Rout0))
   <= 1 # 10000000000)%Q
  /\ (Qabs (Double.shortest cost) <= 4297)%Q.
Proof.
  intros Hp Hc Hin Hin0 Hout Hout0.
  destruct (term_cost_close p Rin Rin0 Hp Hin Hin0) as (Tp & Ap).
  destruct (term_cost_close c Rout Rout0 Hc Hout Hout0) as (Tc & Ac).
  set (a := Double.round (Double.round (Double.round (inject_Z p) / 1000) * Rin)) in *.
  set (b := Double.round (Double.round (Double.round (inject_Z c) / 1000) * Rout)) in *.
  set (a0 := (inject_Z p / 1000 * Rin0)%Q) in *.
  set (b0 := (inject_Z c / 1000 * Rout0)%Q) in *.
  assert (Bs : (Qabs (a + b) <= 4297 # 1)%Q).
  { apply Qabs_Qle_condition in Tp, Tc, Ap, Ac.
    apply Qabs_Qle_condition. split; lra. }
  pose proof (round_within (a + b) _ Bs) as Hs.
  cbv zeta.
  set (cost := Double.round (a + b)) in *.
  assert (Bc : (Qabs cost <= 42961 # 10)%Q).
  { apply Qabs_Qle_condition in Tp, Tc, Ap, Ac, Hs.
    apply Qabs_Qle_condition. split; lra. }
  pose proof (shortest_within cost _ Bc) as Hv.
  set (v := Double.shortest cost) in *.
  apply Qabs_Qle_condition in Tp, Tc, Ap, Ac, Hs, Hv.
  split; apply Qabs_Qle_condition; split; lra.
Qed.

Lemma to_numeric_10_6_fits (x : Q) :
  (Qabs x <= 4297)%Q -> exists n, Num.to_numeric_10_6 x = Some n.
Proof.
  intros Hx. unfold Num.to_numeric_10_6.
  pose proof (round_half_away_close (x * 1000000)) as Hclose.
  set (m := Num.round_half_away (x * 1000000)) in *.
  apply Qabs_Qle_condition in Hx, Hclose.
  assert (Hlo : (inject_Z (-4297000001) < inject_Z m)%Q)
    by (change (inject_Z (-4297000001)) with (Qopp 4297000001); lra).
  assert (Hhi : (inject_Z m < inject_Z 4297000001)%Q)
    by (change (inject_Z 4297000001) with 4297000001%Q; lra).
  rewrite <- Zlt_Qlt in Hlo, Hhi.
  assert (Hfit : (Z.abs m <? 10 ^ 10) = true) by (apply Z.ltb_lt; lia).
  rewrite Hfit. eexists; reflexivity.
Qed.

(** The rates of the table are the doubles next to the decimal rates. *)
Lemma pricing_cases (model : string) :
  (model = "text-embedding-ada-002"
   /\ pricing_of model
      = Some {| input := Some (Double.round (1 # 10000)); output := None |})
  \/ (model = "gpt-4o-mini"
      /\ pricing_of model
         = Some {| input := Some (Double.round (15 # 100000));
                   output := Some (Double.round (6 # 10000)) |})
  \/ (model <> "text-embedding-ada-002" /\ model <> "gpt-4o-mini"
      /\ pricing_of model = None).
Proof.
  unfold pricing_of, PRICING. cbn [find fst snd].
  destruct (String.eqb_spec EMBEDDING_MODEL model) as [H1|H1].
  - left. split; [now rewrite <- H1|reflexivity].
  - destruct (String.eqb_spec COMPLETION_MODEL model) as [H2|H2].
    + right. left. split; [now rewrite <- H2|reflexivity].
    + right. right. repeat split; try reflexivity; intros ->; auto.
Qed.

Lemma rate_bounds :
  (Qabs (Double.round (1 # 10000)) <= 1 # 1000)%Q
  /\ (Qabs (Double.round (1 # 10000) - (1 # 10000)) <= 1 # 1000000000000000000)%Q
  /\ (Qabs (Double.round (15 # 100000)) <= 1 # 1000)%Q
  /\ (Qabs (Double.round (15 # 100000) - (15 # 100000)) <= 1 # 1000000000000000000)%Q
  /\ (Qabs (Double.round (6 # 10000)) <= 1 # 1000)%Q
  /\ (Qabs (Double.round (6 # 10000) - (6 # 10000)) <= 1 # 1000000000000000000)%Q
  /\ (Qabs 0 <= 1 # 1000)%Q
  /\ (Qabs (0 - 0) <= 1 # 1000000000000000000)%Q.
Proof. repeat split; vm_compute; discriminate. Qed.

Lemma round_times_zero (x : Q) : Double.round (x * 0) = 0%Q.
Proof.
  unfold Double.round.
  assert (H : Qeq_bool (x * 0) 0 = true) by (apply Qeq_eq_bool; ring).
  now rewrite H.
Qed.

(** The cost the usage meter computes is the formula in doubles. *)
Lemma usage_cost_in_doubles (model : string) (p c : Z) :
  usage_cost model p c = Spec.cost_in_doubles model p c.
Proof.
  unfold usage_cost, Spec.cost_in_doubles, Spec.input_rate, Spec.output_rate.
  destruct (pricing_cases model) as [(-> & ->)|[(-> & ->)|(H1 & H2 & ->)]].
  - cbn [input output rate_or_zero String.eqb Ascii.eqb Bool.eqb].
    reflexivity.
  - cbn [input output rate_or_zero String.eqb Ascii.eqb Bool.eqb].
    reflexivity.
  - apply String.eqb_neq in H1, H2. rewrite H1, H2.
    change (Double.round 0) with 0%Q.
    now rewrite !round_times_zero.
Qed.

(** What the usage meter sends as the cost is within [10 ^ -10] of the
    formula, and fits the column. *)
Lemma usage_cost_close (model : string) (p c : Z) :
  Sql.fits_integer p = true -> Sql.fits_integer c = true ->
  (Qabs (Double.shortest (usage_cost model p c) - Spec.cost model p c)
   <= 1 # 10000000000)%Q
  /\ (Qabs (Double.shortest (usage_cost model p c)) <= 4297)%Q.
Proof.
  intros Hp Hc.
  destruct rate_bounds as (A1 & A2 & B1 & B2 & C1 & C2 & Z1 & Z2).
  unfold usage_cost, Spec.cost, Spec.input_rate, Spec.output_rate.
  destruct (pricing_cases model) as [(-> & ->)|[(-> & ->)|(H1 & H2 & ->)]].
  - cbn [input output rate_or_zero String.eqb Ascii.eqb Bool.eqb].
    apply (sent_cost_close p c _ _ _ _ Hp Hc A1 A2 Z1 Z2).
  - cbn [input output rate_or_zero String.eqb Ascii.eqb Bool.eqb].
    apply (sent_cost_close p c _ _ _ _ Hp Hc B1 B2 C1 C2).
  - apply String.eqb_neq in H1, H2. rewrite H1, H2.
    assert (Hs : Double.shortest 0 = 0%Q) by reflexivity.
    rewrite Hs. split.
    + assert (Hz : 0 - (inject_Z p / 1000 * 0 + inject_Z c / 1000 * 0) == 0)
        by (field; lra).
      rewrite Hz. vm_compute. discriminate.
    + vm_compute. discriminate.
Qed.

(** The ledger after a call of the usage meter. *)
Lemma logApiUsage_ledger (model : string) (usage : option Usage) (w : World) :
  let p := match usage with Some u => tokens_or_zero (prompt_tokens u) | None => 0 end in
  let c := match usage with Some u => tokens_or_zero (completion_tokens u) | None => 0 end in
  let t := match usage with Some u => tokens_or_zero (total_tokens u) | None => 0 end in
  api_usage_logs (db (snd (logApiUsage model usage w)))
  = (api_usage_logs (db w)
       ++ match usage_log_row model p c t (usage_cost model p c) (clock (db w)) with
          | Some row => [row]
          | None => []
          end)%list.
Proof.
  cbv zeta. unfold logApiUsage. run.
  destruct (usage_log_row _ _ _ _ _ _); simpl;
    [reflexivity|now rewrite app_nil_r].
Qed.

(** The row of a metered call: recorded when the three counts fit
    their columns, with a cost within [5.001 * 10 ^ -7] of the formula. *)
Lemma usage_log_row_cases (model : string) (p c t now : Z) :
  ((String.length model <= 255)%nat
   /\ -2147483648 <= p <= 2147483647 /\ -2147483648 <= c <= 2147483647
   /\ -2147483648 <= t <= 2147483647 ->
   exists stored,
     usage_log_row model p c t (usage_cost model p c) now
     = Some {| log_model := model; log_prompt_tokens := p;
               log_completion_tokens := c; log_total_tokens := t;
               log_cost := stored; log_created_at := now |}
     /\ Num.micros stored
        = Num.round_half_away
            (Double.shortest (Spec.cost_in_doubles model p c) * 1000000)
     /\ (Qabs (Num.numeric6_value stored - Spec.cost model p c)
         <= 5001 # 10000000000)%Q
     /\ (model <> "text-embedding-ada-002" -> model <> "gpt-4o-mini" ->
         stored = {| Num.micros := 0 |}))
  /\ (~ ((String.length model <= 255)%nat
         /\ -2147483648 <= p <= 2147483647 /\ -2147483648 <= c <= 2147483647
         /\ -2147483648 <= t <= 2147483647) ->
      usage_log_row model p c t (usage_cost model p c) now = None).
Proof.
  assert (Hrange : forall n, Sql.fits_integer n = true
                             <-> -2147483648 <= n <= 2147483647).
  { intros n. unfold Sql.fits_integer.
    rewrite andb_true_iff, !Z.leb_le. tauto. }
  unfold usage_log_row, Sql.fits_varchar. split.
  - intros (Hm & Hp & Hc & Ht). apply Hrange in Hp, Hc, Ht.
    apply Nat.leb_le in Hm.
    rewrite Hm, Hp, Hc, Ht. cbn [andb].
    destruct (usage_cost_close model p c Hp Hc) as (Hclose & Hbound).
    destruct (to_numeric_10_6_fits _ Hbound) as (stored & Hstored).
    rewrite Hstored. exists stored. split; [reflexivity|]. split; [|split].
    + rewrite <- usage_cost_in_doubles.
      now destruct (to_numeric_10_6_close _ _ Hstored) as (Hmicros & _).
    + destruct (to_numeric_10_6_close _ _ Hstored) as (_ & Hsix).
      set (v := Double.shortest (usage_cost model p c)) in *.
      set (f := Spec.cost model p c) in *.
      set (s := Num.numeric6_value stored) in *.
      apply Qabs_Qle_condition in Hclose, Hsix.
      apply (proj2 (Qabs_Qle_condition _ _)). split; lra.
    + intros H1 H2.
      destruct (pricing_cases model) as [(E & _)|[(E & _)|(_ & _ & E)]];
        try contradiction.
      unfold usage_cost in Hstored. rewrite E in Hstored.
      vm_compute in Hstored. now inversion Hstored.
  - intros Hno.
    destruct (Nat.leb (String.length model) 255) eqn:Hm; [|reflexivity].
    destruct (Sql.fits_integer p) eqn:Hp; [|reflexivity].
    destruct (Sql.fits_integer c) eqn:Hc; [|reflexivity].
    destruct (Sql.fits_integer t) eqn:Ht; [|reflexivity].
    exfalso. apply Hno. apply Nat.leb_le in Hm. rewrite <- !Hrange. auto.
Qed.

(** C8, as the code has it.  A call of the usage meter records one row
    when the model name fits its [VARCHAR(255)] column and the three
    token counts fit their [INTEGER] columns, and none otherwise (the
    error of the insert is swallowed).  The row holds the
    model and the counts.  Its cost is the formula, [p/1000] times the
    model's input rate plus [c/1000] times its output rate with the rates
    of the price table (0 for a rate or a model the table does not list),
    evaluated in double precision ([Spec.cost_in_doubles]), written as a
    decimal and rounded to the six decimals of the [NUMERIC(10, 6)]
    column: it differs from the formula by less than 0.0000005001, and it
    is exactly 0 for a model absent from the table. *)
Theorem recorded_cost_is_the_rounded_formula
    (model : string) (usage : option Usage) (w : World) :
  let p := match usage with Some u => tokens_or_zero (prompt_tokens u) | None => 0 end in
  let c := match usage with Some u => tokens_or_zero (completion_tokens u) | None => 0 end in
  let t := match usage with Some u => tokens_or_zero (total_tokens u) | None => 0 end in
  let integer := fun n => -2147483648 <= n <= 2147483647 in
  let w' := snd (logApiUsage model usage w) in
  exists rows,
    api_usage_logs (db w') = (api_usage_logs (db w) ++ rows)%list
    /\ (rows = []
        <-> ~ ((String.length model <= 255)%nat
               /\ integer p /\ integer c /\ integer t))
    /\ (rows <> [] -> exists row, rows = [row])
    /\ Forall (fun row =>
                 log_model row = model
                 /\ log_prompt_tokens row = p
                 /\ log_completion_tokens row = c
                 /\ log_total_tokens row = t
                 /\ Num.micros (log_cost row)
                    = Num.round_half_away
                        (Double.shortest (Spec.cost_in_doubles model p c)
                         * 1000000)
                 /\ (Qabs (Num.numeric6_value (log_cost row) - Spec.cost model p c)
                     <= 5001 # 10000000000)%Q
                 /\ (model <> "text-embedding-ada-002" ->
                     model <> "gpt-4o-mini" ->
                     log_cost row = {| Num.micros := 0 |}))
              rows.
Proof.
  cbv zeta. rewrite logApiUsage_ledger. cbv zeta.
  set (p := match usage with
            | Some u => tokens_or_zero (prompt_tokens u) | None => 0 end).
  set (c := match usage with
            | Some u => tokens_or_zero (completion_tokens u) | None => 0 end).
  set (t := match usage with
            | Some u => tokens_or_zero (total_tokens u) | None => 0 end).
  destruct (usage_log_row_cases model p c t (clock (db w))) as (Hin & Hout).
  set (fit := (String.length model <= 255)%nat
              /\ -2147483648 <= p <= 2147483647 /\ -2147483648 <= c <= 2147483647
              /\ -2147483648 <= t <= 2147483647) in *.
  assert (Hdec : fit \/ ~ fit) by (unfold fit; lia).
  destruct Hdec as [Hfit|Hfit].
  - destruct (Hin Hfit) as (stored & Hrow & Hmicros & Hclose & Hzero).
    rewrite Hrow. eexists [_]. split; [reflexivity|].
    split; [split; [discriminate|intros Hno; now contradiction Hno]|].
    split; [intros _; eexists; reflexivity|].
    constructor; [|constructor].
    cbn [log_model log_prompt_tokens log_completion_tokens log_total_tokens
         log_cost].
    do 4 (split; [reflexivity|]).
    split; [exact Hmicros|]. split; [exact Hclose|exact Hzero].
  - rewrite (Hout Hfit). exists []. split; [reflexivity|].
    split; [split; [intros _; exact Hfit|reflexivity]|].
    split; [intros H; now contradiction H|constructor].
Qed.

(** C8 as stated fails on the stored value.  One prompt token of the
    embedding model costs [1/1000 * 0.0001], a ten-millionth; the ledger
    row holds 0.000000.  And 285 prompt tokens cost 0.0000285 by the
    formula; the double product is written 0.000028499999999999998, and
    the row holds 0.000028, not even the formula rounded to six decimals,
    0.000029. *)
Lemma stored_cost_differs_from_the_formula :
  (let w' := snd (logApiUsage "text-embedding-ada-002"
                    (Some {| prompt_tokens := Some 1;
                             completion_tokens := Some 0;
                             total_tokens := Some 1 |})
                    (Fixture.world_of Fixture.empty_db)) in
   map (fun row => Num.micros (log_cost row)) (api_usage_logs (db w')) = [0]
   /\ (Spec.cost "text-embedding-ada-002" 1 0 == 1 # 10000000)%Q
   /\ (Num.numeric6_value {| Num.micros := 0 |}
       < Spec.cost "text-embedding-ada-002" 1 0)%Q)
  /\ (let w' := snd (logApiUsage "text-embedding-ada-002"
                       (Some {| prompt_tokens := Some 285;
                                completion_tokens := Some 0;
                                total_tokens := Some 285 |})
                       (Fixture.world_of Fixture.empty_db)) in
      map (fun row => Num.micros (log_cost row)) (api_usage_logs (db w')) = [28]
      /\ (Double.shortest (Spec.cost_in_doubles "text-embedding-ada-002" 285 0)
          == 28499999999999998 # 1000000000000000000000)%Q
      /\ (Spec.cost "text-embedding-ada-002" 285 0 == 285 # 10000000)%Q
      /\ Num.round_half_away (Spec.cost "text-embedding-ada-002" 285 0 * 1000000)
         = 29
      /\ (Num.numeric6_value {| Num.micros := 28 |}
          < Spec.cost "text-embedding-ada-002" 285 0)%Q).
Proof.
  split; cbv zeta; repeat split; vm_compute; reflexivity.
Qed.

(** A model the table does not list is recorded at cost 0. *)
Example unknown_model_costs_nothing :
  map (fun row => (log_model row, log_cost row))
      (api_usage_logs
         (db (snd (logApiUsage "gpt-4" (Some (Fixture.usage_of 1000 1000))
                     (Fixture.world_of Fixture.empty_db)))))
  = [("gpt-4", {| Num.micros := 0 |})].
Proof. reflexivity. Qed.

(** A token count past the range of [INTEGER] records nothing. *)
Example oversized_count_is_not_recorded :
  api_usage_logs
    (db (snd (logApiUsage "gpt-4o-mini"
                (Some {| prompt_tokens := Some 2147483648;
                         completion_tokens := Some 0;
                         total_tokens := Some 2147483648 |})
                (Fixture.world_of Fixture.empty_db))))
  = [].
Proof. reflexivity. Qed.

(* ------------------------------------------------------------------ *)
(** ** Search *)

Arguments select_nearest : simpl never.

(** The search route reads [query] only: the reply does not depend on
    the limit of the request, and it never holds more than five rows. *)
Lemma post_documents_search_ignores_limit (env : Services)
      (query : option string) (limit limit' : option Z) (w : World) :
  post_documents_search env {| search_query := query; search_limit := limit |} w
  = post_documents_search env {| search_query := query; search_limit := limit' |} w.
Proof. reflexivity. Qed.

Lemma post_documents_search_at_most_five (env : Services) (req : SearchRequest)
      (w : World) :
  match body (fst (post_documents_search env req w)) with
  | SearchBody rows => (List.length rows <= 5)%nat
  | _ => True
  end.
Proof.
  unfold post_documents_search.
  destruct (search_query req) as [query|]; simpl; [|exact I].
  destruct (Js.falsy query); simpl; [exact I|]. run.
  destruct (getEmbedding env query w) as [[e|] w1]; simpl; [|exact I].
  unfold select_nearest, Sql.limit. apply firstn_le_length.
Qed.

Lemma fused_results_length (vec lex : list Z) (limit : nat) :
  (List.length vec <= 50)%nat ->
  List.length (Spec.fused_results vec lex limit)
  = Nat.min limit
      (List.length vec
       + List.length (filter (fun id => negb (existsb (Z.eqb id) vec))
                             (firstn 50 lex)))%nat.
Proof.
  intros Hvec. unfold Spec.fused_results, Sql.limit, Spec.union_ids.
  rewrite length_firstn, order_by_length, length_map, length_app.
  now rewrite (firstn_all2 vec Hvec).
Qed.

(** C1 at a failing input.  The store holds seven documents, six of
    them with embeddings at distances 0.1 to 0.6 of the query vector.  A
    search request with a query and the limit 10 is answered with the five
    nearest rows only, each carrying [id, title, created_at, distance] and
    no fused score, whereas the fusion of the specification returns at
    least the six documents of the vector list, whatever the lexical list
    is. *)
Theorem search_request_gets_five_nearest_by_distance :
  fst (post_documents_search Fixture.online
         {| search_query := Some "capital"; search_limit := Some 10 |}
         (Fixture.world_of Fixture.library))
  = {| status := 200;
       body :=
         SearchBody
           [ {| sr_id := 1; sr_title := "One"; sr_created_at := 101;
                sr_distance := Some (1 # 10) |};
             {| sr_id := 2; sr_title := "Two"; sr_created_at := 102;
                sr_distance := Some (2 # 10) |};
             {| sr_id := 3; sr_title := "Three"; sr_created_at := 103;
                sr_distance := Some (3 # 10) |};
             {| sr_id := 4; sr_title := "Four"; sr_created_at := 104;
                sr_distance := Some (4 # 10) |};
             {| sr_id := 5; sr_title := "Five"; sr_created_at := 105;
                sr_distance := Some (5 # 10) |} ] |}
  /\ forall lex,
       (6 <= List.length (Spec.fused_results [1; 2; 3; 4; 5; 6]%Z lex 10))%nat.
Proof.
  split; [vm_compute; reflexivity|].
  intros lex. rewrite fused_results_length by (simpl; lia).
  simpl List.length. lia.
Qed.

(* ------------------------------------------------------------------ *)
(** ** Further properties of the routes *)

(** The content an upload stores is the text of all its pages (or of
    the file) cut at [MAX_DB_STORAGE_LENGTH]: leaving the page loop as
    soon as the text is longer than the limit loses nothing of it. *)
Theorem early_exit_of_page_loop_keeps_stored_prefix (f : FileData) :
  extract_full_content f
  = option_map (Js.substring0 MAX_DB_STORAGE_LENGTH) (extracted_text f).
Proof. exact (extract_full_content_spec f). Qed.

(** The retrieval of the Q&A route returns the five nearest members of
    the notebook that have an embedding (all of them when there are fewer),
    nearest first: every row retrieved is a document of the store that
    is a member of the notebook and has an embedding, at its distance to
    the question embedding; and every such document is retrieved unless
    five rows at least as near are. *)
Theorem retrieval_returns_the_nearest_members
    (env : Services) (d : Db) (q : vector) (id : Z) :
  exists rest,
    (List.length (ranked_members env d q id) <= 5)%nat
    /\ StronglySorted (fun a b => (fst a <= fst b)%Q) (ranked_members env d q id)
    /\ Permutation (ranked_members env d q id ++ rest)
                   (with_distance env q (notebook_members d id))
    /\ (forall a b, In a (ranked_members env d q id) -> In b rest ->
                    (fst a <= fst b)%Q)
    /\ (rest <> [] -> List.length (ranked_members env d q id) = 5%nat)
    /\ (forall dist doc,
          In (dist, doc) (ranked_members env d q id) ->
          In doc (documents d) /\ In (id, doc_id doc) (notebook_documents d)
          /\ exists emb, doc_embedding doc = Some emb
                         /\ dist = cosine_distance env emb q)
    /\ (forall doc emb,
          In doc (documents d) ->
          In (id, doc_id doc) (notebook_documents d) ->
          doc_embedding doc = Some emb ->
          In (cosine_distance env emb q, doc) (ranked_members env d q id)
          \/ (List.length (ranked_members env d q id) = 5%nat
              /\ forall a, In a (ranked_members env d q id) ->
                           (fst a <= cosine_distance env emb q)%Q)).
Proof.
  destruct (ranked_members_spec env d q id) as (H1 & H2 & H3 & H4 & H5 & H6).
  eexists.
  split; [exact H1|]. split; [exact H3|]. split; [exact H4|].
  split; [exact H5|]. split; [exact H6|]. split; [exact H2|].
  intros doc emb. apply ranked_members_complete.
Qed.

(** The retrieval on the shelf: the members 3, 1 and 4 of notebook 1,
    at the distances 1/4, 1/2 and 3/4; not document 2, which is nearer
    but no member, nor the member 7, which has no embedding. *)
Example retrieval_on_the_shelf :
  map (fun r => (fst r, doc_id (snd r)))
      (ranked_members Fixture.online Fixture.shelf [0%Q] 1)
  = [ (1 # 4, 3); (1 # 2, 1); (3 # 4, 4) ].
Proof. vm_compute. reflexivity. Qed.

(** A row written by an ingestion route always carries a non-empty
    content together with the embedding the client returned for it: no
    item is persisted with content and without embedding. *)
Theorem ingested_rows_have_content_and_embedding
    (env : Services) (req : Ingestion) (w : World) :
  let (r, w') := ingest env req w in
  exists rows,
    added_documents w w' rows
    /\ (rows = [] \/ exists row, rows = [row] /\ status r = 201)
    /\ Forall (fun row =>
                 (exists content,
                     doc_content row = Some content
                     /\ Js.falsy content = false)
                 /\ (exists text,
                        embedding_text env req = Some text
                        /\ doc_embedding row <> None
                        /\ doc_embedding row = fst (getEmbedding env text w)))
              rows.
Proof.
  destruct (ingest_cases env req w)
    as [(_ & code & message & _ & Hrej)
       |(text & content & Htext & Hcontent & Hout)].
  - destruct Hrej as (_ & Hdb & _).
    destruct (ingest env req w) as [r w']; simpl in *.
    exists []. unfold added_documents. rewrite Hdb, app_nil_r.
    repeat split; auto.
  - unfold ingestion_outcome in Hout.
    destruct (ingest env req w) as [r w'].
    destruct Hout as (_ & Hout).
    destruct (fst (getEmbedding env text w)) as [e|] eqn:He.
    + destruct Hout as [(_ & Hsame)|(H201 & row & Hdocs & Hrow & Hemb)].
      * exists []. unfold added_documents.
        destruct Hsame as (Hd & _). rewrite Hd, app_nil_r.
        repeat split; auto.
      * exists [row]. unfold added_documents.
        split; [exact Hdocs|].
        split; [right; now exists row|].
        constructor; [|constructor]. split.
        -- exists content. split; [exact Hrow|].
           destruct req as [[f|]|[url|]|[title|] [content0|]];
             simpl in Hcontent; try discriminate.
           ++ destruct (extract_full_content f) as [full|]; [|discriminate].
              destruct (Js.falsy full) eqn:Hf; [discriminate|].
              now inversion Hcontent; subst.
           ++ unfold embedding_text in Htext. simpl in Htext.
              rewrite Hcontent in Htext. inversion Htext; subst text.
              destruct (Js.falsy content) eqn:Hf; [|reflexivity].
              destruct (getEmbedding_no_response env content w (or_introl Hf))
                as (Hnone & _).
              congruence.
           ++ destruct (Js.falsy title || Js.falsy content0) eqn:Hf;
                [discriminate|].
              apply orb_false_iff in Hf. destruct Hf as (_ & Hf).
              now inversion Hcontent; subst.
        -- exists text. rewrite Hemb. split; [exact Htext|].
           split; [discriminate|now rewrite He].
    + destruct Hout as (_ & Hsame & _).
      exists []. unfold added_documents.
      destruct Hsame as (Hd & _). rewrite Hd, app_nil_r.
      repeat split; auto.
Qed.

Lemma select_notebook_exists (d : Db) (id : Z) (nb : Notebook) :
  select_notebook d id = Some nb ->
  existsb (fun n => nb_id n =? id) (notebooks d) = true.
Proof.
  unfold select_notebook. intros H. apply find_some in H.
  apply existsb_exists. now exists nb.
Qed.

(** Adding to an existing notebook an existing document it does not
    hold yet answers 201, appends the pair to the membership table and
    sets the notebook's [updated_at] to the clock reading. *)
Theorem new_membership_touches_the_notebook
    (w : World) (notebookId documentId : Z) (nb : Notebook) (doc : Document) :
  select_notebook (db w) notebookId = Some nb ->
  In doc (documents (db w)) ->
  doc_id doc = documentId ->
  documentId <> 0 ->
  ~ In (notebookId, documentId) (notebook_documents (db w)) ->
  let (r, w') := post_notebook_documents notebookId (Some documentId) w in
  r = {| status := 201;
         body := MessageBody "Document added to notebook successfully" |}
  /\ notebook_documents (db w')
     = (notebook_documents (db w) ++ [(notebookId, documentId)])%list
  /\ documents (db w') = documents (db w)
  /\ exists nb',
       select_notebook (db w') notebookId = Some nb'
       /\ nb_id nb' = nb_id nb
       /\ nb_updated_at nb' = clock (db w).
Proof.
  intros Hnb Hdoc Hid Hnz Hnew.
  unfold post_notebook_documents. simpl.
  destruct (documentId =? 0) eqn:E; [apply Z.eqb_eq in E; contradiction|].
  run. unfold insert_membership.
  destruct (existsb (same_pair notebookId documentId)
                    (notebook_documents (db w))) eqn:Hdup.
  { apply existsb_same_pair in Hdup. contradiction. }
  rewrite (select_notebook_exists _ _ _ Hnb).
  assert (Hex : existsb (fun x => doc_id x =? documentId) (documents (db w))
                = true).
  { apply existsb_exists. exists doc. split; [exact Hdoc|].
    now apply Z.eqb_eq. }
  rewrite Hex. simpl.
  match goal with
  | |- context [touch_notebook ?d0 notebookId] => set (d' := d0)
  end.
  assert (Hnb' : select_notebook d' notebookId = Some nb) by exact Hnb.
  destruct (select_notebook_touch d' notebookId nb Hnb')
    as (nb' & Hsel & Hnbid & _ & _ & Hupd).
  repeat split.
  exists nb'. repeat split; assumption.
Qed.

Lemma new_membership_witness :
  let (r, w') :=
    post_notebook_documents 1 (Some 2) (Fixture.world_of Fixture.library) in
  r = {| status := 201;
         body := MessageBody "Document added to notebook successfully" |}
  /\ notebook_documents (db w') = [(1, 1); (1, 3); (1, 7); (1, 2)]
  /\ documents (db w') = documents Fixture.library
  /\ exists nb',
       select_notebook (db w') 1 = Some nb'
       /\ nb_id nb' = 1
       /\ nb_updated_at nb' = 1000.
Proof.
  apply (new_membership_touches_the_notebook
           (Fixture.world_of Fixture.library) 1 2
           {| nb_id := 1; nb_title := "Capitals"; nb_content := Some "My notes";
              nb_created_at := 200; nb_updated_at := 300 |}
           (Fixture.doc 2 "Two" "Berlin" (Some [2 # 10]))).
  - reflexivity.
  - simpl. right. left. reflexivity.
  - reflexivity.
  - discriminate.
  - simpl. intros [H|[H|[H|[]]]]; discriminate.
Defined.

(* ================================================================== *)
(** * Properties of the other routes *)

(* ------------------------------------------------------------------ *)
(** ** Documents: deletion, detail and listing *)

Arguments delete_document : simpl never.
Arguments get_document : simpl never.
Arguments get_documents : simpl never.
Arguments upload_path : simpl never.

Ltac run2 :=
  unfold respond, unlink in *; run.

Lemma filter_none {A} (f : A -> bool) (l : list A) :
  (forall x, In x l -> f x = true) -> filter f l = l.
Proof.
  induction l as [|x l IH]; simpl; intros H; [reflexivity|].
  rewrite (H x (or_introl eq_refl)). f_equal. apply IH.
  intros y Hy. apply H. now right.
Qed.

Lemma filter_nil {A} (f : A -> bool) (l : list A) :
  (forall x, In x l -> f x = false) -> filter f l = [].
Proof.
  induction l as [|x l IH]; simpl; intros H; [reflexivity|].
  rewrite (H x (or_introl eq_refl)). apply IH.
  intros y Hy. apply H. now right.
Qed.

Lemma db_eta (d : Db) :
  {| documents := documents d; notebooks := notebooks d;
     notebook_documents := notebook_documents d;
     api_usage_logs := api_usage_logs d;
     next_document_id := next_document_id d; clock := clock d |} = d.
Proof. now destruct d. Qed.

Lemma world_eta (w : World) :
  {| db := db w; uploads := uploads w; api_calls := api_calls w |} = w.
Proof. now destruct w. Qed.

(** The handler of [DELETE /documents/:id] in one step. *)
Lemma delete_document_run (id : Z) (w : World) :
  delete_document id w =
  ({| code := if Nat.eqb (List.length (documents_by_id (db w) id)) 0
              then 404 else 204;
      payload := if Nat.eqb (List.length (documents_by_id (db w) id)) 0
                 then PError "Document not found" else PEmpty |},
   {| db := snd (delete_document_rows (db w) id);
      uploads := match file_to_unlink (db w) id with
                 | Some p => filter (fun q => negb (String.eqb p q)) (uploads w)
                 | None => uploads w
                 end;
      api_calls := api_calls w |}).
Proof.
  unfold delete_document, file_to_unlink. run2.
  destruct (documents_by_id (db w) id) as [|doc rest] eqn:Hrows; simpl.
  - rewrite Hrows. reflexivity.
  - destruct (doc_file_path doc) as [p|]; simpl.
    + destruct (Js.falsy p); simpl; [rewrite Hrows; reflexivity|].
      destruct (JsExtra.startsWith "http" p); simpl;
        [rewrite Hrows; reflexivity|].
      destruct (existsb (String.eqb p) (uploads w)) eqn:Hex; simpl;
        rewrite Hrows; simpl; [reflexivity|].
      f_equal. f_equal. symmetry. apply filter_none.
      intros q Hq. apply negb_true_iff.
      destruct (String.eqb p q) eqn:E; [|reflexivity].
      assert (existsb (String.eqb p) (uploads w) = true)
        by (apply existsb_exists; now exists q).
      congruence.
    + rewrite Hrows. reflexivity.
Qed.

Lemma documents_by_id_In (d : Db) (id : Z) (doc : Document) :
  In doc (documents_by_id d id) <-> In doc (documents d) /\ doc_id doc = id.
Proof.
  unfold documents_by_id. rewrite filter_In, Z.eqb_eq. reflexivity.
Qed.




(** Deleting an id no document has, in a store whose membership
    rows all point to stored documents, answers 404 and changes nothing:
    no row, no file, no request to the API. *)
Theorem delete_of_a_missing_document_changes_nothing (id : Z) (w : World) :
  members_exist (db w) = true ->
  documents_by_id (db w) id = [] ->
  delete_document id w
  = ({| code := 404; payload := PError "Document not found" |}, w).
Proof.
  intros Hfk Hrows. rewrite delete_document_run.
  assert (Hnone : forall doc, In doc (documents (db w)) -> doc_id doc <> id).
  { intros doc Hin Hid.
    assert (H : In doc (documents_by_id (db w) id))
      by (apply documents_by_id_In; now split).
    rewrite Hrows in H. destruct H. }
  unfold file_to_unlink. rewrite Hrows. simpl. f_equal.
  rewrite !filter_none.
  - rewrite db_eta. apply world_eta.
  - intros nd Hnd. apply negb_true_iff, Z.eqb_neq. intros Heq.
    unfold members_exist in Hfk. rewrite forallb_forall in Hfk.
    specialize (Hfk nd Hnd). apply andb_true_iff in Hfk.
    destruct Hfk as (_ & Hdoc). apply existsb_exists in Hdoc.
    destruct Hdoc as (doc & Hin & Hid). apply Z.eqb_eq in Hid.
    apply (Hnone doc Hin). congruence.
  - intros doc Hin. apply negb_true_iff, Z.eqb_neq. now apply Hnone.
Qed.

Lemma delete_of_a_missing_document_witness :
  members_exist Fixture.library = true
  /\ documents_by_id Fixture.library 99 = []
  /\ delete_document 99 (Fixture.world_of Fixture.library)
     = ({| code := 404; payload := PError "Document not found" |},
        Fixture.world_of Fixture.library).
Proof.
  split; [reflexivity|]. split; [reflexivity|].
  apply (delete_of_a_missing_document_changes_nothing
           99 (Fixture.world_of Fixture.library)); reflexivity.
Defined.

(** The row and the store an insert into [documents] produces. *)
Lemma insert_document_row (d : Db) title content e fp su mt row d' :
  insert_document d title content e fp su mt = inr (row, d') ->
  row = {| doc_id := next_document_id d; doc_title := title;
           doc_content := Some content; doc_embedding := Some e;
           doc_created_at := clock d; doc_file_path := fp |}
  /\ d' = {| documents := (documents d ++ [row])%list;
             notebooks := notebooks d;
             notebook_documents := notebook_documents d;
             api_usage_logs := api_usage_logs d;
             next_document_id := next_document_id d + 1;
             clock := clock d |}.
Proof.
  unfold insert_document.
  destruct su; [discriminate|]. destruct mt; [discriminate|].
  destruct (negb (Sql.fits_varchar 255 title)); [discriminate|].
  destruct (negb _); [discriminate|].
  intros H; inversion H; subst. split; reflexivity.
Qed.

(** The upload route: the file is saved first; then either one row is
    stored, pointing to the file, or the tables other than the ledger
    stay as they are. *)
Lemma post_documents_outcome (env : Services) (f : FileData) (w : World) :
  let (r, w') := post_documents env (Some f) w in
  uploads w' = (uploads w ++ [upload_path f])%list
  /\ ((exists row,
          r = {| status := 201;
                 body := CreatedBody (doc_id row) (doc_title row)
                                     (doc_created_at row) |}
          /\ stores w w' row
          /\ doc_file_path row = Some (upload_path f)
          /\ doc_title row = filename f)
      \/ (status r <> 201 /\ same_content (db w) (db w'))).
Proof.
  unfold post_documents, upload_path. run.
  destruct (extract_full_content f) as [full|]; simpl;
    [|split; [reflexivity|right; split; [discriminate|repeat split]]].
  destruct (Js.falsy full); simpl;
    [split; [reflexivity|right; split; [discriminate|repeat split]]|].
  match goal with
  | |- context [getEmbedding env ?t {| db := ?a; uploads := ?b; api_calls := ?c |}] =>
      set (w1 := {| db := a; uploads := b; api_calls := c |});
      pose proof (getEmbedding_frame env t w1) as Hframe;
      destruct (getEmbedding env t w1) as [v w2]
  end.
  simpl in Hframe. destruct Hframe as (Hup & _ & Hsame).
  assert (Hsame' : same_content (db w) (db w2)) by exact Hsame.
  destruct v as [e|]; simpl;
    [|split; [exact Hup|right; split; [discriminate|exact Hsame']]].
  match goal with
  | |- context [insert_document ?d ?t ?c ?e ?a ?b ?m] =>
      destruct (insert_document d t c e a b m) as [?|[row d']] eqn:Hins
  end; simpl.
  - split; [exact Hup|right; split; [discriminate|exact Hsame']].
  - split; [exact Hup|left].
    apply insert_document_row in Hins. destruct Hins as (Hrow & Hd').
    exists row. split; [reflexivity|].
    destruct Hsame' as (H1 & H2 & H3 & H4 & H5).
    unfold stores. simpl. rewrite Hd'. simpl.
    rewrite H1, H2, H3, H4, H5, Hrow. simpl.
    rewrite ?H4, ?H5. repeat split.
Qed.

(** A failed upload leaves its file behind: the route saves the
    part under [./uploads] before anything else, and on every reply
    other than 201 no row of [documents] is written, so nothing points
    to the saved file; on 201 the one new row records its path. *)
Theorem upload_file_is_saved_whatever_the_reply
        (env : Services) (f : FileData) (w : World) :
  let (r, w') := post_documents env (Some f) w in
  uploads w' = (uploads w ++ [upload_path f])%list
  /\ (status r = 201 \/ documents (db w') = documents (db w))
  /\ (status r = 201 ->
      exists row, documents (db w') = (documents (db w) ++ [row])%list
                  /\ doc_file_path row = Some (upload_path f)).
Proof.
  pose proof (post_documents_outcome env f w) as H.
  destruct (post_documents env (Some f) w) as [r w'].
  destruct H as (Hup & [(row & -> & Hst & Hfp & _)|(Hne & Hsame)]).
  - split; [exact Hup|]. split; [now left|]. intros _.
    exists row. split; [apply Hst|exact Hfp].
  - split; [exact Hup|]. split; [right; apply Hsame|].
    intros H. now destruct Hne.
Qed.

Lemma ids_below_sequence_spec (d : Db) (doc : Document) :
  ids_below_sequence d = true -> In doc (documents d) ->
  doc_id doc < next_document_id d.
Proof.
  unfold ids_below_sequence. rewrite forallb_forall.
  intros H Hin. apply Z.ltb_lt. now apply H.
Qed.

Lemma members_exist_spec (d : Db) (nd : Z * Z) :
  members_exist d = true -> In nd (notebook_documents d) ->
  (exists n, In n (notebooks d) /\ nb_id n = fst nd)
  /\ (exists doc, In doc (documents d) /\ doc_id doc = snd nd).
Proof.
  unfold members_exist. rewrite forallb_forall. intros H Hin.
  specialize (H nd Hin). apply andb_true_iff in H. destruct H as (Hn & Hd).
  apply existsb_exists in Hn, Hd.
  destruct Hn as (n & Hn & En). destruct Hd as (doc & Hd & Ed).
  apply Z.eqb_eq in En, Ed. split; [now exists n|now exists doc].
Qed.

(** Deleting the row a request has just stored gives back the tables
    the request found. *)
Lemma delete_stored_row (w w1 : World) (row : Document) :
  ids_below_sequence (db w) = true ->
  members_exist (db w) = true ->
  stores w w1 row ->
  let d2 := snd (delete_document_rows (db w1) (doc_id row)) in
  documents_by_id (db w1) (doc_id row) = [row]
  /\ documents d2 = documents (db w)
  /\ notebooks d2 = notebooks (db w)
  /\ notebook_documents d2 = notebook_documents (db w)
  /\ next_document_id d2 = next_document_id (db w) + 1.
Proof.
  intros Hids Hfk (Hdocs & Hnb & Hnd & Hnext & _ & Hid & _).
  assert (Hother : forall doc, In doc (documents (db w)) ->
                               (doc_id doc =? doc_id row) = false).
  { intros doc Hin. apply Z.eqb_neq.
    pose proof (ids_below_sequence_spec _ _ Hids Hin). lia. }
  simpl. unfold documents_by_id. rewrite Hdocs, Hnb, Hnd, Hnext, !filter_app.
  simpl. rewrite Z.eqb_refl. simpl.
  assert (Hnil : filter (fun doc => doc_id doc =? doc_id row)
                        (documents (db w)) = []).
  { apply filter_nil. exact Hother. }
  rewrite Hnil. simpl. rewrite app_nil_r.
  repeat split.
  - apply filter_none. intros doc Hin. now rewrite (Hother doc Hin).
  - apply filter_none. intros nd Hin.
    destruct (members_exist_spec _ _ Hfk Hin) as (_ & doc & Hdoc & Heq).
    rewrite <- Heq. now rewrite (Hother doc Hdoc).
Qed.

(** Upload, then delete: in a store whose ids were drawn from the
    sequence and whose membership rows point to stored documents, when
    an upload whose file name is not yet in [./uploads] is answered 201
    with the id [id], deleting [id] answers 204 and gives back the
    documents, notebooks, memberships and files the upload found; only
    the sequence has moved on. *)
Theorem upload_then_delete_restores_the_store
        (env : Services) (f : FileData) (w : World)
        (id : Z) (title : string) (created_at : Z) :
  ids_below_sequence (db w) = true ->
  members_exist (db w) = true ->
  existsb (String.eqb (upload_path f)) (uploads w) = false ->
  fst (post_documents env (Some f) w)
  = {| status := 201; body := CreatedBody id title created_at |} ->
  let w1 := snd (post_documents env (Some f) w) in
  let (r, w2) := delete_document id w1 in
  r = {| code := 204; payload := PEmpty |}
  /\ documents (db w2) = documents (db w)
  /\ notebooks (db w2) = notebooks (db w)
  /\ notebook_documents (db w2) = notebook_documents (db w)
  /\ uploads w2 = uploads w
  /\ next_document_id (db w2) = next_document_id (db w) + 1.
Proof.
  intros Hids Hfk Hnew Hreply.
  pose proof (post_documents_outcome env f w) as H.
  destruct (post_documents env (Some f) w) as [r1 w1']. cbn [fst snd] in *.
  destruct H as (Hup & [(row & Hr & Hst & Hfp & _)|(Hne & _)]);
    [|rewrite Hreply in Hne; now destruct Hne].
  rewrite Hr in Hreply. inversion Hreply; subst id title created_at.
  rewrite delete_document_run.
  destruct (delete_stored_row w w1' row Hids Hfk Hst)
    as (Hrows & Hd & Hn & Hm & Hs).
  unfold file_to_unlink. rewrite Hrows, Hfp.
  assert (Hpath : Js.falsy (upload_path f)
                  || JsExtra.startsWith "http" (upload_path f) = false)
    by reflexivity.
  rewrite Hpath.
  split; [reflexivity|].
  split; [exact Hd|]. split; [exact Hn|]. split; [exact Hm|].
  split; [|exact Hs].
  cbn [uploads]. rewrite Hup, filter_app. cbn [filter].
  rewrite String.eqb_refl. cbn [negb]. rewrite app_nil_r.
  apply filter_none. intros q Hq. apply negb_true_iff.
  destruct (String.eqb (upload_path f) q) eqn:E; [|reflexivity].
  assert (existsb (String.eqb (upload_path f)) (uploads w) = true)
    by (apply existsb_exists; now exists q).
  congruence.
Qed.

Lemma upload_then_delete_witness :
  let env := Fixture.online in
  let f := Fixture.text_file "hello" in
  let w := Fixture.world_of Fixture.library in
  ids_below_sequence (db w) = true
  /\ members_exist (db w) = true
  /\ existsb (String.eqb (upload_path f)) (uploads w) = false
  /\ fst (post_documents env (Some f) w)
     = {| status := 201; body := CreatedBody 8 "notes.txt" 1000 |}
  /\ let (r, w2) := delete_document 8 (snd (post_documents env (Some f) w)) in
     r = {| code := 204; payload := PEmpty |}
     /\ documents (db w2) = documents (db w)
     /\ notebooks (db w2) = notebooks (db w)
     /\ notebook_documents (db w2) = notebook_documents (db w)
     /\ uploads w2 = uploads w
     /\ next_document_id (db w2) = next_document_id (db w) + 1.
Proof.
  intros env f w.
  split; [reflexivity|]. split; [reflexivity|]. split; [reflexivity|].
  split; [reflexivity|].
  apply (upload_then_delete_restores_the_store env f w 8 "notes.txt" 1000);
    reflexivity.
Defined.



(** The shared tail of the text and URL routes. *)
Lemma embed_insert_outcome (env : Services) (text title content : string)
      (fp su mt : option string) (w : World) :
  let (r, w') :=
    (embedding <- getEmbedding env text ;;
     match embedding with
     | None => send 500 (ErrorBody "Failed to generate embedding")
     | Some e =>
         d <- get_db ;;
         match insert_document d title content e fp su mt with
         | inl _ => internal_server_error
         | inr (row, d') => put_db d' ;;; send 201 (DocumentBody row)
         end
     end) w in
  uploads w' = uploads w
  /\ ((exists row,
          r = {| status := 201; body := DocumentBody row |}
          /\ stores w w' row
          /\ doc_title row = title /\ doc_content row = Some content
          /\ doc_file_path row = fp)
      \/ (status r <> 201 /\ same_content (db w) (db w'))).
Proof.
  run.
  pose proof (getEmbedding_frame env text w) as Hframe.
  destruct (getEmbedding env text w) as [v w2].
  simpl in Hframe. destruct Hframe as (Hup & _ & Hsame).
  destruct v as [e|]; simpl;
    [|split; [exact Hup|right; split; [discriminate|exact Hsame]]].
  destruct (insert_document (db w2) title content e fp su mt)
    as [?|[row d']] eqn:Hins; simpl.
  - split; [exact Hup|right; split; [discriminate|exact Hsame]].
  - split; [exact Hup|left].
    apply insert_document_row in Hins. destruct Hins as (Hrow & Hd').
    exists row. split; [reflexivity|].
    destruct Hsame as (H1 & H2 & H3 & H4 & H5).
    unfold stores. simpl. rewrite Hd'. simpl.
    rewrite H1, H2, H3, H4, H5, Hrow. simpl.
    rewrite ?H4, ?H5. repeat split.
Qed.

Lemma post_texts_outcome (env : Services) (title content : option string)
      (w : World) :
  let (r, w') := post_texts env title content w in
  uploads w' = uploads w
  /\ ((exists row t c,
          r = {| status := 201; body := DocumentBody row |}
          /\ title = Some t /\ content = Some c
          /\ stores w w' row
          /\ doc_title row = t /\ doc_content row = Some c
          /\ doc_file_path row = None)
      \/ (status r <> 201 /\ same_content (db w) (db w'))).
Proof.
  unfold post_texts.
  destruct title as [t|]; [destruct content as [c|]|];
    try (run; split; [reflexivity|right; split; [discriminate|repeat split]]).
  destruct (Js.falsy t || Js.falsy c);
    [run; split; [reflexivity|right; split; [discriminate|repeat split]]|].
  pose proof (embed_insert_outcome env (Js.substring0 MAX_EMBEDDING_LENGTH c)
                t c None None (Some "text/plain") w) as H.
  match goal with
  | |- let (_, _) := ?m w in _ => destruct (m w) as [r w']
  end.
  destruct H as (Hup & [(row & Hr & Hst & Ht & Hc & Hfp)|H]).
  - split; [exact Hup|left]. exists row, t, c.
    exact (conj Hr (conj eq_refl (conj eq_refl
             (conj Hst (conj Ht (conj Hc Hfp)))))).
  - split; [exact Hup|right; exact H].
Qed.

Lemma post_urls_outcome (env : Services) (url : option string) (w : World) :
  let (r, w') := post_urls env url w in
  uploads w' = uploads w
  /\ ((exists row,
          r = {| status := 201; body := DocumentBody row |}
          /\ stores w w' row /\ doc_file_path row = None)
      \/ (status r <> 201 /\ same_content (db w) (db w'))).
Proof.
  unfold post_urls.
  destruct url as [u|];
    [|run; split; [reflexivity|right; split; [discriminate|repeat split]]].
  destruct (Js.falsy u);
    [run; split; [reflexivity|right; split; [discriminate|repeat split]]|].
  destruct (scrapeUrl env u) as [s|];
    [|run; split; [reflexivity|right; split; [discriminate|repeat split]]].
  pose proof (embed_insert_outcome env
                (Js.substring0 15000 (scraped_content s))
                (Js.or_else (Some (scraped_title s)) u)
                (Js.substring0 15000 (scraped_content s))
                None (Some u) (Some "text/html") w) as H.
  cbv zeta.
  match goal with
  | |- let (_, _) := ?m w in _ => destruct (m w) as [r w']
  end.
  destruct H as (Hup & [(row & Hr & Hst & _ & _ & Hfp)|H]).
  - split; [exact Hup|left]. exists row.
    exact (conj Hr (conj Hst Hfp)).
  - split; [exact Hup|right; exact H].
Qed.

(** The text route (the handler of [routes/texts.js]) and the URL
    route store nothing.  Their INSERT names the columns [mime_type] and [source_url], which the table
    [documents] of [init-db.js] does not have: whatever the request, the
    reply is an error, no file is written and every table but the usage
    ledger is as before; and when the request got as far as the INSERT
    (the embedding succeeded), the reply is [500 Internal Server
    Error]. *)
Theorem text_and_url_routes_store_nothing (env : Services) (w : World) :
  (forall title content,
     let (r, w') := post_texts env title content w in
     400 <= status r
     /\ (exists message, body r = ErrorBody message)
     /\ same_content (db w) (db w')
     /\ uploads w' = uploads w
     /\ (forall t c e,
           title = Some t -> content = Some c -> t <> "" -> c <> "" ->
           fst (getEmbedding env (Js.substring0 15000 c) w) = Some e ->
           r = {| status := 500; body := ErrorBody "Internal Server Error" |}))
  /\ (forall url,
        let (r, w') := post_urls env url w in
        400 <= status r
        /\ (exists message, body r = ErrorBody message)
        /\ same_content (db w) (db w')
        /\ uploads w' = uploads w
        /\ (forall u page e,
              url = Some u -> u <> "" -> scrapeUrl env u = Some page ->
              fst (getEmbedding env (Js.substring0 15000 (scraped_content page)) w)
              = Some e ->
              r = {| status := 500; body := ErrorBody "Internal Server Error" |})).
Proof.
  assert (Hfalsy : forall s, s <> "" -> Js.falsy s = false)
    by (intros [|a s] H; [contradiction|reflexivity]).
  split.
  - intros title content.
    pose proof (ingest_off_the_upload_route env (TextBlock title content) w eq_refl)
      as (Hcode & Hbody & Hsame & Hup).
    cbn [ingest] in Hcode, Hbody, Hsame, Hup.
    assert (Hins : forall t c e,
               title = Some t -> content = Some c -> t <> "" -> c <> "" ->
               fst (getEmbedding env (Js.substring0 15000 c) w) = Some e ->
               fst (post_texts env title content w)
               = {| status := 500; body := ErrorBody "Internal Server Error" |}).
    { intros t c e -> -> Ht Hc He.
      pose proof (post_texts_embeds env t c w (Hfalsy t Ht) (Hfalsy c Hc)) as Hout.
      unfold ingestion_outcome in Hout.
      destruct (post_texts env (Some t) (Some c) w) as [r w'].
      cbn [fst snd] in *. destruct Hout as (_ & Hout).
      change MAX_EMBEDDING_LENGTH with 15000 in Hout. rewrite He in Hout.
      destruct Hout as [(Hr & _)|(H201 & _)]; [exact Hr|lia]. }
    destruct (post_texts env title content w) as [r w']. cbn [fst snd] in *.
    exact (conj Hcode (conj Hbody (conj Hsame (conj Hup Hins)))).
  - intros url.
    pose proof (ingest_off_the_upload_route env (ScrapeUrl url) w eq_refl)
      as (Hcode & Hbody & Hsame & Hup).
    cbn [ingest] in Hcode, Hbody, Hsame, Hup.
    assert (Hins : forall u page e,
               url = Some u -> u <> "" -> scrapeUrl env u = Some page ->
               fst (getEmbedding env
                      (Js.substring0 15000 (scraped_content page)) w) = Some e ->
               fst (post_urls env url w)
               = {| status := 500; body := ErrorBody "Internal Server Error" |}).
    { intros u page e -> Hu Hpage He.
      pose proof (post_urls_embeds env u page w (Hfalsy u Hu) Hpage) as Hout.
      unfold ingestion_outcome in Hout.
      destruct (post_urls env (Some u) w) as [r w'].
      cbn [fst snd] in *. destruct Hout as (_ & Hout).
      rewrite He in Hout.
      destruct Hout as [(Hr & _)|(H201 & _)]; [exact Hr|lia]. }
    destruct (post_urls env url w) as [r w']. cbn [fst snd] in *.
    exact (conj Hcode (conj Hbody (conj Hsame (conj Hup Hins)))).
Qed.

(** A short text block and a scraped page with services that answer:
    one embedding request each, then the failed INSERT. *)
Example text_block_is_not_stored :
  post_texts Fixture.online (Some "Note") (Some "A short note.")
             (Fixture.world_of Fixture.empty_db)
  = ({| status := 500; body := ErrorBody "Internal Server Error" |},
     {| db := {| documents := []; notebooks := []; notebook_documents := [];
                 api_usage_logs :=
                   [ {| log_model := "text-embedding-ada-002";
                        log_prompt_tokens := 1; log_completion_tokens := 0;
                        log_total_tokens := 1;
                        log_cost := {| Num.micros := 0 |};
                        log_created_at := 1000 |} ];
                 next_document_id := 1; clock := 1000 |};
        uploads := [];
        api_calls := [EmbeddingsCreate "text-embedding-ada-002" "A short note."] |})
  /\ fst (post_urls Fixture.online (Some "https://example.org/fox")
                    (Fixture.world_of Fixture.empty_db))
     = {| status := 500; body := ErrorBody "Internal Server Error" |}.
Proof. split; vm_compute; reflexivity. Qed.

(* ------------------------------------------------------------------ *)
(** ** Listings *)

Lemma StronglySorted_map {A B} (f : A -> B) (R : B -> B -> Prop) (l : list A) :
  StronglySorted (fun a b => R (f a) (f b)) l -> StronglySorted R (map f l).
Proof.
  induction 1 as [|x l Hs IH Hall]; simpl; constructor; [exact IH|].
  rewrite Forall_forall in *. intros y Hy. apply in_map_iff in Hy.
  destruct Hy as (z & <- & Hz). now apply Hall.
Qed.

(** A stable sort leaves a sorted list as it is. *)
Lemma order_by_sorted_id {A} (le : A -> A -> bool) (l : list A) :
  StronglySorted (fun a b => le a b = true) l -> Sql.order_by le l = l.
Proof.
  induction 1 as [|x l Hs IH Hall]; simpl; [reflexivity|].
  rewrite IH. destruct l as [|y l']; simpl; [reflexivity|].
  rewrite Forall_forall in Hall. now rewrite (Hall y (or_introl eq_refl)).
Qed.

Lemma desc_total {A} (key : A -> Z) (a b : A) :
  (key b <=? key a) = true \/ (key a <=? key b) = true.
Proof. rewrite !Z.leb_le. lia. Qed.

Lemma desc_trans {A} (key : A -> Z) (a b c : A) :
  (key b <=? key a) = true -> (key c <=? key b) = true ->
  (key c <=? key a) = true.
Proof. rewrite !Z.leb_le. lia. Qed.

Lemma order_by_desc_sorted {A} (key : A -> Z) (l : list A) :
  StronglySorted (fun a b => key b <= key a)
                 (Sql.order_by (fun a b => key b <=? key a) l).
Proof.
  eapply StronglySorted_weaken;
    [|apply (order_by_sorted (fun a b => key b <=? key a)
               (desc_total key) (desc_trans key))].
  intros a b H. now apply Z.leb_le.
Qed.

(** The rows of [GET /documents]. *)
Lemma get_documents_rows (w : World) :
  exists rows,
    get_documents w = ({| code := 200; payload := PDocumentList rows |}, w)
    /\ map dl_id rows
       = map doc_id (Sql.order_by created_desc (documents (db w)))
    /\ StronglySorted (fun a b => dl_created_at b <= dl_created_at a) rows.
Proof.
  unfold get_documents. run2. eexists. split; [reflexivity|]. split.
  - rewrite map_map. reflexivity.
  - apply StronglySorted_map. simpl.
    apply (order_by_desc_sorted doc_created_at).
Qed.


(** The item list of the client sorts the reply of
    [GET /documents] again, by the time each [created_at] parses to;
    whenever parsing keeps the order of the timestamps, this second,
    stable sort leaves the rows in the order the server sent them. *)
Theorem client_sort_keeps_the_server_order (to_ms : Z -> Z) (w : World) :
  (forall a b, a <= b -> to_ms a <= to_ms b) ->
  match payload (fst (get_documents w)) with
  | PDocumentList rows => Client.sort_newest_first to_ms rows = rows
  | _ => False
  end.
Proof.
  intros Hmono.
  destruct (get_documents_rows w) as (rows & -> & _ & Hsorted).
  simpl. unfold Client.sort_newest_first. apply order_by_sorted_id.
  eapply StronglySorted_weaken; [|exact Hsorted].
  intros a b H. apply Z.leb_le. now apply Hmono.
Qed.

Lemma client_sort_witness :
  match payload (fst (get_documents (Fixture.world_of Fixture.library))) with
  | PDocumentList rows =>
      Client.sort_newest_first (fun t => t / 1000) rows = rows
  | _ => False
  end.
Proof.
  apply (client_sort_keeps_the_server_order
           (fun t => t / 1000) (Fixture.world_of Fixture.library)).
  intros a b H. apply Z.div_le_mono; lia.
Defined.

(* ------------------------------------------------------------------ *)
(** ** URLs: listing and search *)

Arguments get_urls : simpl never.
Arguments ingest : simpl never.

Lemma get_urls_same_documents (w w' : World) :
  documents (db w') = documents (db w) ->
  fst (get_urls w') = fst (get_urls w).
Proof. unfold get_urls. run2. now intros ->. Qed.

Lemma get_urls_skips (w w' : World) (row : Document) :
  documents (db w') = (documents (db w) ++ [row])%list ->
  like_http (doc_file_path row) = false ->
  fst (get_urls w') = fst (get_urls w).
Proof.
  unfold get_urls. run2. intros -> H.
  rewrite filter_app. simpl. rewrite H, app_nil_r. reflexivity.
Qed.

(** No ingestion reaches the URL list: whatever a file upload, a
    URL scrape or a text block stores, [GET /urls] answers afterwards
    what it answered before.  The list selects on [file_path], which the
    URL route leaves null and the upload route sets to a path under
    [uploads]. *)
Theorem ingested_items_never_reach_the_url_list
        (env : Services) (req : Ingestion) (w : World) :
  fst (get_urls (snd (ingest env req w))) = fst (get_urls w).
Proof.
  destruct req as [[f|]|url|title content]; unfold ingest.
  - pose proof (post_documents_outcome env f w) as H.
    destruct (post_documents env (Some f) w) as [r w']. cbn [snd].
    destruct H as (_ & [(row & _ & Hst & Hfp & _)|(_ & Hsame)]).
    + apply (get_urls_skips w w' row); [apply Hst|].
      rewrite Hfp. reflexivity.
    + apply get_urls_same_documents, Hsame.
  - reflexivity.
  - pose proof (post_urls_outcome env url w) as H.
    destruct (post_urls env url w) as [r w']. cbn [snd].
    destruct H as (_ & [(row & _ & Hst & Hfp)|(_ & Hsame)]).
    + apply (get_urls_skips w w' row); [apply Hst|].
      rewrite Hfp. reflexivity.
    + apply get_urls_same_documents, Hsame.
  - pose proof (post_texts_outcome env title content w) as H.
    destruct (post_texts env title content w) as [r w']. cbn [snd].
    destruct H as (_ & [(row & t & c & _ & _ & _ & Hst & _ & _ & Hfp)
                       |(_ & Hsame)]).
    + apply (get_urls_skips w w' row); [apply Hst|].
      rewrite Hfp. reflexivity.
    + apply get_urls_same_documents, Hsame.
Qed.

Arguments post_urls_search : simpl never.

(** [POST /urls/search] answers 200 only for a limit that is not
    negative, with exactly [limit] rows, or every document when the
    store holds fewer; a request without [limit] gets five.  Every
    other reply is 400 or 500, and no reply changes a table other than
    the ledger. *)
Theorem url_search_returns_limit_rows
        (env : Services) (l2_distance : vector -> vector -> Q)
        (req : SearchRequest) (w : World) :
  let limit := match search_limit req with Some n => n | None => 5 end in
  let (r, w') := post_urls_search env l2_distance req w in
  same_content (db w) (db w')
  /\ match payload r with
     | PUrlSearch rows =>
         code r = 200 /\ 0 <= limit
         /\ Z.of_nat (List.length rows)
            = Z.min limit (Z.of_nat (List.length (documents (db w))))
     | _ => code r = 400 \/ code r = 500
     end.
Proof.
  unfold post_urls_search.
  destruct (search_query req) as [query|];
    [|run2; split; [repeat split|now left]].
  destruct (Js.falsy query); [run2; split; [repeat split|now left]|].
  run2.
  pose proof (getEmbedding_frame env query w) as Hframe.
  destruct (getEmbedding env query w) as [v w1].
  simpl in Hframe. destruct Hframe as (_ & _ & Hsame).
  destruct v as [e|]; simpl; [|split; [exact Hsame|now right]].
  set (limit := match search_limit req with Some n => n | None => 5 end).
  destruct (limit <? 0) eqn:Hneg; simpl; [split; [exact Hsame|now right]|].
  destruct (BIGINT_MAX <? limit); simpl; [split; [exact Hsame|now right]|].
  split; [exact Hsame|]. split; [reflexivity|].
  apply Z.ltb_ge in Hneg. split; [exact Hneg|].
  unfold select_urls_nearest, Sql.limit.
  rewrite length_map, length_firstn, order_by_length.
  destruct Hsame as (-> & _). lia.
Qed.

(* ------------------------------------------------------------------ *)
(** ** Summaries and analyses *)

Arguments get_document_summary : simpl never.
Arguments post_document_analyze : simpl never.
Arguments complete_trimmed : simpl never.
Arguments JsExtra.trim : simpl never.

Lemma trimStart_head (s : string) :
  match JsExtra.trimStart s with
  | EmptyString => True
  | String c _ => JsExtra.is_space c = false
  end.
Proof.
  induction s as [|c s IH]; simpl; [exact I|].
  destruct (JsExtra.is_space c) eqn:E; [exact IH|exact E].
Qed.

Lemma trimEnd_head (s : string) :
  match JsExtra.trimEnd s with
  | EmptyString => True
  | String c _ => exists rest, s = String c rest
  end.
Proof.
  destruct s as [|c s]; simpl; [exact I|].
  destruct (JsExtra.trimEnd s); [|now eexists].
  destruct (JsExtra.is_space c); [exact I|now eexists].
Qed.

Lemma trimEnd_last (s : string) :
  match JsExtra.last_char (JsExtra.trimEnd s) with
  | Some c => JsExtra.is_space c = false
  | None => True
  end.
Proof.
  induction s as [|c s IH]; simpl; [exact I|].
  destruct (JsExtra.trimEnd s) as [|k ks]; simpl.
  - destruct (JsExtra.is_space c) eqn:E; simpl; [exact I|exact E].
  - exact IH.
Qed.

(** [s.trim()] neither starts nor ends with white space. *)
Lemma trim_no_outer_space (s : string) :
  JsExtra.no_outer_space (JsExtra.trim s) = true.
Proof.
  unfold JsExtra.no_outer_space, JsExtra.trim.
  pose proof (trimStart_head s) as Hs.
  pose proof (trimEnd_head (JsExtra.trimStart s)) as Hh.
  pose proof (trimEnd_last (JsExtra.trimStart s)) as Hl.
  destruct (JsExtra.trimEnd (JsExtra.trimStart s)) as [|c rest] eqn:E;
    [reflexivity|].
  destruct Hh as (rest' & Hh). rewrite Hh in Hs. cbn iota in Hs.
  rewrite Hs. cbn [negb andb].
  destruct (JsExtra.last_char (String c rest)); [now rewrite Hl|reflexivity].
Qed.

Lemma first_choice_trimmed_spec (response : ChatResponse) (s : string) :
  first_choice_trimmed response = Some s ->
  Js.falsy s = false /\ JsExtra.no_outer_space s = true.
Proof.
  unfold first_choice_trimmed.
  destruct (chat_choices response) as [|[content|] ?]; try discriminate.
  destruct (Js.falsy (JsExtra.trim content)) eqn:E; [discriminate|].
  intros H; inversion H; subst. split; [exact E|apply trim_no_outer_space].
Qed.

(** One capped chat request: the trace grows by the request, the ledger
    at most by its usage, and a result is trimmed and not empty. *)
Lemma complete_trimmed_frame (chat : LimitedChat) (req : ChatRequest)
      (max_tokens : Z) (w : World) :
  let (v, w') := complete_trimmed chat req max_tokens w in
  uploads w' = uploads w
  /\ api_calls w' = (api_calls w ++ [ChatCompletionsCreate req])%list
  /\ same_content (db w) (db w')
  /\ match v with
     | Some s => Js.falsy s = false /\ JsExtra.no_outer_space s = true
     | None => True
     end.
Proof.
  unfold complete_trimmed. run.
  destruct (chat req max_tokens) as [response|]; simpl; [|repeat split].
  destruct (chat_usage response) as [u|]; simpl.
  - match goal with |- context [logApiUsage ?m ?u ?w0] =>
      pose proof (logApiUsage_frame m u w0) as H;
      destruct (logApiUsage m u w0) as [[] w1] end.
    simpl in *. destruct H as (H1 & H2 & H3).
    split; [exact H1|]. split; [exact H2|]. split; [exact H3|].
    destruct (first_choice_trimmed response) eqn:E; [|exact I].
    now apply first_choice_trimmed_spec in E.
  - split; [reflexivity|]. split; [reflexivity|]. split; [repeat split|].
    destruct (first_choice_trimmed response) eqn:E; [|exact I].
    now apply first_choice_trimmed_spec in E.
Qed.

Lemma same_content_refl (d : Db) : same_content d d.
Proof. repeat split. Qed.

Lemma analysis_of_prompt (chat : LimitedChat) (type content : string) :
  analysis_of chat type content
  = option_map (generateInsight chat content) (analysis_prompt type).
Proof.
  unfold analysis_of, analysis_prompt, getTableOfContents, getKeyInsights,
    getReflectionQuestions.
  destruct (String.eqb type "table_of_contents"); [reflexivity|].
  destruct (String.eqb type "key_insights"); [reflexivity|].
  now destruct (String.eqb type "reflection_questions").
Qed.

Arguments analysis_of : simpl never.

Lemma complete_trimmed_value (chat : LimitedChat) (req : ChatRequest)
      (max_tokens : Z) (w : World) :
  fst (complete_trimmed chat req max_tokens w)
  = match first_choice chat req max_tokens with
    | Some text =>
        if Js.falsy (JsExtra.trim text) then None else Some (JsExtra.trim text)
    | None => None
    end.
Proof.
  unfold complete_trimmed, first_choice. run.
  destruct (chat req max_tokens) as [response|]; simpl; [|reflexivity].
  assert (Hv : first_choice_trimmed response
               = match hd None (chat_choices response) with
                 | Some text =>
                     if Js.falsy (JsExtra.trim text) then None
                     else Some (JsExtra.trim text)
                 | None => None
                 end).
  { unfold first_choice_trimmed.
    destruct (chat_choices response) as [|[text|] ?]; reflexivity. }
  destruct (chat_usage response) as [u|]; simpl; [|exact Hv].
  destruct (logApiUsage _ _ _). exact Hv.
Qed.

(** [GET /documents/:id/summary], case by case.  A missing document
    is answered [404 Document not found] and a document whose content is
    [NULL] or empty [400 Document has no content to summarize], both
    without any request and without any change.  Otherwise exactly one
    chat request is sent, carrying the stored content after the
    instruction, at temperature 0.3, and no table but the ledger changes:
    the reply is 200 with the first choice of the model trimmed when that
    is not empty (it then neither starts nor ends with white space), and
    [500 Failed to generate summary] when the request fails or yields
    nothing. *)
Theorem summary_is_trimmed_and_costs_one_request
        (chat : LimitedChat) (id : Z) (w : World) :
  let (r, w') := get_document_summary chat id w in
  (select_content (db w) id = None ->
   r = {| code := 404; payload := PError "Document not found" |} /\ w' = w)
  /\ (select_content (db w) id = Some None
      \/ select_content (db w) id = Some (Some "") ->
      r = {| code := 400;
             payload := PError "Document has no content to summarize" |}
      /\ w' = w)
  /\ (forall content,
        select_content (db w) id = Some (Some content) -> content <> "" ->
        let req :=
          {| chat_model := "gpt-4o-mini";
             chat_system :=
               "You are a helpful assistant that summarizes documents concisely.";
             chat_user :=
               "Please provide a concise summary of the following text:"
               ++ Spec.LF ++ Spec.LF ++ content;
             chat_temperature := 3 # 10 |} in
        api_calls w' = (api_calls w ++ [ChatCompletionsCreate req])%list
        /\ uploads w' = uploads w
        /\ same_content (db w) (db w')
        /\ match first_choice chat req 250 with
           | Some text =>
               if Js.falsy (JsExtra.trim text) then
                 r = {| code := 500;
                        payload := PError "Failed to generate summary" |}
               else
                 r = {| code := 200;
                        payload := PSummary id (JsExtra.trim text) |}
                 /\ JsExtra.no_outer_space (JsExtra.trim text) = true
           | None =>
               r = {| code := 500;
                      payload := PError "Failed to generate summary" |}
           end).
Proof.
  unfold get_document_summary. run2.
  destruct (select_content (db w) id) as [[content|]|] eqn:Hsel.
  - destruct (Js.falsy content) eqn:Hc.
    + destruct content; [|discriminate]. simpl.
      split; [discriminate|]. split; [intros _; split; reflexivity|].
      intros content Heq Hne. inversion Heq; subst. now contradiction Hne.
    + unfold getSummary. rewrite Hc.
      match goal with |- context [complete_trimmed chat ?req ?n w] =>
        pose proof (complete_trimmed_frame chat req n w) as H;
        pose proof (complete_trimmed_value chat req n w) as Hval;
        destruct (complete_trimmed chat req n w) as [v w1] end.
      cbn [fst] in Hval. destruct H as (Hup & Hcalls & Hsame & Hv).
      change COMPLETION_MODEL with "gpt-4o-mini" in Hval.
      change SUMMARY_SYSTEM_PROMPT
        with "You are a helpful assistant that summarizes documents concisely."
        in Hval.
      change nl with Spec.LF in Hval.
      assert (Hr : exists r,
                 (match v with
                  | Some s =>
                      if Js.falsy s
                      then respond 500 (PError "Failed to generate summary")
                      else respond 200 (PSummary id s)
                  | None => respond 500 (PError "Failed to generate summary")
                  end) w1 = (r, w1)
                 /\ match v with
                    | Some s => r = {| code := 200; payload := PSummary id s |}
                    | None =>
                        r = {| code := 500;
                               payload := PError "Failed to generate summary" |}
                    end).
      { destruct v as [s|]; [destruct Hv as (Hs & _); rewrite Hs|];
          eexists; split; reflexivity. }
      destruct Hr as (r & Hrun & Hr). run2. rewrite Hrun. clear Hrun.
      split; [discriminate|].
      split; [intros [H|H]; [discriminate|];
              inversion H; subst; discriminate|].
      intros content' Heq _. inversion Heq; subst content'. cbv zeta.
      split; [exact Hcalls|]. split; [exact Hup|]. split; [exact Hsame|].
      destruct (first_choice chat _ 250) as [text|]; [|subst v; exact Hr].
      destruct (Js.falsy (JsExtra.trim text)) eqn:Ht; subst v; [exact Hr|].
      split; [exact Hr|apply trim_no_outer_space].
  - simpl. split; [discriminate|]. split; [intros _; split; reflexivity|].
    intros content Heq. discriminate.
  - simpl. split; [intros _; split; reflexivity|].
    split; [intros [H|H]; discriminate|].
    intros content Heq. discriminate.
Qed.

(** [POST /documents/:id/analyze], case by case.  A missing or
    empty type is answered [400 Analysis type is required]; then a
    missing document [404 Document not found]; then a document whose
    content is [NULL] or empty [400 Document has no content to analyze];
    then a type other than the three known ones [400 Invalid analysis
    type]: all of them without any request and without any change.
    Otherwise exactly one chat request is sent, whose system prompt is the
    one of the type and whose user message is the stored content, at
    temperature 0.5, and no table but the ledger changes: the reply is 200
    with the type and the first choice of the model trimmed when that is
    not empty, and [500 Failed to generate <type>] when the request fails
    or yields nothing. *)
Theorem analysis_asks_with_the_prompt_of_its_type
        (chat : LimitedChat) (id : Z) (type : option string) (w : World) :
  let (r, w') := post_document_analyze chat id type w in
  (type = None \/ type = Some "" ->
   r = {| code := 400; payload := PError "Analysis type is required" |}
   /\ w' = w)
  /\ (forall t,
        type = Some t -> t <> "" ->
        (select_content (db w) id = None ->
         r = {| code := 404; payload := PError "Document not found" |}
         /\ w' = w)
        /\ (select_content (db w) id = Some None
            \/ select_content (db w) id = Some (Some "") ->
            r = {| code := 400;
                   payload := PError "Document has no content to analyze" |}
            /\ w' = w)
        /\ (forall content,
              select_content (db w) id = Some (Some content) ->
              content <> "" ->
              (t <> "table_of_contents" -> t <> "key_insights" ->
               t <> "reflection_questions" ->
               r = {| code := 400; payload := PError "Invalid analysis type" |}
               /\ w' = w)
              /\ (forall systemPrompt,
                    (t = "table_of_contents"
                     /\ systemPrompt
                        = "Generate a table of contents for the following document. List the main sections and subsections. If the document is short, create a brief outline.")
                    \/ (t = "key_insights"
                        /\ systemPrompt
                           = "Extract the key insights and main takeaways from the following text. Present them as a bulleted list.")
                    \/ (t = "reflection_questions"
                        /\ systemPrompt
                           = "Based on the following text, generate a list of 3-5 thought-provoking reflection questions that challenge the reader to think more deeply about the content.") ->
                    let req :=
                      {| chat_model := "gpt-4o-mini";
                         chat_system := systemPrompt;
                         chat_user := content;
                         chat_temperature := 5 # 10 |} in
                    api_calls w'
                    = (api_calls w ++ [ChatCompletionsCreate req])%list
                    /\ uploads w' = uploads w
                    /\ same_content (db w) (db w')
                    /\ match first_choice chat req 500 with
                       | Some text =>
                           if Js.falsy (JsExtra.trim text) then
                             r = {| code := 500;
                                    payload :=
                                      PError ("Failed to generate " ++ t) |}
                           else
                             r = {| code := 200;
                                    payload :=
                                      PAnalysis id t (JsExtra.trim text) |}
                             /\ JsExtra.no_outer_space (JsExtra.trim text)
                                = true
                       | None =>
                           r = {| code := 500;
                                  payload :=
                                    PError ("Failed to generate " ++ t) |}
                       end))).
Proof.
  unfold post_document_analyze.
  destruct type as [t|];
    [|run2; split; [intros _; split; reflexivity|]; intros t H; discriminate].
  destruct (Js.falsy t) eqn:Ht.
  { destruct t; [|discriminate]. run2.
    split; [intros _; split; reflexivity|].
    intros t H Hne. inversion H; subst. now contradiction Hne. }
  assert (Htype : Some t = None \/ Some t = Some "" -> False).
  { intros [H|H]; [discriminate|]. inversion H; subst. discriminate. }
  run2.
  destruct (select_content (db w) id) as [[content|]|] eqn:Hsel.
  - destruct (Js.falsy content) eqn:Hc.
    + destruct content; [|discriminate]. simpl.
      split; [intros H; now apply Htype in H|].
      intros t' Heq _. inversion Heq; subst t'. clear Heq.
      split; [discriminate|]. split; [intros _; split; reflexivity|].
      intros content Heq Hne. inversion Heq; subst. now contradiction Hne.
    + rewrite analysis_of_prompt.
      assert (Hknown : forall systemPrompt,
                 (t = "table_of_contents"
                  /\ systemPrompt = TABLE_OF_CONTENTS_PROMPT)
                 \/ (t = "key_insights" /\ systemPrompt = KEY_INSIGHTS_PROMPT)
                 \/ (t = "reflection_questions"
                     /\ systemPrompt = REFLECTION_QUESTIONS_PROMPT) ->
                 analysis_prompt t = Some systemPrompt)
        by (intros p [(-> & ->)|[(-> & ->)|(-> & ->)]]; reflexivity).
      assert (Hunknown : t <> "table_of_contents" -> t <> "key_insights" ->
                         t <> "reflection_questions" ->
                         analysis_prompt t = None).
      { intros H1 H2 H3. unfold analysis_prompt.
        apply String.eqb_neq in H1, H2, H3. now rewrite H1, H2, H3. }
      destruct (analysis_prompt t) as [prompt|] eqn:Hp.
      * cbn [option_map]. unfold generateInsight. rewrite Hc.
        match goal with |- context [complete_trimmed chat ?req ?n w] =>
          pose proof (complete_trimmed_frame chat req n w) as H;
          pose proof (complete_trimmed_value chat req n w) as Hval;
          destruct (complete_trimmed chat req n w) as [v w1] end.
        cbn [fst] in Hval. destruct H as (Hup & Hcalls & Hsame & Hv).
        change COMPLETION_MODEL with "gpt-4o-mini" in Hval.
        assert (Hr : exists r,
                   (match v with
                    | Some s =>
                        if Js.falsy s
                        then respond 500 (PError ("Failed to generate " ++ t))
                        else respond 200 (PAnalysis id t s)
                    | None => respond 500 (PError ("Failed to generate " ++ t))
                    end) w1 = (r, w1)
                   /\ match v with
                      | Some s =>
                          r = {| code := 200; payload := PAnalysis id t s |}
                      | None =>
                          r = {| code := 500;
                                 payload := PError ("Failed to generate " ++ t) |}
                      end).
        { destruct v as [s|]; [destruct Hv as (Hs & _); rewrite Hs|];
            eexists; split; reflexivity. }
        destruct Hr as (r & Hrun & Hr). run2. rewrite Hrun. clear Hrun.
        split; [intros H; now apply Htype in H|].
        intros t' Heq _. inversion Heq; subst t'. clear Heq.
        split; [discriminate|].
        split; [intros [H|H]; [discriminate|];
                inversion H; subst; discriminate|].
        intros content' Heq _. inversion Heq; subst content'. clear Heq.
        split.
        { intros H1 H2 H3. specialize (Hunknown H1 H2 H3). discriminate. }
        intros systemPrompt Hcase. apply Hknown in Hcase.
        assert (systemPrompt = prompt) by congruence. subst systemPrompt.
        cbv zeta.
        split; [exact Hcalls|]. split; [exact Hup|]. split; [exact Hsame|].
        destruct (first_choice chat _ 500) as [text|]; [|subst v; exact Hr].
        destruct (Js.falsy (JsExtra.trim text)) eqn:Htrim; subst v;
          [exact Hr|].
        split; [exact Hr|apply trim_no_outer_space].
      * simpl.
        split; [intros H; now apply Htype in H|].
        intros t' Heq _. inversion Heq; subst t'. clear Heq.
        split; [discriminate|].
        split; [intros [H|H]; [discriminate|];
                inversion H; subst; discriminate|].
        intros content' Heq _. inversion Heq; subst content'. clear Heq.
        split; [intros _ _ _; split; reflexivity|].
        intros systemPrompt Hcase. apply Hknown in Hcase. discriminate.
  - simpl.
    split; [intros H; now apply Htype in H|].
    intros t' Heq _. inversion Heq; subst t'. clear Heq.
    split; [discriminate|]. split; [intros _; split; reflexivity|].
    intros content Heq. discriminate.
  - simpl.
    split; [intros H; now apply Htype in H|].
    intros t' Heq _. inversion Heq; subst t'. clear Heq.
    split; [intros _; split; reflexivity|].
    split; [intros [H|H]; discriminate|].
    intros content Heq. discriminate.
Qed.

(** The two routes on document 2 of the library, with a model that
    answers with white space around its text, and on a document that
    does not exist. *)
Example summary_and_analysis_runs :
  let chat : LimitedChat :=
    fun _ _ => Some {| chat_usage := None;
                       chat_choices := [Some "  The capital of Germany. "] |} in
  let w := Fixture.world_of Fixture.library in
  get_document_summary chat 2 w
  = ({| code := 200; payload := PSummary 2 "The capital of Germany." |},
     {| db := Fixture.library; uploads := [];
        api_calls :=
          [ ChatCompletionsCreate
              {| chat_model := "gpt-4o-mini";
                 chat_system :=
                   "You are a helpful assistant that summarizes documents concisely.";
                 chat_user :=
                   "Please provide a concise summary of the following text:"
                   ++ Spec.LF ++ Spec.LF ++ "Berlin";
                 chat_temperature := 3 # 10 |} ] |})
  /\ post_document_analyze chat 2 (Some "key_insights") w
     = ({| code := 200;
           payload := PAnalysis 2 "key_insights" "The capital of Germany." |},
        {| db := Fixture.library; uploads := [];
           api_calls :=
             [ ChatCompletionsCreate
                 {| chat_model := "gpt-4o-mini";
                    chat_system :=
                      "Extract the key insights and main takeaways from the following text. Present them as a bulleted list.";
                    chat_user := "Berlin";
                    chat_temperature := 5 # 10 |} ] |})
  /\ get_document_summary chat 99 w
     = ({| code := 404; payload := PError "Document not found" |}, w)
  /\ post_document_analyze chat 99 (Some "key_insights") w
     = ({| code := 404; payload := PError "Document not found" |}, w)
  /\ post_document_analyze chat 2 (Some "outline") w
     = ({| code := 400; payload := PError "Invalid analysis type" |}, w).
Proof. repeat split; vm_compute; reflexivity. Qed.

(* ------------------------------------------------------------------ *)
(** ** Notebooks: create, list, update, delete *)

Arguments post_notebooks : simpl never.
Arguments get_notebooks : simpl never.
Arguments put_notebook : simpl never.
Arguments delete_notebook : simpl never.
Arguments get_notebook : simpl never.

Lemma nil_of_no_In {A} (l : list A) : (forall x, ~ In x l) -> l = [].
Proof.
  destruct l as [|x l]; [reflexivity|].
  intros H. destruct (H x). now left.
Qed.

Lemma notebook_members_none (d : Db) (nb : Z) :
  (forall nd, In nd (notebook_documents d) -> fst nd <> nb) ->
  notebook_members d nb = [].
Proof.
  intros H. apply nil_of_no_In. intros doc Hin.
  apply notebook_members_In in Hin. destruct Hin as (_ & Hin).
  now apply (H _ Hin).
Qed.

Lemma find_app_none {A} (f : A -> bool) (l l' : list A) :
  (forall x, In x l -> f x = false) -> find f (l ++ l') = find f l'.
Proof.
  induction l as [|x l IH]; simpl; intros H; [reflexivity|].
  rewrite (H x (or_introl eq_refl)). apply IH.
  intros y Hy. apply H. now right.
Qed.

(** A notebook is read back as created: for a title that is not
    empty and fits the column, in a state whose notebook ids were drawn
    from the sequence and whose membership rows point to stored rows,
    [POST /notebooks] answers 201 with a row that carries the next id of
    the sequence, the title, the content (the empty string when none is
    sent) and the clock reading as both timestamps; [GET /notebooks/:id]
    for that id then answers that row with no documents. *)
Theorem created_notebook_is_read_back
        (title : string) (content : option string) (s : Server) :
  Js.falsy title = false ->
  Sql.fits_varchar 255 title = true ->
  notebook_ids_below_sequence s = true ->
  members_exist (db (world s)) = true ->
  let row := {| nb_id := notebooks_id_seq s;
                nb_title := title;
                nb_content := Some (match content with
                                    | Some c => c
                                    | None => ""
                                    end);
                nb_created_at := clock (db (world s));
                nb_updated_at := clock (db (world s)) |} in
  let (r, s1) := post_notebooks (Some title) content s in
  r = {| code := 201; payload := PNotebook row |}
  /\ fst (lift (get_notebook (notebooks_id_seq s)) s1)
     = {| status := 200; body := NotebookBody row [] |}
  /\ notebooks_id_seq s1 = notebooks_id_seq s + 1
  /\ documents (db (world s1)) = documents (db (world s))
  /\ notebook_documents (db (world s1)) = notebook_documents (db (world s)).
Proof.
  intros Ht Hfit Hids Hfk row. unfold post_notebooks.
  rewrite Ht, Hfit. simpl.
  split; [reflexivity|]. split; [|repeat split].
  assert (Hold : forall n, In n (notebooks (db (world s))) ->
                           (nb_id n =? notebooks_id_seq s) = false).
  { intros n Hn. unfold notebook_ids_below_sequence in Hids.
    rewrite forallb_forall in Hids. specialize (Hids n Hn).
    apply Z.ltb_lt in Hids. apply Z.eqb_neq. lia. }
  unfold lift, get_notebook. run. unfold select_notebook. simpl.
  rewrite find_app_none by exact Hold. simpl. rewrite Z.eqb_refl. simpl.
  rewrite notebook_members_none; [reflexivity|].
  simpl. intros nd Hnd Heq.
  destruct (members_exist_spec _ _ Hfk Hnd) as ((n & Hn & En) & _).
  specialize (Hold n Hn). apply Z.eqb_neq in Hold. congruence.
Qed.

Lemma created_notebook_witness :
  let s := {| world := Fixture.world_of Fixture.library;
              notebooks_id_seq := 2 |} in
  let row := {| nb_id := 2; nb_title := "Rivers"; nb_content := Some "";
                nb_created_at := 1000; nb_updated_at := 1000 |} in
  let (r, s1) := post_notebooks (Some "Rivers") None s in
  r = {| code := 201; payload := PNotebook row |}
  /\ fst (lift (get_notebook 2) s1)
     = {| status := 200; body := NotebookBody row [] |}
  /\ notebooks_id_seq s1 = 3
  /\ documents (db (world s1)) = documents Fixture.library
  /\ notebook_documents (db (world s1)) = notebook_documents Fixture.library.
Proof.
  intros s row.
  apply (created_notebook_is_read_back "Rivers" None s); reflexivity.
Defined.

(** [GET /notebooks] changes nothing and lists every notebook
    exactly once, the most recently updated first. *)
Theorem notebook_list_is_complete_and_latest_first (w : World) :
  exists rows,
    get_notebooks w = ({| code := 200; payload := PNotebookList rows |}, w)
    /\ Permutation rows (notebooks (db w))
    /\ StronglySorted (fun a b => nb_updated_at b <= nb_updated_at a) rows.
Proof.
  unfold get_notebooks. run2. eexists. split; [reflexivity|]. split.
  - apply order_by_perm.
  - apply (order_by_desc_sorted nb_updated_at).
Qed.

Lemma insert_membership_inv (d d' : Db) (nb doc : Z) :
  insert_membership d nb doc = inr d' ->
  existsb (fun n => nb_id n =? nb) (notebooks d) = true
  /\ existsb (fun x => doc_id x =? doc) (documents d) = true
  /\ existsb (same_pair nb doc) (notebook_documents d) = false
  /\ d' = {| documents := documents d;
             notebooks := notebooks d;
             notebook_documents := (notebook_documents d ++ [(nb, doc)])%list;
             api_usage_logs := api_usage_logs d;
             next_document_id := next_document_id d;
             clock := clock d |}.
Proof.
  unfold insert_membership.
  destruct (existsb (same_pair nb doc) (notebook_documents d));
    [discriminate|].
  destruct (existsb (fun n => nb_id n =? nb) (notebooks d));
    [|discriminate].
  destruct (existsb (fun x => doc_id x =? doc) (documents d));
    [|discriminate].
  simpl. intros H; inversion H. repeat split.
Qed.

(** A notebook that has just received a document heads the list:
    when [POST /notebooks/:notebookId/documents] answers 201 in a store
    where every other notebook was last touched before the clock
    reading, the first row of [GET /notebooks] is that notebook, with
    the clock reading as [updated_at]. *)
Theorem notebook_with_new_document_heads_the_list
        (notebookId : Z) (documentId : option Z) (w : World) :
  others_are_older (db w) notebookId = true ->
  status (fst (post_notebook_documents notebookId documentId w)) = 201 ->
  match payload (fst (get_notebooks
                        (snd (post_notebook_documents notebookId documentId w))))
  with
  | PNotebookList (first :: _) =>
      nb_id first = notebookId /\ nb_updated_at first = clock (db w)
  | _ => False
  end.
Proof.
  intros Hold Hst.
  pose proof (post_notebook_documents_cases w notebookId documentId) as H.
  destruct (post_notebook_documents notebookId documentId w) as [r w'].
  cbn [fst snd] in *.
  destruct H as [(_ & doc & d' & _ & Hins & Hdb)|(Hne & _)];
    [|now destruct Hne].
  apply insert_membership_inv in Hins.
  destruct Hins as (Hex & _ & _ & Hd').
  unfold get_notebooks. run2. rewrite Hdb. subst d'.
  unfold touch_notebook. simpl.
  set (l := map _ (notebooks (db w))).
  assert (Hl : forall n, In n l ->
                 (nb_id n = notebookId /\ nb_updated_at n = clock (db w))
                 \/ (nb_id n <> notebookId /\ nb_updated_at n < clock (db w))).
  { intros n Hn. apply in_map_iff in Hn. destruct Hn as (x & <- & Hx).
    destruct (nb_id x =? notebookId) eqn:E; simpl.
    - left. apply Z.eqb_eq in E. now split.
    - right. unfold others_are_older in Hold.
      rewrite forallb_forall in Hold. specialize (Hold x Hx).
      rewrite E in Hold. simpl in Hold. apply Z.ltb_lt in Hold.
      apply Z.eqb_neq in E. now split. }
  assert (Hin : exists n, In n l /\ nb_updated_at n = clock (db w)).
  { apply existsb_exists in Hex. destruct Hex as (x & Hx & E).
    eexists. split; [apply in_map; exact Hx|]. simpl. now rewrite E. }
  pose proof (order_by_desc_sorted nb_updated_at l) as Hsorted.
  pose proof (order_by_In updated_desc l) as Hperm.
  unfold updated_desc in *.
  destruct (Sql.order_by _ l) as [|first rest].
  - destruct Hin as (n & Hn & _). apply Hperm in Hn. destruct Hn.
  - destruct Hin as (n & Hn & Hclock).
    assert (Hfirst : In first l) by (apply Hperm; now left).
    apply Hperm in Hn. inversion Hsorted as [|? ? _ Hall]; subst.
    rewrite Forall_forall in Hall.
    destruct (Hl first Hfirst) as [Hcase|(_ & Hlt)]; [exact Hcase|].
    destruct Hn as [<-|Hn]; [lia|]. specialize (Hall n Hn). lia.
Qed.

Lemma notebook_with_new_document_witness :
  match payload (fst (get_notebooks
                        (snd (post_notebook_documents 1 (Some 2)
                                (Fixture.world_of Fixture.library)))))
  with
  | PNotebookList (first :: _) => nb_id first = 1 /\ nb_updated_at first = 1000
  | _ => False
  end.
Proof.
  apply (notebook_with_new_document_heads_the_list
           1 (Some 2) (Fixture.world_of Fixture.library)); reflexivity.
Defined.

Lemma find_map_update (id : Z) (f : Notebook -> Notebook) (l : list Notebook)
      (other : Z) :
  (forall n, nb_id (f n) = nb_id n) ->
  find (fun n => nb_id n =? other)
       (map (fun x => if nb_id x =? id then f x else x) l)
  = match find (fun n => nb_id n =? other) l with
    | Some n => Some (if nb_id n =? id then f n else n)
    | None => None
    end.
Proof.
  intros Hid. induction l as [|x l IH]; simpl; [reflexivity|].
  destruct (nb_id x =? id) eqn:E.
  - rewrite Hid. destruct (nb_id x =? other); [now rewrite E|exact IH].
  - destruct (nb_id x =? other); [now rewrite E|exact IH].
Qed.

(** [PUT /notebooks/:id] writes only the fields it is sent: for
    an existing notebook, a request with a non-empty title or content
    whose resulting title fits the column answers 200 with the row as it
    is then stored; a field that is missing keeps its stored value, a
    field that is sent replaces it, the empty string included;
    [updated_at] becomes the clock reading; the id, [created_at], every
    other notebook, the documents and the memberships stay as they
    are. *)
Theorem notebook_update_writes_only_the_fields_sent
        (id : Z) (title content : option string) (w : World) (n : Notebook) :
  select_notebook (db w) id = Some n ->
  Js.falsy (Js.or_else title "") && Js.falsy (Js.or_else content "") = false ->
  Sql.fits_varchar 255 (coalesce title (nb_title n)) = true ->
  let (r, w') := put_notebook id title content w in
  exists n',
    r = {| code := 200; payload := PNotebook n' |}
    /\ select_notebook (db w') id = Some n'
    /\ nb_title n' = match title with Some t => t | None => nb_title n end
    /\ nb_content n' = match content with
                       | Some c => Some c
                       | None => nb_content n
                       end
    /\ nb_id n' = nb_id n /\ nb_created_at n' = nb_created_at n
    /\ nb_updated_at n' = clock (db w)
    /\ (forall other, other <> id ->
                      select_notebook (db w') other
                      = select_notebook (db w) other)
    /\ documents (db w') = documents (db w)
    /\ notebook_documents (db w') = notebook_documents (db w).
Proof.
  intros Hsel Hreq Hfit. unfold put_notebook. rewrite Hreq. run2.
  rewrite Hsel, Hfit. simpl.
  exists (updated_notebook (clock (db w)) title content n).
  split; [reflexivity|].
  assert (Hn : nb_id n = id).
  { unfold select_notebook in Hsel. apply find_some in Hsel.
    now apply Z.eqb_eq. }
  unfold select_notebook in *. simpl.
  split.
  { rewrite (find_map_update id (updated_notebook (clock (db w)) title content))
      by reflexivity.
    rewrite Hsel. apply Z.eqb_eq in Hn. now rewrite Hn. }
  split; [now destruct title|]. split; [reflexivity|].
  split; [reflexivity|]. split; [reflexivity|]. split; [reflexivity|].
  split; [|split; reflexivity].
  intros other Hother.
  rewrite (find_map_update id (updated_notebook (clock (db w)) title content))
    by reflexivity.
  destruct (find (fun n0 => nb_id n0 =? other) (notebooks (db w)))
    as [m|] eqn:E; [|reflexivity].
  apply find_some in E. destruct E as (_ & E). apply Z.eqb_eq in E.
  assert (Hm : (nb_id m =? id) = false) by (apply Z.eqb_neq; congruence).
  now rewrite Hm.
Qed.

Lemma notebook_update_witness :
  let (r, w') :=
    put_notebook 1 (Some "") (Some "Second thoughts")
                 (Fixture.world_of Fixture.library) in
  exists n',
    r = {| code := 200; payload := PNotebook n' |}
    /\ select_notebook (db w') 1 = Some n'
    /\ nb_title n' = ""
    /\ nb_content n' = Some "Second thoughts"
    /\ nb_id n' = 1 /\ nb_created_at n' = 200
    /\ nb_updated_at n' = 1000
    /\ (forall other, other <> 1 ->
                      select_notebook (db w') other
                      = select_notebook Fixture.library other)
    /\ documents (db w') = documents Fixture.library
    /\ notebook_documents (db w') = notebook_documents Fixture.library.
Proof.
  apply (notebook_update_writes_only_the_fields_sent
           1 (Some "") (Some "Second thoughts")
           (Fixture.world_of Fixture.library)
           {| nb_id := 1; nb_title := "Capitals"; nb_content := Some "My notes";
              nb_created_at := 200; nb_updated_at := 300 |}); reflexivity.
Defined.

Lemma filter_filter_implied {A} (f g : A -> bool) (l : list A) :
  (forall x, f x = true -> g x = true) ->
  filter f (filter g l) = filter f l.
Proof.
  intros H. induction l as [|x l IH]; simpl; [reflexivity|].
  destruct (g x) eqn:G; simpl.
  - now rewrite IH.
  - destruct (f x) eqn:F; [|exact IH].
    rewrite (H x F) in G. discriminate.
Qed.

Lemma find_filter_other (id other : Z) (l : list Notebook) :
  other <> id ->
  find (fun n => nb_id n =? other) (filter (fun n => negb (nb_id n =? id)) l)
  = find (fun n => nb_id n =? other) l.
Proof.
  intros Hother. induction l as [|x l IH]; simpl; [reflexivity|].
  destruct (nb_id x =? id) eqn:E; simpl.
  - apply Z.eqb_eq in E.
    assert (Hx : (nb_id x =? other) = false)
      by (apply Z.eqb_neq; congruence).
    now rewrite Hx.
  - destruct (nb_id x =? other); [reflexivity|exact IH].
Qed.

Lemma get_notebook_missing (id : Z) (w : World) :
  select_notebook (db w) id = None ->
  get_notebook id w
  = ({| status := 404; body := ErrorBody "Notebook not found" |}, w).
Proof. unfold get_notebook. run. now intros ->. Qed.

(** After [DELETE /notebooks/:id], whatever the reply, the
    notebook route answers 404 for that id and the notebook has no
    member left, while every document is still stored and every other
    notebook keeps its row and its members; the reply is 204 exactly
    when a notebook had the id. *)
Theorem deleted_notebook_is_gone (id : Z) (w : World) :
  let (r, w') := delete_notebook id w in
  fst (get_notebook id w')
  = {| status := 404; body := ErrorBody "Notebook not found" |}
  /\ notebook_members (db w') id = []
  /\ documents (db w') = documents (db w)
  /\ (forall other, other <> id ->
        select_notebook (db w') other = select_notebook (db w) other
        /\ notebook_members (db w') other = notebook_members (db w) other)
  /\ (code r = 204 <-> exists n, select_notebook (db w) id = Some n)
  /\ (code r = 404 <-> select_notebook (db w) id = None).
Proof.
  unfold delete_notebook. run2.
  set (d' := {| documents := documents (db w);
                notebooks := filter (fun n => negb (nb_id n =? id))
                                    (notebooks (db w));
                notebook_documents :=
                  filter (fun nd => negb (fst nd =? id))
                         (notebook_documents (db w));
                api_usage_logs := api_usage_logs (db w);
                next_document_id := next_document_id (db w);
                clock := clock (db w) |}).
  assert (Hgone : select_notebook d' id = None).
  { unfold select_notebook. simpl.
    destruct (find _ _) as [n|] eqn:E; [|reflexivity].
    apply find_some in E. destruct E as (Hin & Hid).
    apply filter_In in Hin. destruct Hin as (_ & Hne).
    rewrite Hid in Hne. discriminate. }
  assert (Hcount : forall l : list Notebook,
             Nat.eqb (List.length (filter (fun n => nb_id n =? id) l)) 0
             = match find (fun n => nb_id n =? id) l with
               | Some _ => false
               | None => true
               end).
  { induction l as [|x l IH]; simpl; [reflexivity|].
    destruct (nb_id x =? id); [reflexivity|exact IH]. }
  assert (Hnone : notebook_members d' id = []).
  { apply notebook_members_none. simpl. intros nd Hnd.
    apply filter_In in Hnd. destruct Hnd as (_ & Hne).
    apply negb_true_iff, Z.eqb_neq in Hne. exact Hne. }
  assert (Hothers : forall other, other <> id ->
             select_notebook d' other = select_notebook (db w) other
             /\ notebook_members d' other = notebook_members (db w) other).
  { intros other Hother. split.
    - unfold select_notebook. simpl. now apply find_filter_other.
    - unfold notebook_members. simpl.
      apply flat_map_ext. intros doc. f_equal.
      apply filter_filter_implied. intros nd Hnd.
      apply andb_true_iff in Hnd. destruct Hnd as (Hfst & _).
      apply Z.eqb_eq in Hfst. apply negb_true_iff, Z.eqb_neq. congruence. }
  rewrite Hcount. unfold select_notebook at 3 4.
  destruct (find (fun n => nb_id n =? id) (notebooks (db w))) as [n|]; simpl.
  - split; [rewrite get_notebook_missing; [reflexivity|exact Hgone]|].
    split; [exact Hnone|]. split; [reflexivity|]. split; [exact Hothers|].
    split; split; try discriminate; eauto.
  - split; [rewrite get_notebook_missing; [reflexivity|exact Hgone]|].
    split; [exact Hnone|]. split; [reflexivity|]. split; [exact Hothers|].
    split; split; try discriminate; try reflexivity.
    intros (n & Hn). discriminate.
Qed.

(** A document added to a notebook is listed by the notebook
    route: when [POST /notebooks/:notebookId/documents] answers 201,
    [GET /notebooks/:id] then answers the notebook with, newest first,
    the members it had plus the stored document of the id sent. *)
Theorem added_document_is_listed_in_the_notebook
        (notebookId : Z) (documentId : option Z) (w : World) :
  status (fst (post_notebook_documents notebookId documentId w)) = 201 ->
  match body (fst (get_notebook notebookId
                     (snd (post_notebook_documents notebookId documentId w))))
  with
  | NotebookBody notebook docs =>
      nb_id notebook = notebookId
      /\ (exists doc, documentId = Some (doc_id doc) /\ In doc docs)
      /\ (forall doc,
             In doc docs
             <-> In doc (notebook_members (db w) notebookId)
                 \/ (In doc (documents (db w))
                     /\ documentId = Some (doc_id doc)))
      /\ StronglySorted (fun a b => doc_created_at b <= doc_created_at a) docs
  | _ => False
  end.
Proof.
  intros Hst.
  pose proof (post_notebook_documents_cases w notebookId documentId) as H.
  destruct (post_notebook_documents notebookId documentId w) as [r w'].
  cbn [fst snd] in *.
  destruct H as [(_ & doc & d' & Hdoc & Hins & Hdb)|(Hne & _)];
    [|now destruct Hne].
  apply insert_membership_inv in Hins.
  destruct Hins as (Hnb & Hex & _ & Hd').
  assert (Hsel : exists n, select_notebook d' notebookId = Some n).
  { unfold select_notebook. rewrite Hd'. simpl.
    destruct (find _ (notebooks (db w))) as [n|] eqn:E; [now exists n|].
    apply existsb_exists in Hnb. destruct Hnb as (x & Hx & Hid).
    pose proof (find_none _ _ E x Hx) as Hno. simpl in Hno. congruence. }
  destruct Hsel as (n & Hsel).
  destruct (select_notebook_touch d' notebookId n Hsel)
    as (n' & Hsel' & Hid' & _).
  unfold get_notebook. run. rewrite Hdb, Hsel'. simpl.
  assert (Hmem : forall x,
             In x (notebook_members (touch_notebook d' notebookId) notebookId)
             <-> In x (notebook_members (db w) notebookId)
                 \/ (In x (documents (db w)) /\ documentId = Some (doc_id x))).
  { intros x. rewrite !notebook_members_In. unfold touch_notebook.
    rewrite Hd'. simpl. rewrite in_app_iff. simpl. subst documentId.
    split.
    - intros (Hx & [Hin|[Heq|[]]]); [left; now split|right].
      inversion Heq. now split.
    - intros [(Hx & Hin)|(Hx & Heq)]; (split; [exact Hx|]);
        [now left|right; left]. inversion Heq. reflexivity. }
  split.
  { rewrite Hid'. unfold select_notebook in Hsel. apply find_some in Hsel.
    now apply Z.eqb_eq. }
  split.
  { apply existsb_exists in Hex. destruct Hex as (x & Hx & Hid).
    apply Z.eqb_eq in Hid. exists x. split; [congruence|].
    apply order_by_In, Hmem. right. split; [exact Hx|congruence]. }
  split.
  { intros x. rewrite order_by_In. apply Hmem. }
  apply (order_by_desc_sorted doc_created_at).
Qed.

Lemma added_document_witness :
  match body (fst (get_notebook 1
                     (snd (post_notebook_documents 1 (Some 2)
                             (Fixture.world_of Fixture.library)))))
  with
  | NotebookBody notebook docs =>
      nb_id notebook = 1
      /\ (exists doc, Some 2 = Some (doc_id doc) /\ In doc docs)
      /\ (forall doc,
             In doc docs
             <-> In doc (notebook_members Fixture.library 1)
                 \/ (In doc (documents Fixture.library)
                     /\ Some 2 = Some (doc_id doc)))
      /\ StronglySorted (fun a b => doc_created_at b <= doc_created_at a) docs
  | _ => False
  end.
Proof.
  apply (added_document_is_listed_in_the_notebook
           1 (Some 2) (Fixture.world_of Fixture.library)).
  reflexivity.
Defined.

(* ------------------------------------------------------------------ *)
(** ** The usage report *)

Arguments get_usage : simpl never.
Arguments logApiUsage : simpl never.

Lemma sum_micros_app (a b : list UsageLog) :
  sum_micros (a ++ b) = sum_micros a + sum_micros b.
Proof.
  unfold sum_micros. induction a as [|x a IH]; simpl; [reflexivity|].
  rewrite IH. lia.
Qed.

Lemma sum_tokens_app (a b : list UsageLog) :
  sum_tokens (a ++ b) = sum_tokens a + sum_tokens b.
Proof.
  unfold sum_tokens. induction a as [|x a IH]; simpl; [reflexivity|].
  rewrite IH. lia.
Qed.

Lemma sum_micros_perm (a b : list UsageLog) :
  Permutation a b -> sum_micros a = sum_micros b.
Proof.
  unfold sum_micros. induction 1; simpl; lia.
Qed.

Lemma sum_tokens_perm (a b : list UsageLog) :
  Permutation a b -> sum_tokens a = sum_tokens b.
Proof.
  unfold sum_tokens. induction 1; simpl; lia.
Qed.

Lemma totals_of_snoc (l : list UsageLog) (row : UsageLog) :
  totals_of (l ++ [row])
  = {| total_cost :=
         Some (Num.numeric6_value
                 {| Num.micros := sum_micros l + Num.micros (log_cost row) |});
       sum_total_tokens := Some (sum_tokens l + log_total_tokens row) |}.
Proof.
  unfold totals_of. destruct (l ++ [row])%list eqn:E.
  - destruct l; discriminate.
  - rewrite <- E, sum_micros_app, sum_tokens_app.
    unfold sum_micros, sum_tokens. simpl. rewrite !Z.add_0_r. reflexivity.
Qed.

(** [GET /usage] changes nothing, lists every row of the ledger
    exactly once, newest first, and its totals are the sums over the
    rows it lists: the cost in millionths and the tokens; both are null
    exactly when it lists no row. *)
Theorem usage_report_sums_the_rows_it_lists (w : World) :
  exists logs totals,
    get_usage w = ({| code := 200; payload := PUsage logs totals |}, w)
    /\ Permutation logs (api_usage_logs (db w))
    /\ StronglySorted (fun a b => log_created_at b <= log_created_at a) logs
    /\ match logs with
       | [] => total_cost totals = None /\ sum_total_tokens totals = None
       | _ =>
           total_cost totals
           = Some (Num.numeric6_value {| Num.micros := sum_micros logs |})
           /\ sum_total_tokens totals = Some (sum_tokens logs)
       end.
Proof.
  unfold get_usage. run2. eexists. eexists. split; [reflexivity|].
  pose proof (order_by_perm log_created_desc (api_usage_logs (db w))) as Hperm.
  split; [exact Hperm|].
  split; [apply (order_by_desc_sorted log_created_at)|].
  rewrite (sum_micros_perm _ _ Hperm), (sum_tokens_perm _ _ Hperm).
  destruct (api_usage_logs (db w)) as [|x l].
  - simpl. split; reflexivity.
  - destruct (Sql.order_by log_created_desc (x :: l)) as [|y l'] eqn:E'.
    + apply Permutation_nil in Hperm. discriminate.
    + split; reflexivity.
Qed.

(** Every metered call shows in the report.  After [logApiUsage]
    has run for a model whose name fits its [VARCHAR(255)] column and a
    response whose three token counts fit their [INTEGER] columns,
    [GET /usage] lists the rows it listed before and one more,
    with the model and the counts of the call and, as its cost, the
    formula in doubles rounded to six decimals, within 0.0000005001 of
    the formula on the rates of the price table; its
    totals have grown by the total tokens of the call and by that cost as
    stored.  When the name or a count does not fit, the insert fails and
    the report is as it was. *)
Theorem logged_call_shows_in_the_usage_report
        (model : string) (u : Usage) (w : World) :
  let p := tokens_or_zero (prompt_tokens u) in
  let c := tokens_or_zero (completion_tokens u) in
  let t := tokens_or_zero (total_tokens u) in
  let fit := (String.length model <= 255)%nat
             /\ -2147483648 <= p <= 2147483647 /\ -2147483648 <= c <= 2147483647
             /\ -2147483648 <= t <= 2147483647 in
  let w' := snd (logApiUsage model (Some u) w) in
  let before := api_usage_logs (db w) in
  (fit ->
   exists logs totals stored,
     fst (get_usage w') = {| code := 200; payload := PUsage logs totals |}
     /\ Permutation logs
          (before ++ [ {| log_model := model; log_prompt_tokens := p;
                          log_completion_tokens := c; log_total_tokens := t;
                          log_cost := stored;
                          log_created_at := clock (db w) |} ])
     /\ Num.micros stored
        = Num.round_half_away
            (Double.shortest (Spec.cost_in_doubles model p c) * 1000000)
     /\ (Qabs (Num.numeric6_value stored - Spec.cost model p c)
         <= 5001 # 10000000000)%Q
     /\ total_cost totals
        = Some (Num.numeric6_value
                  {| Num.micros := sum_micros before + Num.micros stored |})
     /\ sum_total_tokens totals = Some (sum_tokens before + t))
  /\ (~ fit -> fst (get_usage w') = fst (get_usage w)).
Proof.
  cbv zeta.
  pose proof (logApiUsage_ledger model (Some u) w) as Hledger.
  cbv zeta in Hledger.
  destruct (usage_log_row_cases model (tokens_or_zero (prompt_tokens u))
              (tokens_or_zero (completion_tokens u))
              (tokens_or_zero (total_tokens u)) (clock (db w))) as (Hin & Hout).
  unfold get_usage. run2. split.
  - intros Hfit. destruct (Hin Hfit) as (stored & Hrow & Hmicros & Hclose & _).
    rewrite Hrow in Hledger. rewrite Hledger.
    eexists. eexists. exists stored. split; [reflexivity|].
    split; [apply order_by_perm|]. split; [exact Hmicros|].
    split; [exact Hclose|].
    rewrite totals_of_snoc. split; reflexivity.
  - intros Hfit. rewrite (Hout Hfit), app_nil_r in Hledger.
    now rewrite Hledger.
Qed.

(** One embedding token on an empty ledger: the report lists the row,
    at cost 0.000000. *)
Example metered_call_in_the_report :
  fst (get_usage
         (snd (logApiUsage "text-embedding-ada-002"
                 (Some {| prompt_tokens := Some 1;
                          completion_tokens := Some 0;
                          total_tokens := Some 1 |})
                 (Fixture.world_of Fixture.empty_db))))
  = {| code := 200;
       payload :=
         PUsage [ {| log_model := "text-embedding-ada-002";
                     log_prompt_tokens := 1; log_completion_tokens := 0;
                     log_total_tokens := 1;
                     log_cost := {| Num.micros := 0 |};
                     log_created_at := 1000 |} ]
                {| total_cost := Some (0 # 1000000);
                   sum_total_tokens := Some 1 |} |}.
Proof. vm_compute. reflexivity. Qed.

(* ------------------------------------------------------------------ *)
(** ** The text of a scraped PDF *)

Lemma append_nil_l (s : string) : "" ++ s = s.
Proof. reflexivity. Qed.

Lemma page_loop_weave {number : Type} (y_diff : number -> number -> Q)
      (items : list (TextItem number)) (lastY : option number)
      (pageText : string) :
  exists seps,
    List.length seps = List.length items
    /\ page_loop y_diff items lastY pageText
       = pageText ++ weave seps (map str items)
    /\ Forall (fun s => s = "" \/ s = " " \/ s = nl \/ s = nl ++ nl) seps
    /\ match items with
       | item :: _ => hd "" seps = separator y_diff lastY pageText item
       | [] => True
       end.
Proof.
  revert lastY pageText.
  induction items as [|item rest IH]; intros lastY pageText.
  - exists []. simpl. rewrite append_empty_r. repeat split. constructor.
  - simpl.
    destruct (IH (Some (transform5 item))
                 (pageText ++ separator y_diff lastY pageText item ++ str item))
      as (seps & Hlen & Hloop & Hall & _).
    exists (separator y_diff lastY pageText item :: seps).
    split; [simpl; now rewrite Hlen|]. split.
    + rewrite Hloop. simpl. now rewrite !append_assoc.
    + split; [|reflexivity]. constructor; [|exact Hall].
      unfold separator. destruct lastY as [y|]; [|now left].
      destruct (negb (Qle_bool _ 5)).
      * destruct (negb (Qle_bool _ 15)); tauto.
      * destruct (_ && _); tauto.
Qed.

(** The text [scrapePdf] builds for a page holds the strings of
    its items in their order, each after a separator that is empty, one
    space, one line feed or two line feeds, and nothing else; nothing is
    written before the first item. *)
Theorem page_text_keeps_the_items_in_order
        {number : Type} (y_diff : number -> number -> Q)
        (items : list (TextItem number)) :
  exists seps,
    List.length seps = List.length items
    /\ page_text y_diff items = weave seps (map str items)
    /\ Forall (fun s => s = "" \/ s = " " \/ s = nl \/ s = nl ++ nl) seps
    /\ hd "" seps = "".
Proof.
  destruct (page_loop_weave y_diff items None "")
    as (seps & Hlen & Hloop & Hall & Hhd).
  exists seps. split; [exact Hlen|]. split; [exact Hloop|].
  split; [exact Hall|].
  destruct items as [|item rest]; [|exact Hhd].
  destruct seps; [reflexivity|discriminate].
Qed.

Lemma all_space_append (a b : string) :
  JsExtra.all_space (a ++ b) = JsExtra.all_space a && JsExtra.all_space b.
Proof.
  induction a as [|c a IH]; simpl; [reflexivity|].
  now rewrite IH, andb_assoc.
Qed.

Lemma trimStart_all_space (s : string) :
  JsExtra.all_space (JsExtra.trimStart s) = JsExtra.all_space s.
Proof.
  induction s as [|c s IH]; simpl; [reflexivity|].
  destruct (JsExtra.is_space c) eqn:E; simpl; [exact IH|now rewrite E].
Qed.

Lemma trimEnd_empty (s : string) :
  Js.falsy (JsExtra.trimEnd s) = JsExtra.all_space s.
Proof.
  induction s as [|c s IH]; simpl; [reflexivity|].
  destruct (JsExtra.trimEnd s) as [|k ks]; simpl in *.
  - rewrite <- IH, andb_true_r. now destruct (JsExtra.is_space c).
  - rewrite <- IH. now rewrite andb_false_r.
Qed.

(** [s.trim()] is empty exactly when [s] is white space only. *)
Lemma trim_empty (s : string) :
  Js.falsy (JsExtra.trim s) = JsExtra.all_space s.
Proof.
  unfold JsExtra.trim. now rewrite trimEnd_empty, trimStart_all_space.
Qed.

Lemma pages_loop_prefix {number : Type} (y_diff : number -> number -> Q)
      (pages : list (list (TextItem number))) (i : Z) (text : string) :
  exists rest, pages_loop y_diff pages i text = text ++ rest.
Proof.
  revert i text. induction pages as [|items pages IH]; intros i text; simpl.
  - exists "". now rewrite append_empty_r.
  - destruct (IH (i + 1) (text ++ page_text y_diff items ++ page_marker i))
      as (rest & ->).
    eexists. rewrite !append_assoc. reflexivity.
Qed.

(** A PDF with at least one page never scrapes to an empty
    content, whatever its pages hold: the page markers alone make the
    content non-empty, and it is trimmed.  An empty content comes only
    from a PDF without pages or from a failed download or parse. *)
Theorem pdf_with_a_page_has_content
        {number : Type} (y_diff : number -> number -> Q)
        (first : list (TextItem number))
        (others : list (list (TextItem number))) :
  Js.falsy (scrapePdf_content y_diff (Some (first :: others))) = false
  /\ JsExtra.no_outer_space (scrapePdf_content y_diff (Some (first :: others)))
     = true
  /\ scrapePdf_content y_diff (Some []) = ""
  /\ scrapePdf_content y_diff None = "".
Proof.
  split; [|split; [apply trim_no_outer_space|split; reflexivity]].
  unfold scrapePdf_content. rewrite trim_empty. cbn [pages_loop].
  destruct (pages_loop_prefix y_diff others (1 + 1)
              ("" ++ page_text y_diff first ++ page_marker 1)) as (rest & ->).
  rewrite !all_space_append. unfold page_marker. simpl.
  now rewrite andb_false_r.
Qed.

(* ------------------------------------------------------------------ *)
(** ** Names of exported files *)

Lemma digit_cases (P : ascii -> Prop) :
  P "0"%char -> P "1"%char -> P "2"%char -> P "3"%char -> P "4"%char ->
  P "5"%char -> P "6"%char -> P "7"%char -> P "8"%char -> P "9"%char ->
  forall n, P (Backup.digit n).
Proof.
  intros H0 H1 H2 H3 H4 H5 H6 H7 H8 H9 n. unfold Backup.digit.
  pose proof (Z.mod_pos_bound n 10 ltac:(lia)) as Hb.
  assert (Hk : (Z.to_nat (n mod 10) < 10)%nat) by lia.
  destruct (Z.to_nat (n mod 10)) as [|k]; [exact H0|].
  destruct k as [|k]; [exact H1|]. destruct k as [|k]; [exact H2|].
  destruct k as [|k]; [exact H3|]. destruct k as [|k]; [exact H4|].
  destruct k as [|k]; [exact H5|]. destruct k as [|k]; [exact H6|].
  destruct k as [|k]; [exact H7|]. destruct k as [|k]; [exact H8|].
  destruct k as [|k]; [exact H9|]. lia.
Qed.

Lemma is_digit_digit (n : Z) : Backup.is_digit (Backup.digit n) = true.
Proof. apply digit_cases; reflexivity. Qed.

Lemma dash_digit (n : Z) : Backup.dash (Backup.digit n) = Backup.digit n.
Proof. apply digit_cases; reflexivity. Qed.

Lemma line_terminator_digit (n : Z) :
  Backup.is_line_terminator (Backup.digit n) = false.
Proof. apply digit_cases; reflexivity. Qed.

Arguments Backup.digit : simpl never.

(** The separator and the timestamp of an export match the pattern the
    import strips. *)
Lemma timestamp_at_export (now : Backup.Date) :
  0 <= Backup.year now <= 9999 ->
  Backup.timestamp_at ("_" ++ Backup.timestamp now) = true.
Proof.
  intros Hy. unfold Backup.timestamp, Backup.toISOString.
  assert (Hrange : (0 <=? Backup.year now) && (Backup.year now <=? 9999) = true)
    by (apply andb_true_iff; split; apply Z.leb_le; lia).
  rewrite Hrange.
  unfold Backup.pad4, Backup.pad3, Backup.pad2. cbn [append Backup.dashes].
  rewrite !dash_digit. unfold Backup.timestamp_at.
  rewrite !is_digit_digit. cbn [Backup.dots_to_end].
  rewrite !line_terminator_digit. reflexivity.
Qed.

Lemma timestamp_at_needs_digit (c y : ascii) (s : string) :
  Backup.is_digit y = false ->
  Backup.timestamp_at (String c (String y s)) = false.
Proof.
  intros H. unfold Backup.timestamp_at.
  destruct s as [|a1 [|a2 [|a3 [|a4 [|a5 [|a6 [|a7 [|a8 [|a9 s]]]]]]]]];
    try reflexivity.
  rewrite H. now rewrite andb_false_r.
Qed.

Lemma strip_timestamp_export (table : string) (now : Backup.Date) :
  0 <= Backup.year now <= 9999 ->
  no_digit table = true ->
  Backup.strip_timestamp (table ++ "_" ++ Backup.timestamp now) = table.
Proof.
  intros Hy. induction table as [|c t IH]; intros Hd.
  - pose proof (timestamp_at_export now Hy) as H.
    cbn [append] in *. unfold Backup.strip_timestamp. now rewrite H.
  - simpl in Hd. apply andb_true_iff in Hd. destruct Hd as (_ & Hd).
    cbn [append Backup.strip_timestamp].
    assert (Hno : Backup.timestamp_at
                    (String c (t ++ String "_" (Backup.timestamp now)))
                  = false).
    { destruct t as [|y t']; cbn [append].
      - now apply timestamp_at_needs_digit.
      - apply timestamp_at_needs_digit. simpl in Hd.
        apply andb_true_iff in Hd. destruct Hd as (Hd & _).
        now apply negb_true_iff in Hd. }
    rewrite Hno. f_equal. now apply IH.
Qed.

Lemma append_longer (a b : string) : b <> "" -> a ++ b <> a.
Proof.
  intros Hb H. apply Hb. induction a as [|c a IH]; simpl in H; [exact H|].
  inversion H. now apply IH.
Qed.

(** An exported table is imported back into itself: the export
    script names the file of a table [table_timestamp.json]; for a year
    of four digits and a table name without digit, when the table exists
    and no table bears the name of the file, the import script, given
    the file name without its extension, strips the timestamp and
    resolves to the table. *)
Theorem exported_file_is_imported_into_its_table
        (checkTableExists : string -> bool) (table : string)
        (now : Backup.Date) :
  0 <= Backup.year now <= 9999 ->
  no_digit table = true ->
  checkTableExists table = true ->
  checkTableExists (table ++ "_" ++ Backup.timestamp now) = false ->
  Backup.export_file table now
  = (table ++ "_" ++ Backup.timestamp now) ++ ".json"
  /\ Backup.resolve_table checkTableExists
                          (table ++ "_" ++ Backup.timestamp now)
     = Some table.
Proof.
  intros Hy Hd Ht Hfile. split.
  { unfold Backup.export_file. now rewrite !append_assoc. }
  unfold Backup.resolve_table.
  rewrite Hfile, (strip_timestamp_export table now Hy Hd), Ht.
  assert (Hne : String.eqb table (table ++ "_" ++ Backup.timestamp now) = false).
  { apply String.eqb_neq. intros H. symmetry in H. revert H.
    apply append_longer. discriminate. }
  now rewrite Hne.
Qed.

Lemma exported_file_witness :
  let now := {| Backup.year := 2026; Backup.month := 3; Backup.day := 9;
                Backup.hours := 14; Backup.minutes := 5;
                Backup.seconds := 7; Backup.milliseconds := 42 |} in
  let known := fun t => String.eqb t "api_usage_logs" in
  Backup.timestamp now = "2026-03-09T14-05-07-042Z"
  /\ Backup.export_file "api_usage_logs" now
     = ("api_usage_logs" ++ "_" ++ Backup.timestamp now) ++ ".json"
  /\ Backup.resolve_table known ("api_usage_logs" ++ "_" ++ Backup.timestamp now)
     = Some "api_usage_logs".
Proof.
  intros now known. split; [reflexivity|].
  apply (exported_file_is_imported_into_its_table known "api_usage_logs" now).
  - simpl. lia.
  - reflexivity.
  - reflexivity.
  - reflexivity.
Defined.

(* ------------------------------------------------------------------ *)
(** ** Pages of the item list *)

Lemma slice_page {A} (start size : Z) (l : list A) :
  0 <= start -> 0 <= size ->
  Client.slice start (start + size) l
  = firstn (Z.to_nat size) (skipn (Z.to_nat start) l).
Proof.
  intros Hs Hn. unfold Client.slice.
  assert (H1 : (start <? 0) = false) by (apply Z.ltb_ge; lia).
  assert (H2 : (start + size <? 0) = false) by (apply Z.ltb_ge; lia).
  rewrite H1, H2.
  set (len := Z.of_nat (List.length l)).
  destruct (Z.le_gt_cases start len) as [Hle|Hgt].
  - rewrite (Z.min_l start len) by lia.
    destruct (Z.le_gt_cases (start + size) len) as [Hle'|Hgt'].
    + rewrite Z.min_l by lia. f_equal. lia.
    + rewrite Z.min_r by lia.
      rewrite (firstn_all2 (n := Z.to_nat size)).
      * apply firstn_all2. rewrite length_skipn. lia.
      * rewrite length_skipn. lia.
  - rewrite !Z.min_r by lia.
    rewrite (skipn_all2 (n := Z.to_nat start)) by lia.
    rewrite skipn_all2 by lia. now rewrite !firstn_nil.
Qed.

Lemma chunks_concat {A} (size pages : nat) (l : list A) :
  (List.length l <= pages * size)%nat ->
  List.concat (map (fun p => firstn size (skipn (p * size) l)) (seq 0 pages)) = l.
Proof.
  revert l. induction pages as [|pages IH]; intros l Hlen.
  - destruct l; [reflexivity|simpl in Hlen; lia].
  - cbn [seq map List.concat]. rewrite <- seq_shift, map_map.
    rewrite (map_ext _ (fun p => firstn size (skipn (p * size) (skipn size l)))).
    + rewrite IH; [apply firstn_skipn|]. rewrite length_skipn. lia.
    + intros p. rewrite skipn_skipn. do 2 f_equal. lia.
Qed.

Lemma totalPages_covers {A} (allItems : list A) (itemsPerPage : Z) :
  0 < itemsPerPage ->
  1 <= Client.totalPages allItems itemsPerPage
  /\ Z.of_nat (List.length allItems)
     <= Client.totalPages allItems itemsPerPage * itemsPerPage
  /\ (Client.totalPages allItems itemsPerPage - 1) * itemsPerPage
     < Z.max 1 (Z.of_nat (List.length allItems)).
Proof.
  intros Hn. unfold Client.totalPages, JsExtra.ceil_div.
  set (len := Z.of_nat (List.length allItems)).
  assert (Hlen : 0 <= len) by (unfold len; lia).
  pose proof (Z.div_mod (len + itemsPerPage - 1) itemsPerPage ltac:(lia)) as Hdm.
  pose proof (Z.mod_pos_bound (len + itemsPerPage - 1) itemsPerPage Hn) as Hb.
  assert (Hq : 0 <= (len + itemsPerPage - 1) / itemsPerPage)
    by (apply Z.div_pos; lia).
  split; [lia|]. split; nia.
Qed.

(** The pages of the item list partition it: for a positive page
    size, the pages 1 to [totalPages], one after the other, are the
    whole list in its order; every such page holds at most the page
    size, and none is empty unless the list is. *)
Theorem pages_partition_the_item_list
        {A : Type} (allItems : list A) (itemsPerPage : Z) :
  0 < itemsPerPage ->
  List.concat (map (fun p => Client.page_items allItems itemsPerPage (Z.of_nat p))
              (seq 1 (Z.to_nat (Client.totalPages allItems itemsPerPage))))
  = allItems
  /\ forall currentPage,
       1 <= currentPage <= Client.totalPages allItems itemsPerPage ->
       Z.of_nat (List.length
                   (Client.page_items allItems itemsPerPage currentPage))
       <= itemsPerPage
       /\ (Client.page_items allItems itemsPerPage currentPage = [] ->
           allItems = []).
Proof.
  intros Hn.
  destruct (totalPages_covers allItems itemsPerPage Hn) as (H1 & Hcover & Hlast).
  assert (Hpage : forall p, 1 <= p ->
             Client.page_items allItems itemsPerPage p
             = firstn (Z.to_nat itemsPerPage)
                      (skipn (Z.to_nat ((p - 1) * itemsPerPage)) allItems)).
  { intros p Hp. unfold Client.page_items. apply slice_page; nia. }
  split.
  - rewrite <- seq_shift, map_map.
    rewrite (map_ext _ (fun p => firstn (Z.to_nat itemsPerPage)
                                   (skipn (p * Z.to_nat itemsPerPage) allItems))).
    + apply chunks_concat. nia.
    + intros p. rewrite Hpage by lia. do 2 f_equal. nia.
  - intros p Hp. rewrite Hpage by lia. split.
    + rewrite length_firstn. lia.
    + intros Hempty.
      assert (Hlen : List.length
                       (firstn (Z.to_nat itemsPerPage)
                          (skipn (Z.to_nat ((p - 1) * itemsPerPage)) allItems))
                     = 0%nat) by now rewrite Hempty.
      rewrite length_firstn, length_skipn in Hlen.
      destruct allItems as [|x l]; [reflexivity|exfalso].
      simpl List.length in *. nia.
Qed.

Lemma pages_partition_witness :
  let items := [1; 2; 3; 4; 5; 6; 7]%Z in
  Client.totalPages items 3 = 3
  /\ List.concat (map (fun p => Client.page_items items 3 (Z.of_nat p))
                 (seq 1 (Z.to_nat (Client.totalPages items 3))))
     = items
  /\ forall currentPage,
       1 <= currentPage <= Client.totalPages items 3 ->
       Z.of_nat (List.length (Client.page_items items 3 currentPage)) <= 3
       /\ (Client.page_items items 3 currentPage = [] -> items = []).
Proof.
  intros items. split; [reflexivity|].
  apply (pages_partition_the_item_list items 3). lia.
Defined.

(* ------------------------------------------------------------------ *)
(** ** What ingestion sends to the embeddings endpoint *)

Lemma replace_newlines_no_line_feed (s : string) :
  JsExtra.no_line_feed (Js.replace_newlines s) = true.
Proof.
  induction s as [|c s IH]; simpl; [reflexivity|].
  rewrite IH, andb_true_r.
  destruct (Ascii.eqb c "010"%char) eqn:E; [reflexivity|now rewrite E].
Qed.

(** An ingestion request sends at most one request to the OpenAI
    API, always to the embeddings endpoint with the embedding model, and
    its input holds no line feed. *)
Theorem ingestion_sends_one_line_to_the_embeddings_endpoint
        (env : Services) (req : Ingestion) (w : World) :
  exists calls,
    api_calls (snd (ingest env req w)) = (api_calls w ++ calls)%list
    /\ (List.length calls <= 1)%nat
    /\ Forall (fun c => match c with
                        | EmbeddingsCreate model input =>
                            model = EMBEDDING_MODEL
                            /\ JsExtra.no_line_feed input = true
                        | ChatCompletionsCreate _ => False
                        end) calls.
Proof.
  destruct (ingest_cases env req w)
    as [(_ & code & message & _ & _ & _ & Hcalls)
       |(text & content & _ & _ & Hout)].
  - exists []. rewrite Hcalls, app_nil_r. repeat split; [simpl; lia|constructor].
  - unfold ingestion_outcome in Hout.
    destruct (ingest env req w) as [r w']. destruct Hout as (Hcalls & _).
    exists (embedding_requests text). split; [exact Hcalls|].
    unfold embedding_requests. destruct (Js.falsy text); simpl.
    + split; [lia|constructor].
    + split; [lia|]. constructor; [|constructor].
      split; [reflexivity|apply replace_newlines_no_line_feed].
Qed.

(* ------------------------------------------------------------------ *)
(** ** The constraints of the schema are kept *)

Lemma distinct_NoDup {A} (eqb : A -> A -> bool) (l : list A) :
  (forall a b, eqb a b = true <-> a = b) ->
  distinct eqb l = true <-> NoDup l.
Proof.
  intros Heq. induction l as [|x l IH]; simpl.
  - split; [constructor|reflexivity].
  - rewrite andb_true_iff, negb_true_iff, IH. split.
    + intros (Hx & Hl). constructor; [|exact Hl]. intros Hin.
      assert (existsb (eqb x) l = true)
        by (apply existsb_exists; exists x; split; [exact Hin|now apply Heq]).
      congruence.
    + intros H. inversion H as [|? ? Hx Hl]; subst. split; [|exact Hl].
      destruct (existsb (eqb x) l) eqn:E; [|reflexivity].
      apply existsb_exists in E. destruct E as (y & Hy & Hxy).
      apply Heq in Hxy. subst y. contradiction.
Qed.

Lemma pair_eqb_eq (a b : Z * Z) : pair_eqb a b = true <-> a = b.
Proof.
  unfold pair_eqb. destruct a as [a1 a2], b as [b1 b2]. simpl.
  rewrite andb_true_iff, !Z.eqb_eq. split.
  - intros (-> & ->). reflexivity.
  - intros H. inversion H. now split.
Qed.

Lemma existsb_In_map {A} (key : A -> Z) (l : list A) (i : Z) :
  existsb (fun x => key x =? i) l = true <-> In i (map key l).
Proof.
  rewrite existsb_exists, in_map_iff. split.
  - intros (x & Hx & E). apply Z.eqb_eq in E. now exists x.
  - intros (x & E & Hx). exists x. split; [exact Hx|now apply Z.eqb_eq].
Qed.

Lemma forallb_below {A} (key : A -> Z) (l : list A) (bound : Z) :
  forallb (fun x => key x <? bound) l = true
  <-> forall i, In i (map key l) -> i < bound.
Proof.
  rewrite forallb_forall. split.
  - intros H i Hi. apply in_map_iff in Hi. destruct Hi as (x & <- & Hx).
    apply Z.ltb_lt. now apply H.
  - intros H x Hx. apply Z.ltb_lt. apply H. now apply in_map.
Qed.

(** The executable check and the constraints agree. *)
Lemma integrity_iff (s : Server) :
  integrity s = true <-> Integrity (columns s).
Proof.
  unfold integrity, keys_are_unique, members_exist, ids_below_sequence,
    notebook_ids_below_sequence, Integrity, columns.
  rewrite !andb_true_iff, !forallb_below.
  rewrite !(distinct_NoDup Z.eqb) by apply Z.eqb_eq.
  rewrite (distinct_NoDup pair_eqb) by apply pair_eqb_eq.
  rewrite forallb_forall.
  assert (Hfk : (forall nd, In nd (notebook_documents (db (world s))) ->
                   existsb (fun n => nb_id n =? fst nd)
                           (notebooks (db (world s)))
                   && existsb (fun doc => doc_id doc =? snd nd)
                              (documents (db (world s))) = true)
                <-> (forall nd, In nd (notebook_documents (db (world s))) ->
                       In (fst nd) (map nb_id (notebooks (db (world s))))
                       /\ In (snd nd) (map doc_id (documents (db (world s)))))).
  { split; intros H nd Hnd; specialize (H nd Hnd).
    - apply andb_true_iff in H. now rewrite !existsb_In_map in H.
    - apply andb_true_iff. now rewrite !existsb_In_map. }
  rewrite Hfk. tauto.
Qed.

Lemma NoDup_snoc {A} (l : list A) (x : A) :
  NoDup l -> ~ In x l -> NoDup (l ++ [x]).
Proof.
  intros Hl Hx. apply (Permutation_NoDup (l := x :: l)).
  - apply Permutation_cons_append.
  - now constructor.
Qed.

Lemma map_filter_key {A} (key : A -> Z) (p : Z -> bool) (l : list A) :
  map key (filter (fun x => p (key x)) l) = filter p (map key l).
Proof.
  induction l as [|x l IH]; simpl; [reflexivity|].
  destruct (p (key x)); simpl; now rewrite IH.
Qed.

Section Constraints.

Context (D N : list Z) (P : list (Z * Z)) (next seq : Z).
Hypothesis Hint : Integrity (D, N, P, next, seq).

Lemma Integrity_store : Integrity ((D ++ [next])%list, N, P, next + 1, seq).
Proof.
  destruct Hint as (HD & HN & HP & Hfk & Hnext & Hseq).
  repeat split; try assumption.
  - apply NoDup_snoc; [exact HD|]. intros H. apply Hnext in H. lia.
  - now apply Hfk.
  - apply in_or_app. left. now apply Hfk.
  - intros i Hi. apply in_app_or in Hi. destruct Hi as [Hi|[<-|[]]]; [|lia].
    apply Hnext in Hi. lia.
Qed.

Lemma Integrity_delete_document (id : Z) :
  Integrity (filter (fun i => negb (i =? id)) D, N,
             filter (fun nd => negb (snd nd =? id)) P, next, seq).
Proof.
  destruct Hint as (HD & HN & HP & Hfk & Hnext & Hseq).
  repeat split; try assumption.
  - now apply NoDup_filter.
  - now apply NoDup_filter.
  - apply filter_In in H. now apply Hfk.
  - apply filter_In in H. destruct H as (H & Hne).
    apply filter_In. split; [now apply Hfk|exact Hne].
  - intros i Hi. apply filter_In in Hi. now apply Hnext.
Qed.

Lemma Integrity_create_notebook :
  Integrity (D, (N ++ [seq])%list, P, next, seq + 1).
Proof.
  destruct Hint as (HD & HN & HP & Hfk & Hnext & Hseq).
  repeat split; try assumption.
  - apply NoDup_snoc; [exact HN|]. intros H. apply Hseq in H. lia.
  - apply in_or_app. left. now apply Hfk.
  - now apply Hfk.
  - intros i Hi. apply in_app_or in Hi. destruct Hi as [Hi|[<-|[]]]; [|lia].
    apply Hseq in Hi. lia.
Qed.

Lemma Integrity_skip_sequence : Integrity (D, N, P, next, seq + 1).
Proof.
  destruct Hint as (HD & HN & HP & Hfk & Hnext & Hseq).
  repeat split; try assumption; try now apply Hfk.
  intros i Hi. apply Hseq in Hi. lia.
Qed.

Lemma Integrity_delete_notebook (id : Z) :
  Integrity (D, filter (fun i => negb (i =? id)) N,
             filter (fun nd => negb (fst nd =? id)) P, next, seq).
Proof.
  destruct Hint as (HD & HN & HP & Hfk & Hnext & Hseq).
  repeat split; try assumption.
  - now apply NoDup_filter.
  - now apply NoDup_filter.
  - apply filter_In in H. destruct H as (H & Hne).
    apply filter_In. split; [now apply Hfk|exact Hne].
  - apply filter_In in H. now apply Hfk.
  - intros i Hi. apply filter_In in Hi. now apply Hseq.
Qed.

Lemma Integrity_add_member (nb doc : Z) :
  In nb N -> In doc D -> ~ In (nb, doc) P ->
  Integrity (D, N, (P ++ [(nb, doc)])%list, next, seq).
Proof.
  intros Hnb Hdoc Hnew.
  destruct Hint as (HD & HN & HP & Hfk & Hnext & Hseq).
  repeat split; try assumption.
  - now apply NoDup_snoc.
  - apply in_app_or in H. destruct H as [H|[<-|[]]]; [now apply Hfk|exact Hnb].
  - apply in_app_or in H. destruct H as [H|[<-|[]]]; [now apply Hfk|exact Hdoc].
Qed.

Lemma Integrity_remove_member (f : Z * Z -> bool) :
  Integrity (D, N, filter f P, next, seq).
Proof.
  destruct Hint as (HD & HN & HP & Hfk & Hnext & Hseq).
  repeat split; try assumption.
  - now apply NoDup_filter.
  - apply filter_In in H. now apply Hfk.
  - apply filter_In in H. now apply Hfk.
Qed.

End Constraints.

Arguments handle : simpl never.
Arguments columns : simpl never.
Arguments integrity : simpl never.
Arguments post_documents_search : simpl never.
Arguments post_notebook_query : simpl never.
Arguments post_notebook_documents : simpl never.
Arguments delete_notebook_documents : simpl never.

(** The columns a handler of the world leaves. *)
Lemma lift_columns {A} (m : M A) (s : Server) :
  columns (snd (lift m s))
  = (map doc_id (documents (db (snd (m (world s))))),
     map nb_id (notebooks (db (snd (m (world s))))),
     notebook_documents (db (snd (m (world s)))),
     next_document_id (db (snd (m (world s)))),
     notebooks_id_seq s).
Proof. unfold lift, columns. now destruct (m (world s)). Qed.

Lemma same_content_lift {A} (m : M A) (s : Server) :
  same_content (db (world s)) (db (snd (m (world s)))) ->
  columns (snd (lift m s)) = columns s.
Proof.
  intros (H1 & H2 & H3 & H4 & _). rewrite lift_columns. unfold columns.
  now rewrite H1, H2, H3, H4.
Qed.

Lemma unchanged_lift {A} (m : M A) (s : Server) :
  snd (m (world s)) = world s -> columns (snd (lift m s)) = columns s.
Proof.
  intros H. apply same_content_lift. rewrite H. apply same_content_refl.
Qed.

Lemma stores_lift {A} (m : M A) (s : Server) (row : Document) :
  stores (world s) (snd (m (world s))) row ->
  columns (snd (lift m s))
  = ((map doc_id (documents (db (world s)))
      ++ [next_document_id (db (world s))])%list,
     map nb_id (notebooks (db (world s))),
     notebook_documents (db (world s)),
     next_document_id (db (world s)) + 1,
     notebooks_id_seq s).
Proof.
  intros (H1 & H2 & H3 & H4 & _ & H6 & _). rewrite lift_columns.
  rewrite H1, H2, H3, H4, map_app. simpl. now rewrite H6.
Qed.

Lemma post_documents_search_same_content (env : Services)
      (req : SearchRequest) (w : World) :
  same_content (db w) (db (snd (post_documents_search env req w))).
Proof.
  unfold post_documents_search.
  destruct (search_query req) as [query|]; [|apply same_content_refl].
  destruct (Js.falsy query); [apply same_content_refl|]. run.
  pose proof (getEmbedding_frame env query w) as H.
  destruct (getEmbedding env query w) as [[e|] w1]; simpl in *; apply H.
Qed.

Lemma post_urls_search_same_content (env : Services)
      (l2_distance : vector -> vector -> Q) (req : SearchRequest) (w : World) :
  same_content (db w) (db (snd (post_urls_search env l2_distance req w))).
Proof.
  unfold post_urls_search.
  destruct (search_query req) as [query|]; [|apply same_content_refl].
  destruct (Js.falsy query); [apply same_content_refl|]. run2.
  pose proof (getEmbedding_frame env query w) as H.
  destruct (getEmbedding env query w) as [[e|] w1]; simpl in *; [|apply H].
  destruct (_ || _); simpl; apply H.
Qed.

Lemma get_document_summary_same_content (chat : LimitedChat) (id : Z)
      (w : World) :
  same_content (db w) (db (snd (get_document_summary chat id w))).
Proof.
  unfold get_document_summary. run2.
  destruct (select_content (db w) id) as [[content|]|];
    try apply same_content_refl.
  destruct (Js.falsy content) eqn:Hc; [apply same_content_refl|].
  unfold getSummary. rewrite Hc.
  match goal with |- context [complete_trimmed chat ?req ?n w] =>
    pose proof (complete_trimmed_frame chat req n w) as H;
    destruct (complete_trimmed chat req n w) as [v w1] end.
  destruct H as (_ & _ & Hsame & _).
  destruct v as [s|]; simpl; [destruct (Js.falsy s)|]; exact Hsame.
Qed.

Lemma post_document_analyze_same_content (chat : LimitedChat) (id : Z)
      (type : option string) (w : World) :
  same_content (db w) (db (snd (post_document_analyze chat id type w))).
Proof.
  unfold post_document_analyze.
  destruct type as [t|]; [|apply same_content_refl].
  destruct (Js.falsy t); [apply same_content_refl|]. run2.
  destruct (select_content (db w) id) as [[content|]|];
    try apply same_content_refl.
  destruct (Js.falsy content) eqn:Hc; [apply same_content_refl|].
  rewrite analysis_of_prompt.
  destruct (analysis_prompt t) as [prompt|]; [|apply same_content_refl].
  cbn [option_map]. unfold generateInsight. rewrite Hc.
  match goal with |- context [complete_trimmed chat ?req ?n w] =>
    pose proof (complete_trimmed_frame chat req n w) as H;
    destruct (complete_trimmed chat req n w) as [v w1] end.
  destruct H as (_ & _ & Hsame & _).
  destruct v as [s|]; simpl; [destruct (Js.falsy s)|]; exact Hsame.
Qed.

Lemma post_notebook_query_same_content (env : Services) (id : Z)
      (question : option string) (w : World) :
  same_content (db w) (db (snd (post_notebook_query env id question w))).
Proof.
  destruct question as [q|]; [|apply same_content_refl].
  destruct (Js.falsy q) eqn:Hq.
  { unfold post_notebook_query. rewrite Hq. apply same_content_refl. }
  destruct (fst (getEmbedding env q w)) as [e|] eqn:He.
  - pose proof (post_notebook_query_run env id q w e Hq He) as H.
    destruct (post_notebook_query env id (Some q) w) as [r w']. apply H.
  - unfold post_notebook_query. rewrite Hq. run.
    pose proof (getEmbedding_frame env q w) as H.
    destruct (getEmbedding env q w) as [v w1]. simpl in *. subst v.
    apply H.
Qed.

Lemma map_nb_id_update (f : Notebook -> Notebook) (id : Z) (l : list Notebook) :
  (forall n, nb_id (f n) = nb_id n) ->
  map nb_id (map (fun x => if nb_id x =? id then f x else x) l) = map nb_id l.
Proof.
  intros H. rewrite map_map. apply map_ext. intros x.
  destruct (nb_id x =? id); [apply H|reflexivity].
Qed.

Lemma touch_notebook_columns (d : Db) (id : Z) :
  map nb_id (notebooks (touch_notebook d id)) = map nb_id (notebooks d)
  /\ documents (touch_notebook d id) = documents d
  /\ notebook_documents (touch_notebook d id) = notebook_documents d
  /\ next_document_id (touch_notebook d id) = next_document_id d.
Proof.
  unfold touch_notebook. simpl. split; [|repeat split].
  apply (map_nb_id_update
           (fun n => {| nb_id := nb_id n; nb_title := nb_title n;
                        nb_content := nb_content n;
                        nb_created_at := nb_created_at n;
                        nb_updated_at := clock d |})).
  reflexivity.
Qed.

Lemma delete_notebook_db (id : Z) (w : World) :
  db (snd (delete_notebook id w)) = snd (delete_notebook_rows (db w) id).
Proof.
  unfold delete_notebook. run2. now destruct (Nat.eqb _ 0).
Qed.

Lemma put_notebook_columns (id : Z) (title content : option string)
      (w : World) :
  let d' := db (snd (put_notebook id title content w)) in
  map nb_id (notebooks d') = map nb_id (notebooks (db w))
  /\ documents d' = documents (db w)
  /\ notebook_documents d' = notebook_documents (db w)
  /\ next_document_id d' = next_document_id (db w).
Proof.
  unfold put_notebook.
  destruct (_ && _); [repeat split|]. run2.
  destruct (select_notebook (db w) id) as [n|]; [|repeat split].
  destruct (negb (Sql.fits_varchar 255 _)); [repeat split|]. simpl.
  split; [|repeat split].
  now apply (map_nb_id_update (updated_notebook (clock (db w)) title content)).
Qed.

Lemma delete_notebook_documents_columns (notebookId documentId : Z)
      (w : World) :
  let d' := db (snd (delete_notebook_documents notebookId documentId w)) in
  map nb_id (notebooks d') = map nb_id (notebooks (db w))
  /\ documents d' = documents (db w)
  /\ notebook_documents d'
     = filter (fun nd => negb (same_pair notebookId documentId nd))
              (notebook_documents (db w))
  /\ next_document_id d' = next_document_id (db w).
Proof.
  unfold delete_notebook_documents. run.
  destruct (Nat.eqb _ 0); simpl; [repeat split|].
  split; [|repeat split].
  apply (map_nb_id_update
           (fun n => {| nb_id := nb_id n; nb_title := nb_title n;
                        nb_content := nb_content n;
                        nb_created_at := nb_created_at n;
                        nb_updated_at := clock (db w) |})).
  reflexivity.
Qed.

(** Every handler keeps the constraints. *)
Lemma handle_keeps_Integrity (env : Services) (chat : LimitedChat)
      (l2_distance : vector -> vector -> Q) (req : Request) (s : Server) :
  Integrity (columns s) ->
  Integrity (columns (handle env chat l2_distance req s)).
Proof.
  intros Hint. unfold handle.
  destruct req as [data|r| |id|id type|id|id|title content|url|r| |
                   |title content| |id|id title content|id
                   |notebookId documentId|notebookId documentId|id question].
  - (* POST /documents *)
    destruct data as [f|]; [|now rewrite unchanged_lift].
    pose proof (post_documents_outcome env f (world s)) as H.
    destruct (post_documents env (Some f) (world s)) as [r w'] eqn:E.
    assert (Hw : w' = snd (post_documents env (Some f) (world s)))
      by now rewrite E.
    destruct H as (_ & [(row & _ & Hst & _)|(_ & Hsame)]).
    + rewrite (stores_lift _ s row) by (rewrite <- Hw; exact Hst).
      now apply Integrity_store.
    + rewrite same_content_lift; [exact Hint|]. now rewrite <- Hw.
  - rewrite same_content_lift; [exact Hint|].
    apply post_documents_search_same_content.
  - now rewrite unchanged_lift.
  - rewrite same_content_lift; [exact Hint|].
    apply get_document_summary_same_content.
  - rewrite same_content_lift; [exact Hint|].
    apply post_document_analyze_same_content.
  - rewrite unchanged_lift; [exact Hint|].
    unfold get_document. run2. now destruct (documents_by_id _ _).
  - (* DELETE /documents/:id *)
    rewrite lift_columns, delete_document_run. simpl.
    rewrite (map_filter_key doc_id (fun i => negb (i =? id))).
    now apply Integrity_delete_document.
  - (* POST /texts *)
    pose proof (post_texts_outcome env title content (world s)) as H.
    destruct (post_texts env title content (world s)) as [r w'] eqn:E.
    assert (Hw : w' = snd (post_texts env title content (world s)))
      by now rewrite E.
    destruct H as (_ & [(row & t & c & _ & _ & _ & Hst & _)|(_ & Hsame)]).
    + rewrite (stores_lift _ s row) by (rewrite <- Hw; exact Hst).
      now apply Integrity_store.
    + rewrite same_content_lift; [exact Hint|]. now rewrite <- Hw.
  - (* POST /urls *)
    pose proof (post_urls_outcome env url (world s)) as H.
    destruct (post_urls env url (world s)) as [r w'] eqn:E.
    assert (Hw : w' = snd (post_urls env url (world s))) by now rewrite E.
    destruct H as (_ & [(row & _ & Hst & _)|(_ & Hsame)]).
    + rewrite (stores_lift _ s row) by (rewrite <- Hw; exact Hst).
      now apply Integrity_store.
    + rewrite same_content_lift; [exact Hint|]. now rewrite <- Hw.
  - rewrite same_content_lift; [exact Hint|].
    apply post_urls_search_same_content.
  - now rewrite unchanged_lift.
  - now rewrite unchanged_lift.
  - (* POST /notebooks *)
    unfold post_notebooks.
    destruct title as [t|]; [|exact Hint].
    destruct (Js.falsy t); [exact Hint|].
    destruct (negb (Sql.fits_varchar 255 t)).
    + now apply Integrity_skip_sequence.
    + unfold columns. simpl. rewrite map_app. simpl.
      now apply Integrity_create_notebook.
  - now rewrite unchanged_lift.
  - rewrite unchanged_lift; [exact Hint|].
    unfold get_notebook. run. now destruct (select_notebook _ _).
  - (* PUT /notebooks/:id *)
    rewrite lift_columns.
    destruct (put_notebook_columns id title content (world s))
      as (-> & -> & -> & ->).
    exact Hint.
  - (* DELETE /notebooks/:id *)
    rewrite lift_columns, delete_notebook_db. simpl.
    rewrite (map_filter_key nb_id (fun i => negb (i =? id))).
    now apply Integrity_delete_notebook.
  - (* POST /notebooks/:notebookId/documents *)
    rewrite lift_columns.
    pose proof (post_notebook_documents_cases (world s) notebookId documentId)
      as H.
    destruct (post_notebook_documents notebookId documentId (world s))
      as [r w'].
    destruct H as [(_ & doc & d' & _ & Hins & Hdb)|(_ & ->)]; [|exact Hint].
    simpl. rewrite Hdb.
    destruct (touch_notebook_columns d' notebookId) as (-> & -> & -> & ->).
    apply insert_membership_inv in Hins.
    destruct Hins as (Hnb & Hdoc & Hnew & ->). simpl.
    apply Integrity_add_member; [exact Hint| | |].
    + now apply existsb_In_map.
    + now apply existsb_In_map.
    + intros Hin. apply existsb_same_pair in Hin. congruence.
  - (* DELETE /notebooks/:notebookId/documents/:documentId *)
    rewrite lift_columns.
    destruct (delete_notebook_documents_columns notebookId documentId
                (world s)) as (-> & -> & -> & ->).
    now apply Integrity_remove_member.
  - rewrite same_content_lift; [exact Hint|].
    apply post_notebook_query_same_content.
Qed.

(** The constraints of the schema are an invariant of the server:
    every handler takes a state in which the three primary keys are
    unique, every membership row points to a stored notebook and a
    stored document, and every id is below its sequence, to a state in
    which this holds again; hence it holds after any run of requests,
    handled at any times, from the empty store. *)
Theorem every_request_keeps_the_integrity_of_the_store
        (env : Services) (chat : LimitedChat)
        (l2_distance : vector -> vector -> Q) :
  (forall req s,
      integrity s = true ->
      integrity (handle env chat l2_distance req s) = true)
  /\ (forall now requests,
         integrity (serve env chat l2_distance requests (initial now)) = true).
Proof.
  assert (Hstep : forall req s,
             integrity s = true ->
             integrity (handle env chat l2_distance req s) = true).
  { intros req s H. apply integrity_iff, handle_keeps_Integrity.
    now apply integrity_iff. }
  split; [exact Hstep|].
  intros now requests. unfold serve.
  assert (Hfold : forall s, integrity s = true ->
             integrity (fold_left
                          (fun st r => handle env chat l2_distance (snd r)
                                              (at_time (fst r) st))
                          requests s) = true).
  { induction requests as [|r requests IH]; intros s Hs; simpl; [exact Hs|].
    apply IH, Hstep. apply integrity_iff. apply integrity_iff in Hs.
    exact Hs. }
  apply Hfold. reflexivity.
Qed.
